(** * grblHAL motion-control core: PID, spindle encoder, synchronized
      pulse corrector and homing cycle

    A shallow embedding of the MSP432 driver (driver.c) and of limits.c,
    written function by function after the C sources, and the properties of
    the design document checked against it.  The later sections of the
    second part prove further properties of the same code: the spindle and
    coolant control, the millisecond tick, the step pulse routines and the
    homing of several axes.

    Conventions.
    - A C unsigned integer of width [w] is a [Z] reduced modulo [2^w]; a signed
      one is the representative in [-2^(w-1), 2^(w-1)).  Every place where the
      C code can wrap is written out with [Int.u32], [Int.s32], ...
    - A C [float] is an IEEE-754 binary32 number: [spec_float] with a 24 bit
      mantissa and the rounding of the standard library's specification.
    - Memory-mapped registers and [volatile] variables that interrupts change
      are inputs of the function that reads them.
    - Global structures are fields of an explicit state record which every
      function takes and returns. *)

From Stdlib Require Import ZArith Bool List Lia.
From Stdlib Require Import Floats.SpecFloat.
From stdpp Require Import base list.
Import ListNotations.

Local Open Scope Z_scope.

(** ** Machine integers *)

Module Int.

Definition wrap (w x : Z) : Z := x mod 2 ^ w.

Definition swrap (w x : Z) : Z :=
  let y := x mod 2 ^ w in
  if y <? 2 ^ (w - 1) then y else y - 2 ^ w.

Definition u8 : Z -> Z := wrap 8.
Definition u16 : Z -> Z := wrap 16.
Definition u32 : Z -> Z := wrap 32.
Definition s32 : Z -> Z := swrap 32.

(** [bit(n)] of nuts_bolts.h: [1UL << n]. *)
Definition bit (n : nat) : Z := Z.shiftl 1 (Z.of_nat n).

(** [bit_istrue(x, mask)] of nuts_bolts.h. *)
Definition bit_istrue (x mask : Z) : bool := negb (Z.land x mask =? 0).

(** The [max] macro of nuts_bolts.h on integers. *)
Definition max (a b : Z) : Z := if a >? b then a else b.

End Int.

(** ** Single-precision floating point *)

Module F32.

Definition prec : Z := 24.
Definition emax : Z := 128.

Definition float : Type := spec_float.

Definition add : float -> float -> float := SFadd prec emax.
Definition sub : float -> float -> float := SFsub prec emax.
Definition mul : float -> float -> float := SFmul prec emax.
Definition div : float -> float -> float := SFdiv prec emax.
Definition sqrtf : float -> float := SFsqrt prec emax.
Definition opp : float -> float := SFopp.

(** [m * 2^e] rounded to nearest even; [(float)n] for an integer is
    [of_Z n]. *)
Definition of_scaled (m e : Z) : float := binary_normalize prec emax m e false.
Definition of_Z (n : Z) : float := of_scaled n 0.

Definition zero : float := S754_zero false.
Definition infinity : float := S754_infinity false.
Definition one : float := of_Z 1.

(** C comparisons; every one of them is false when an operand is a NaN,
    except [!=], which is then true. *)
Definition eqb : float -> float -> bool := SFeqb.
Definition ltb : float -> float -> bool := SFltb.
Definition leb : float -> float -> bool := SFleb.
Definition gtb (x y : float) : bool := ltb y x.
Definition neqb (x y : float) : bool := negb (eqb x y).

Definition is_nan (x : float) : bool :=
  match x with S754_nan => true | _ => false end.

(** The magnitude of [x] is at most [b]: [-b <= x <= b]. *)
Definition within (b x : float) : Prop :=
  leb (opp b) x = true /\ leb x b = true.

(** The [max] macro of nuts_bolts.h on floats. *)
Definition max (a b : float) : float := if gtb a b then a else b.

(** [lroundf]: nearest integer, halfway cases away from zero.  The C
    library leaves the result unspecified for infinities and NaN; the model
    returns 0 there. *)
Definition lroundf (x : float) : Z :=
  match x with
  | S754_finite s m e =>
      let mag :=
        if 0 <=? e then Z.pos m * 2 ^ e
        else (Z.pos m + 2 ^ (- e - 1)) / 2 ^ (- e) in
      if s then - mag else mag
  | _ => 0
  end.

(** [(int32_t)x]: truncation toward zero.  Out of range the conversion is
    undefined in C; the model follows the VCVT instruction of the Cortex-M4F
    this driver runs on: it saturates, and a NaN gives 0. *)
Definition to_int32 (x : float) : Z :=
  match x with
  | S754_zero _ | S754_nan => 0
  | S754_infinity s => if s then - 2 ^ 31 else 2 ^ 31 - 1
  | S754_finite s m e =>
      let mag := if 0 <=? e then Z.pos m * 2 ^ e else Z.pos m / 2 ^ (- e) in
      let v := if s then - mag else mag in
      Z.max (- 2 ^ 31) (Z.min (2 ^ 31 - 1) v)
  end.

(** [(uint32_t)x], same conventions. *)
Definition to_uint32 (x : float) : Z :=
  match x with
  | S754_zero _ | S754_nan => 0
  | S754_infinity s => if s then 0 else 2 ^ 32 - 1
  | S754_finite s m e =>
      let mag := if 0 <=? e then Z.pos m * 2 ^ e else Z.pos m / 2 ^ (- e) in
      if s then 0 else Z.min (2 ^ 32 - 1) mag
  end.

(** A zero of either sign; a number that is neither an infinity nor a
    NaN. *)
Definition is_zero (x : float) : bool :=
  match x with S754_zero _ => true | _ => false end.

Definition is_finite (x : float) : bool :=
  match x with S754_zero _ | S754_finite _ _ _ => true | _ => false end.

End F32.

(** ** PID controller (driver.c, [pid]) *)

Module Pid.

(** [pid_values_t] is declared in settings.h; these are the fields the
    driver reads. *)
Record pid_values_t := {
  p_gain : F32.float;
  i_gain : F32.float;
  d_gain : F32.float;
  i_max_error : F32.float;
  d_max_error : F32.float;
  max_error : F32.float
}.

Record pid_t := {
  cfg : pid_values_t;
  deadband : F32.float;
  i_error : F32.float;
  d_error : F32.float;
  sample_rate_prev : F32.float;
  error : F32.float;
  pid_max_error : F32.float;  (* max_error in driver.c *)
  enabled : bool
}.

(** The limiter that [pid] applies three times, to the integral, to the
    derivative and to the output:
<<
    if(bound != 0.0f) {
        if (x > bound) x = bound;
        else if (x < -bound) x = -bound;
    }
>> *)
Definition limit (bound x : F32.float) : F32.float :=
  if F32.neqb bound F32.zero then
    if F32.gtb x bound then bound
    else if F32.ltb x (F32.opp bound) then F32.opp bound
    else x
  else x.

(** The integral term before it is limited. *)
Definition integral_sum (p : pid_t) (err sample_rate : F32.float) : F32.float :=
  F32.add (i_error p) (F32.mul err (F32.div (sample_rate_prev p) sample_rate)).

(** The derivative term before it is limited. *)
Definition derivative (p : pid_t) (err sample_rate : F32.float) : F32.float :=
  F32.mul (F32.sub err (d_error p)) (F32.div sample_rate (sample_rate_prev p)).

(** The sum of the three terms before the output is limited. *)
Definition output_sum (p : pid_t) (err sample_rate : F32.float) : F32.float :=
  let c := cfg p in
  let pidres := F32.mul (p_gain c) err in
  let i_err := limit (i_max_error c) (integral_sum p err sample_rate) in
  let pidres := F32.add pidres (F32.mul (i_gain c) i_err) in
  if F32.neqb (d_gain c) F32.zero then
    let p_error := limit (d_max_error c) (derivative p err sample_rate) in
    F32.add pidres (F32.mul (d_gain c) p_error)
  else pidres.

Definition pid (p : pid_t) (command actual sample_rate : F32.float)
  : pid_t * F32.float :=
  let c := cfg p in
  let err := F32.sub command actual in
  let i_err := limit (i_max_error c) (integral_sum p err sample_rate) in
  let d_err := if F32.neqb (d_gain c) F32.zero then err else d_error p in
  let pidres := limit (max_error c) (output_sum p err sample_rate) in
  ({| cfg := c;
      deadband := deadband p;
      i_error := i_err;
      d_error := d_err;
      sample_rate_prev := sample_rate;
      error := pidres;
      pid_max_error := pid_max_error p;
      enabled := enabled p |},
   pidres).

(** One call of [pid]: command, actual value and sample rate. *)
Definition sample : Type := F32.float * F32.float * F32.float.

(** A sequence of calls on the same controller; the result lists, call after
    call, the controller as the call left it and the correction it
    returned. *)
Fixpoint pid_calls (p : pid_t) (l : list sample) : list (pid_t * F32.float) :=
  match l with
  | [] => []
  | (command, actual, sample_rate) :: l' =>
      let r := pid p command actual sample_rate in
      r :: pid_calls (fst r) l'
  end.

End Pid.

(** ** Spindle encoder tracker (driver.c) *)

Module Encoder.

Record spindle_encoder_t := {
  ppr : Z;                   (* uint32_t: encoder pulses per revolution *)
  rpm_factor : F32.float;
  pulse_distance : F32.float;
  timer_resolution : F32.float;
  rpm : F32.float;           (* last RPM, kept when the spindle PID is on *)
  timer_value_index : Z;     (* volatile uint32_t *)
  timer_value_last : Z;      (* volatile uint32_t *)
  tpp : Z;                   (* volatile uint32_t: timer tics per pulse *)
  maximum_tt : Z;            (* uint32_t *)
  pulse_counter_trigger : Z; (* uint32_t *)
  pulse_counter_last : Z;    (* volatile uint16_t *)
  pulse_counter_index : Z;   (* volatile uint16_t *)
  error : bool
}.

Definition set_rpm (v : F32.float) (e : spindle_encoder_t)
  : spindle_encoder_t :=
  {| ppr := ppr e; rpm_factor := rpm_factor e;
     pulse_distance := pulse_distance e;
     timer_resolution := timer_resolution e; rpm := v;
     timer_value_index := timer_value_index e;
     timer_value_last := timer_value_last e; tpp := tpp e;
     maximum_tt := maximum_tt e;
     pulse_counter_trigger := pulse_counter_trigger e;
     pulse_counter_last := pulse_counter_last e;
     pulse_counter_index := pulse_counter_index e; error := error e |}.

Definition set_error (b : bool) (e : spindle_encoder_t) : spindle_encoder_t :=
  {| ppr := ppr e; rpm_factor := rpm_factor e;
     pulse_distance := pulse_distance e;
     timer_resolution := timer_resolution e; rpm := rpm e;
     timer_value_index := timer_value_index e;
     timer_value_last := timer_value_last e; tpp := tpp e;
     maximum_tt := maximum_tt e;
     pulse_counter_trigger := pulse_counter_trigger e;
     pulse_counter_last := pulse_counter_last e;
     pulse_counter_index := pulse_counter_index e; error := b |}.

Inductive spindle_data_request_t :=
| SpindleData_Counters
| SpindleData_RPM
| SpindleData_AngularPosition.

End Encoder.

(** [spindle_data_t] is declared in spindle_control.h; these are the fields
    the driver accesses, the two counters taken as [uint32_t]. *)
Module Data.

Record spindle_data_t := {
  rpm : F32.float;
  rpm_low_limit : F32.float;
  rpm_high_limit : F32.float;
  rpm_programmed : F32.float;
  index_count : Z;
  pulse_count : Z;
  angular_position : F32.float
}.

Definition set_rpm (v : F32.float) (d : spindle_data_t) : spindle_data_t :=
  {| rpm := v; rpm_low_limit := rpm_low_limit d;
     rpm_high_limit := rpm_high_limit d;
     rpm_programmed := rpm_programmed d; index_count := index_count d;
     pulse_count := pulse_count d; angular_position := angular_position d |}.

Definition set_index_count (v : Z) (d : spindle_data_t) : spindle_data_t :=
  {| rpm := rpm d; rpm_low_limit := rpm_low_limit d;
     rpm_high_limit := rpm_high_limit d;
     rpm_programmed := rpm_programmed d; index_count := v;
     pulse_count := pulse_count d; angular_position := angular_position d |}.

Definition set_pulse_count (v : Z) (d : spindle_data_t) : spindle_data_t :=
  {| rpm := rpm d; rpm_low_limit := rpm_low_limit d;
     rpm_high_limit := rpm_high_limit d;
     rpm_programmed := rpm_programmed d; index_count := index_count d;
     pulse_count := v; angular_position := angular_position d |}.

Definition set_angular_position (v : F32.float) (d : spindle_data_t)
  : spindle_data_t :=
  {| rpm := rpm d; rpm_low_limit := rpm_low_limit d;
     rpm_high_limit := rpm_high_limit d;
     rpm_programmed := rpm_programmed d; index_count := index_count d;
     pulse_count := pulse_count d; angular_position := v |}.

End Data.

Module Spindle.
Import Encoder.

(** [spindle_calc_rpm]. *)
Definition spindle_calc_rpm (enc : spindle_encoder_t) (tpp : Z) : F32.float :=
  F32.div (rpm_factor enc) (F32.of_Z tpp).

(** [spindleGetData].  [timer_value] is what [RPM_TIMER->VALUE] reads and
    [counter] what [RPM_COUNTER->R] (a 16 bit register) reads; [pid_enabled]
    is [spindle_control.pid.enabled], false in a build without
    [SPINDLE_RPM_CONTROLLED].  The function updates the global
    [spindle_data] and returns a copy of it. *)
Definition spindleGetData (enc : spindle_encoder_t) (pid_enabled : bool)
    (timer_value counter : Z) (spindle_data : Data.spindle_data_t)
    (request : spindle_data_request_t) : Data.spindle_data_t :=
  let rpm_timer_delta := Int.u32 (timer_value_last enc - timer_value) in
  let stopped := (tpp enc =? 0) || (rpm_timer_delta >? maximum_tt enc) in
  let spindle_data :=
    if stopped then Data.set_rpm F32.zero spindle_data else spindle_data in
  let rpm_timer_delta :=
    if stopped
    then Int.u32 ((counter - pulse_counter_last enc) * tpp enc)
    else rpm_timer_delta in
  match request with
  | SpindleData_Counters =>
      Data.set_pulse_count
        (Int.u32 (Data.pulse_count spindle_data
                  + (counter - pulse_counter_last enc)))
        spindle_data
  | SpindleData_RPM =>
      if stopped then spindle_data
      else Data.set_rpm
             (if pid_enabled then rpm enc
              else spindle_calc_rpm enc (tpp enc))
             spindle_data
  | SpindleData_AngularPosition =>
      Data.set_angular_position
        (F32.add
           (F32.of_Z (Data.index_count spindle_data))
           (F32.mul
              (F32.add
                 (F32.of_Z (pulse_counter_last enc - pulse_counter_index enc))
                 (if tpp enc =? 0 then F32.zero
                  else F32.div (F32.of_Z rpm_timer_delta)
                               (F32.of_Z (tpp enc))))
              (pulse_distance enc)))
        spindle_data
  end.

(** [RPMCOUNTER_IRQHandler]: a pulse capture.  [tval] is the timer value and
    [cval] the pulse counter value read on entry, [ccr0] the compare
    register [RPM_COUNTER->CCR[0]] (16 bit). *)
Definition RPMCOUNTER_IRQHandler (tval cval : Z) (enc : spindle_encoder_t)
    (spindle_data : Data.spindle_data_t) (ccr0 : Z)
  : spindle_encoder_t * Data.spindle_data_t * Z :=
  let spindle_data :=
    Data.set_pulse_count
      (Int.u32 (Data.pulse_count spindle_data
                + (cval - pulse_counter_last enc)))
      spindle_data in
  let enc :=
    {| ppr := ppr enc; rpm_factor := rpm_factor enc;
       pulse_distance := pulse_distance enc;
       timer_resolution := timer_resolution enc; rpm := rpm enc;
       timer_value_index := timer_value_index enc;
       timer_value_last := tval;
       tpp := Z.shiftr (Int.u32 (timer_value_last enc - tval)) 2;
       maximum_tt := maximum_tt enc;
       pulse_counter_trigger := pulse_counter_trigger enc;
       pulse_counter_last := cval;
       pulse_counter_index := pulse_counter_index enc;
       error := error enc |} in
  (enc, spindle_data, Int.u16 (ccr0 + pulse_counter_trigger enc)).

(** The index pulse branch of [CONTROL_IRQHandler]:
<<
    spindle_encoder.timer_value_index = RPM_TIMER->VALUE;
    if((spindle_encoder.error =
          (RPM_COUNTER->R - spindle_encoder.pulse_counter_index)
            != spindle_encoder.ppr))
        RPM_COUNTER->CCR[0] =
          RPM_COUNTER->R + spindle_encoder.pulse_counter_trigger;
    spindle_encoder.pulse_counter_index = RPM_COUNTER->R;
    spindle_data.index_count++;
>>
    The two 16 bit operands of the subtraction are promoted to [int]; the
    difference is converted to [uint32_t] for the comparison with [ppr]. *)
Definition index_mismatch (enc : spindle_encoder_t) (counter : Z) : bool :=
  negb (Int.u32 (counter - pulse_counter_index enc) =? ppr enc).

Definition spindle_index_pulse (timer_value counter : Z)
    (enc : spindle_encoder_t) (spindle_data : Data.spindle_data_t) (ccr0 : Z)
  : spindle_encoder_t * Data.spindle_data_t * Z :=
  let mismatch := index_mismatch enc counter in
  let ccr0 :=
    if mismatch then Int.u16 (counter + pulse_counter_trigger enc) else ccr0 in
  let enc :=
    {| ppr := ppr enc; rpm_factor := rpm_factor enc;
       pulse_distance := pulse_distance enc;
       timer_resolution := timer_resolution enc; rpm := rpm enc;
       timer_value_index := timer_value;
       timer_value_last := timer_value_last enc; tpp := tpp enc;
       maximum_tt := maximum_tt enc;
       pulse_counter_trigger := pulse_counter_trigger enc;
       pulse_counter_last := pulse_counter_last enc;
       pulse_counter_index := counter;
       error := mismatch |} in
  (enc,
   Data.set_index_count (Int.u32 (Data.index_count spindle_data + 1))
                        spindle_data,
   ccr0).

(** [CONTROL_IRQHandler].  [iflags] is the interrupt flag register of the
    control port; [RPM_INDEX_BIT] and [CONTROL_MASK] are pin masks of the
    board's driver.h.  The last component of the result tells whether
    [hal.control_interrupt_callback] was called. *)
Definition CONTROL_IRQHandler (RPM_INDEX_BIT CONTROL_MASK : Z)
    (iflags timer_value counter : Z)
    (enc : spindle_encoder_t) (spindle_data : Data.spindle_data_t) (ccr0 : Z)
  : spindle_encoder_t * Data.spindle_data_t * Z * bool :=
  let '(enc, spindle_data, ccr0) :=
    if negb (Z.land iflags RPM_INDEX_BIT =? 0)
    then spindle_index_pulse timer_value counter enc spindle_data ccr0
    else (enc, spindle_data, ccr0) in
  (enc, spindle_data, ccr0, negb (Z.land iflags CONTROL_MASK =? 0)).

(** The encoder part of [settings_changed], run when the configured pulses
    per revolution change: [ppr] is [settings->spindle.ppr] and
    [SystemCoreClock] the core clock in Hz.  The call of [spindleDataReset]
    that follows is not part of this function. *)
Definition settings_changed_encoder (new_ppr SystemCoreClock : Z)
    (enc : spindle_encoder_t) : spindle_encoder_t :=
  let resolution := F32.div F32.one (F32.of_Z (SystemCoreClock / 16)) in
  {| ppr := new_ppr;
     rpm_factor :=
       F32.div (F32.of_Z 60) (F32.mul resolution (F32.of_Z new_ppr));
     pulse_distance := F32.div F32.one (F32.of_Z new_ppr);
     timer_resolution := resolution;
     rpm := rpm enc;
     timer_value_index := timer_value_index enc;
     timer_value_last := timer_value_last enc;
     tpp := 0;
     maximum_tt :=
       Int.u32 (F32.to_uint32 (F32.div (F32.of_scaled 1 (-2)) resolution) * 4);
     pulse_counter_trigger := 4;
     pulse_counter_last := pulse_counter_last enc;
     pulse_counter_index := pulse_counter_index enc;
     error := error enc |}.

End Spindle.

(** ** Spindle RPM regulator (driver.c, [SysTick_Handler]) *)

Module Regulator.

Inductive pid_state_t :=
| PIDState_Disabled
| PIDState_Pending
| PIDState_Active.

Record spindle_control_t := {
  pid_state : pid_state_t;
  pid : Pid.pid_t
}.

(** What the 1 ms interrupt owns or writes: [spindle_control], the counter
    [pid_count], its two [static] locals [spid] and [tpp], the PWM compare
    register [SPINDLE_PWM_TIMER->CCR[2]], the [delay] structure (its callback
    reduced to whether one is registered) and the enable bit of the
    timer. *)
Record regulator_t := {
  spindle_control : spindle_control_t;
  pid_count : Z;       (* volatile uint32_t *)
  spid : Z;            (* static uint32_t *)
  tpp : Z;             (* static uint32_t *)
  pwm_ccr : Z;
  delay_ms : Z;        (* uint32_t *)
  delay_callback : bool;
  systick_enable : bool
}.

Section Handler.

(** [SPINDLE_PID_SAMPLE_RATE] is a constant of the board's driver.h and
    [spindle_compute_pwm_value] a function of spindle_control.c, here
    already applied to [&spindle_pwm]. *)
Variable SPINDLE_PID_SAMPLE_RATE : Z.
Variable spindle_compute_pwm_value : F32.float -> bool -> Z.

(** [spindle_rpm_pid]: one sample of the closed loop.  The last component
    is the value stored in the 16 bit compare register
    [SPINDLE_PWM_TIMER->CCR[2]]. *)
Definition spindle_rpm_pid (tpp : Z) (enc : Encoder.spindle_encoder_t)
    (spindle_data : Data.spindle_data_t) (c : spindle_control_t) (ccr : Z)
  : Encoder.spindle_encoder_t * spindle_control_t * Z :=
  let enc := Encoder.set_rpm (Spindle.spindle_calc_rpm enc tpp) enc in
  let '(p, error) :=
    Pid.pid (pid c) (Data.rpm_programmed spindle_data) (Encoder.rpm enc)
            F32.one in
  (enc,
   {| pid_state := pid_state c; pid := p |},
   Int.u16
     (spindle_compute_pwm_value
        (F32.add (Data.rpm_programmed spindle_data) error)
        (F32.neqb error F32.zero))).

(** [SysTick_Handler] with [SPINDLE_RPM_CONTROLLED] defined.  [enc] and
    [spindle_data] are the encoder and spindle data as the capture interrupts
    left them.  The last component of the result tells whether the delay
    callback was called. *)
Definition SysTick_Handler (r : regulator_t) (enc : Encoder.spindle_encoder_t)
    (spindle_data : Data.spindle_data_t)
  : regulator_t * Encoder.spindle_encoder_t * bool :=
  let c := spindle_control r in
  let '(c, count, spid', tpp', ccr, enc) :=
    match pid_state c with
    | PIDState_Pending =>
        let '(tpp0, spid0) :=
          if pid_count r =? 0 then (0, SPINDLE_PID_SAMPLE_RATE)
          else (tpp r, spid r) in
        let '(count, state) :=
          if pid_count r <? 500
          then (Int.u32 (pid_count r + 1), PIDState_Pending)
          else if Data.index_count spindle_data >? 2
               then (pid_count r, PIDState_Active)
               else (pid_count r, PIDState_Pending) in
        let c := {| pid_state := state; pid := pid c |} in
        let tpp1 := Int.u32 (tpp0 + Encoder.tpp enc) in
        let spid1 := Int.u32 (spid0 - 1) in
        if spid1 =? 0
        then (c, count, SPINDLE_PID_SAMPLE_RATE, 0, pwm_ccr r,
              Encoder.set_rpm
                (Spindle.spindle_calc_rpm enc (tpp1 / SPINDLE_PID_SAMPLE_RATE))
                enc)
        else (c, count, spid1, tpp1, pwm_ccr r, enc)
    | PIDState_Active =>
        let tpp1 := Int.u32 (tpp r + Encoder.tpp enc) in
        let spid1 := Int.u32 (spid r - 1) in
        if spid1 =? 0
        then
          let '(enc, c, ccr) :=
            spindle_rpm_pid (tpp1 / SPINDLE_PID_SAMPLE_RATE) enc spindle_data
                            c (pwm_ccr r) in
          (c, pid_count r, SPINDLE_PID_SAMPLE_RATE, 0, ccr, enc)
        else (c, pid_count r, spid1, tpp1, pwm_ccr r, enc)
    | PIDState_Disabled => (c, pid_count r, spid r, tpp r, pwm_ccr r, enc)
    end in
  let ms := if delay_ms r =? 0 then 0 else Int.u32 (delay_ms r - 1) in
  let expired := negb (delay_ms r =? 0) && (ms =? 0) in
  let enable :=
    if expired
    then match pid_state c with
         | PIDState_Disabled => false
         | _ => systick_enable r
         end
    else systick_enable r in
  ({| spindle_control := c;
      pid_count := count;
      spid := spid';
      tpp := tpp';
      pwm_ccr := ccr;
      delay_ms := ms;
      delay_callback := if expired then false else delay_callback r;
      systick_enable := enable |},
   enc,
   expired && delay_callback r).

(** The regulator state a tick leaves. *)
Definition state_after (r : regulator_t) (enc : Encoder.spindle_encoder_t)
    (spindle_data : Data.spindle_data_t) : pid_state_t :=
  pid_state (spindle_control (fst (fst (SysTick_Handler r enc spindle_data)))).

(** A run of the interrupt: before each tick the capture interrupts have
    brought the encoder's [tpp] and the index count to the given values. *)
Definition capture (tpp_now index_now : Z)
    (enc : Encoder.spindle_encoder_t) (spindle_data : Data.spindle_data_t)
  : Encoder.spindle_encoder_t * Data.spindle_data_t :=
  ({| Encoder.ppr := Encoder.ppr enc;
      Encoder.rpm_factor := Encoder.rpm_factor enc;
      Encoder.pulse_distance := Encoder.pulse_distance enc;
      Encoder.timer_resolution := Encoder.timer_resolution enc;
      Encoder.rpm := Encoder.rpm enc;
      Encoder.timer_value_index := Encoder.timer_value_index enc;
      Encoder.timer_value_last := Encoder.timer_value_last enc;
      Encoder.tpp := tpp_now;
      Encoder.maximum_tt := Encoder.maximum_tt enc;
      Encoder.pulse_counter_trigger := Encoder.pulse_counter_trigger enc;
      Encoder.pulse_counter_last := Encoder.pulse_counter_last enc;
      Encoder.pulse_counter_index := Encoder.pulse_counter_index enc;
      Encoder.error := Encoder.error enc |},
   Data.set_index_count index_now spindle_data).

Fixpoint SysTick_run (r : regulator_t) (enc : Encoder.spindle_encoder_t)
    (spindle_data : Data.spindle_data_t) (captures : list (Z * Z))
  : regulator_t * Encoder.spindle_encoder_t :=
  match captures with
  | [] => (r, enc)
  | (tpp_now, index_now) :: captures' =>
      let '(enc, spindle_data) := capture tpp_now index_now enc spindle_data in
      let '(r, enc, _) := SysTick_Handler r enc spindle_data in
      SysTick_run r enc spindle_data captures'
  end.

End Handler.

End Regulator.

(** ** Spindle-synchronized pulse corrector (driver.c,
       [stepperPulseStartSynchronized]) *)

(** [stepper_t], [segment_t] and [st_block_t] are declared in stepper.h;
    these are the fields the driver accesses.  [step_count], [n_step] and
    [id] are of the [uint_fast] types, 32 bit wide on the ARM targets. *)
Module Stepper.

Record segment_t := {
  id : Z;
  spindle_sync : bool;
  cruising : bool;
  cycles_per_tick : Z;         (* uint32_t *)
  n_step : Z;
  target_position : F32.float
}.

Record st_block_t := {
  programmed_rate : F32.float;
  steps_per_mm : F32.float
}.

Record stepper_t := {
  new_block : bool;
  step_count : Z;
  step_outbits : Z;
  dir_outbits : Z;
  exec_block : st_block_t;
  exec_segment : segment_t
}.

Definition set_new_block (b : bool) (s : stepper_t) : stepper_t :=
  {| new_block := b; step_count := step_count s;
     step_outbits := step_outbits s; dir_outbits := dir_outbits s;
     exec_block := exec_block s; exec_segment := exec_segment s |}.

Definition set_cycles_per_tick (v : Z) (s : stepper_t) : stepper_t :=
  {| new_block := new_block s; step_count := step_count s;
     step_outbits := step_outbits s; dir_outbits := dir_outbits s;
     exec_block := exec_block s;
     exec_segment :=
       {| id := id (exec_segment s);
          spindle_sync := spindle_sync (exec_segment s);
          cruising := cruising (exec_segment s);
          cycles_per_tick := v;
          n_step := n_step (exec_segment s);
          target_position := target_position (exec_segment s) |} |}.

End Stepper.

Module Sync.

(** The routine [hal.stepper_pulse_start] points to. *)
Inductive pulse_start_t :=
| PulseStart
| PulseStartDelayed
| PulseStartSynchronized.

Record spindle_sync_t := {
  block_start : F32.float;
  prev_pos : F32.float;
  steps_per_mm : F32.float;
  programmed_rate : F32.float;
  min_cycles_per_tick : Z;     (* uint32_t *)
  stepper_pulse_start_normal : pulse_start_t;
  segment_id : Z;
  pid : Pid.pid_t
}.

(** The globals the routine works on: [spindle_tracker], its [static] flag
    [sync], the routine installed in [hal.stepper_pulse_start],
    [spindle_data] and the reload register [STEPPER_TIMER->LOAD].  The
    writes to the step and direction pins are not part of the model. *)
Record driver_t := {
  spindle_tracker : spindle_sync_t;
  sync : bool;
  stepper_pulse_start : pulse_start_t;
  spindle_data : Data.spindle_data_t;
  stepper_timer_load : Z
}.

(** A computation has a value, divides an integer by zero, or does not
    return: the routine calls itself without end. *)
Inductive result (A : Type) :=
| Ok (a : A)
| DivisionByZero
| NoReturn.
Arguments Ok {A} a.
Arguments DivisionByZero {A}.
Arguments NoReturn {A}.

(** [stepperCyclesPerTick]: the value written to [STEPPER_TIMER->LOAD]. *)
Definition stepperCyclesPerTick (cycles_per_tick : Z) : Z :=
  if cycles_per_tick <? Z.shiftl 1 20 then cycles_per_tick else 1048575.

(** Line 415:
<<
    int32_t ticks = (((int32_t)stepper->step_count + step_delta)
                     * (int32_t)stepper->exec_segment->cycles_per_tick)
                    / (int32_t)stepper->step_count;
>>
    in 32 bit signed arithmetic, the quotient truncated toward zero. *)
Definition segment_ticks (step_count step_delta cycles_per_tick : Z)
  : result Z :=
  let n := Int.s32 step_count in
  if n =? 0 then DivisionByZero
  else Ok (Int.s32
             (Z.quot (Int.s32 (Int.s32 (n + step_delta)
                               * Int.s32 cycles_per_tick))
                     n)).

(** Line 417:
<<
    (uint32_t)max(ticks, (int32_t)spindle_tracker.min_cycles_per_tick)
>> *)
Definition floor_cycles_per_tick (ticks min_cycles_per_tick : Z) : Z :=
  Int.u32 (Int.max ticks (Int.s32 min_cycles_per_tick)).

(** Line 977 of [settings_changed]:
<<
    spindle_tracker.min_cycles_per_tick = hal.f_step_timer / 1000000UL
      * (settings->steppers.pulse_microseconds * 2
         + settings->steppers.pulse_delay_microseconds);
>>
    in 32 bit unsigned arithmetic; the two settings are whole numbers of
    microseconds, as the compare registers of the pulse timer take them
    (lines 1043 and 1044). *)
Definition settings_changed_min_cycles_per_tick
    (f_step_timer pulse_microseconds pulse_delay_microseconds : Z) : Z :=
  Int.u32 (f_step_timer / 1000000
           * Int.u32 (pulse_microseconds * 2 + pulse_delay_microseconds)).

(** The start of a synchronized block: lines 364 to 373. *)
Definition start_block (tracker : spindle_sync_t) (block : Stepper.st_block_t)
    (angular_position : F32.float) : spindle_sync_t :=
  {| block_start :=
       F32.mul angular_position (Stepper.programmed_rate block);
     prev_pos := F32.zero;
     steps_per_mm := Stepper.steps_per_mm block;
     programmed_rate := Stepper.programmed_rate block;
     min_cycles_per_tick := min_cycles_per_tick tracker;
     stepper_pulse_start_normal := stepper_pulse_start_normal tracker;
     segment_id := 0;
     pid :=
       {| Pid.cfg := Pid.cfg (pid tracker);
          Pid.deadband := Pid.deadband (pid tracker);
          Pid.i_error := F32.zero;
          Pid.d_error := F32.zero;
          Pid.sample_rate_prev := F32.zero;
          Pid.error := Pid.error (pid tracker);
          Pid.pid_max_error := Pid.pid_max_error (pid tracker);
          Pid.enabled := Pid.enabled (pid tracker) |} |}.

Definition set_pid (p : Pid.pid_t) (t : spindle_sync_t) : spindle_sync_t :=
  {| block_start := block_start t; prev_pos := prev_pos t;
     steps_per_mm := steps_per_mm t; programmed_rate := programmed_rate t;
     min_cycles_per_tick := min_cycles_per_tick t;
     stepper_pulse_start_normal := stepper_pulse_start_normal t;
     segment_id := segment_id t; pid := p |}.

Definition set_sample_rate_prev (v : F32.float) (p : Pid.pid_t) : Pid.pid_t :=
  {| Pid.cfg := Pid.cfg p; Pid.deadband := Pid.deadband p;
     Pid.i_error := Pid.i_error p; Pid.d_error := Pid.d_error p;
     Pid.sample_rate_prev := v; Pid.error := Pid.error p;
     Pid.pid_max_error := Pid.pid_max_error p;
     Pid.enabled := Pid.enabled p |}.

(** The end of a segment boundary: the segment id and the target position
    are recorded. *)
Definition close_boundary (seg : Stepper.segment_t) (t : spindle_sync_t)
  : spindle_sync_t :=
  {| block_start := block_start t;
     prev_pos := Stepper.target_position seg;
     steps_per_mm := steps_per_mm t; programmed_rate := programmed_rate t;
     min_cycles_per_tick := min_cycles_per_tick t;
     stepper_pulse_start_normal := stepper_pulse_start_normal t;
     segment_id := Stepper.id seg; pid := pid t |}.

Section Corrector.

(** [hal.f_step_timer], the encoder, [spindle_control.pid.enabled] and the
    values the timer and pulse counter registers read during the call. *)
Variable f_step_timer : Z.
Variable enc : Encoder.spindle_encoder_t.
Variable pid_enabled : bool.
Variable timer_value counter : Z.

(** The correction of a cruising segment: lines 401 to 419.  The result is
    the tracker, the [sync] flag, the spindle data and the new
    [cycles_per_tick] of the segment. *)
Definition correct_cruising (d : driver_t) (st : Stepper.stepper_t)
  : result (spindle_sync_t * Data.spindle_data_t * Z) :=
  let seg := Stepper.exec_segment st in
  let tracker := spindle_tracker d in
  let dt :=
    F32.div (F32.of_Z f_step_timer)
            (F32.of_Z (Int.u32 (Stepper.cycles_per_tick seg
                                * Stepper.n_step seg))) in
  let data :=
    Spindle.spindleGetData enc pid_enabled timer_value counter
                           (spindle_data d)
                           Encoder.SpindleData_AngularPosition in
  let actual_pos :=
    F32.mul (Data.angular_position data) (programmed_rate tracker) in
  let p :=
    if sync d then set_sample_rate_prev dt (pid tracker) else pid tracker in
  let actual_pos := F32.sub actual_pos (block_start tracker) in
  let '(p, correction) := Pid.pid p (prev_pos tracker) actual_pos dt in
  let step_delta := F32.to_int32 (F32.mul correction (steps_per_mm tracker)) in
  match segment_ticks (Stepper.step_count st) step_delta
                      (Stepper.cycles_per_tick seg) with
  | DivisionByZero => DivisionByZero
  | NoReturn => NoReturn
  | Ok ticks =>
      Ok (set_pid p tracker, data,
          floor_cycles_per_tick ticks (min_cycles_per_tick tracker))
  end.

(** [stepperPulseStartSynchronized].  At a new block that is not
    synchronized (lines 359 to 363) the routine installs the routine saved in
    [spindle_tracker.stepper_pulse_start_normal] and calls it with the same
    stepper state.  [stepperPulseStart] and [stepperPulseStartDelayed] then
    clear [new_block] and write to the pins only (lines 319 to 326 and 341 to
    348); were the saved routine this one, the call would enter the same
    branch again, in the same state, without end. *)
Definition stepperPulseStartSynchronized (d : driver_t)
    (st : Stepper.stepper_t) : result (driver_t * Stepper.stepper_t) :=
  let seg := Stepper.exec_segment st in
  if Stepper.new_block st && negb (Stepper.spindle_sync seg) then
    match stepper_pulse_start_normal (spindle_tracker d) with
    | PulseStartSynchronized => NoReturn
    | normal =>
        Ok ({| spindle_tracker := spindle_tracker d;
               sync := sync d;
               stepper_pulse_start := normal;
               spindle_data := spindle_data d;
               stepper_timer_load := stepper_timer_load d |},
            Stepper.set_new_block false st)
    end
  else
    let '(tracker, sync1, data) :=
      if Stepper.new_block st then
        let data :=
          Spindle.spindleGetData enc pid_enabled timer_value counter
                                 (spindle_data d)
                                 Encoder.SpindleData_AngularPosition in
        (start_block (spindle_tracker d) (Stepper.exec_block st)
                     (Data.angular_position data),
         true, data)
      else (spindle_tracker d, sync d, spindle_data d) in
    let d1 :=
      {| spindle_tracker := tracker; sync := sync1;
         stepper_pulse_start := stepper_pulse_start d;
         spindle_data := data;
         stepper_timer_load := stepper_timer_load d |} in
    if segment_id tracker =? Stepper.id seg then Ok (d1, st)
    else if Stepper.new_block st then
      Ok ({| spindle_tracker := close_boundary seg tracker; sync := sync1;
             stepper_pulse_start := stepper_pulse_start d;
             spindle_data := data;
             stepper_timer_load := stepper_timer_load d |},
          Stepper.set_new_block false st)
    else if Stepper.cruising seg then
      match correct_cruising d1 st with
      | DivisionByZero => DivisionByZero
      | NoReturn => NoReturn
      | Ok (tracker2, data2, cycles) =>
          Ok ({| spindle_tracker := close_boundary seg tracker2;
                 sync := false;
                 stepper_pulse_start := stepper_pulse_start d;
                 spindle_data := data2;
                 stepper_timer_load := stepperCyclesPerTick cycles |},
              Stepper.set_cycles_per_tick cycles st)
      end
    else
      Ok ({| spindle_tracker := close_boundary seg tracker; sync := sync1;
             stepper_pulse_start := stepper_pulse_start d;
             spindle_data := data;
             stepper_timer_load := stepper_timer_load d |},
          st).

(** The [cycles_per_tick] of the executing segment after a call. *)
Definition segment_cycles_per_tick
    (r : result (driver_t * Stepper.stepper_t)) : option Z :=
  match r with
  | Ok (_, st) => Some (Stepper.cycles_per_tick (Stepper.exec_segment st))
  | DivisionByZero | NoReturn => None
  end.

(** A cruising segment boundary: the block is not new, the segment id
    differs from the recorded one and the segment is a cruising one. *)
Definition cruising_boundary (d : driver_t) (st : Stepper.stepper_t) : Prop :=
  Stepper.new_block st = false /\
  segment_id (spindle_tracker d) <> Stepper.id (Stepper.exec_segment st) /\
  Stepper.cruising (Stepper.exec_segment st) = true.

End Corrector.

End Sync.

(** ** Homing (limits.c) *)

Module Limits.

Definition N_AXIS : nat := 3.
Definition AXES_BITMASK : Z := 7.

(** 1.5f and 5.0f. *)
Definition HOMING_AXIS_SEARCH_SCALAR : F32.float := F32.of_scaled 3 (-1).
Definition HOMING_AXIS_LOCATE_SCALAR : F32.float := F32.of_Z 5.

(** The part of [settings_t] (settings.h) that limits.c reads. *)
Record homing_settings_t := {
  pulloff : F32.float;
  force_set_origin : bool;     (* flags.force_set_origin *)
  dir_mask : Z;                (* dir_mask.value, uint8_t *)
  locate_cycles : Z;           (* uint8_t *)
  seek_rate : F32.float;
  feed_rate : F32.float
}.

Record settings_t := {
  homing : homing_settings_t;
  max_travel : list F32.float;   (* float max_travel[N_AXIS], stored negative *)
  steps_per_mm : list F32.float  (* float steps_per_mm[N_AXIS] *)
}.

(** [a[idx]] of a float array. *)
Definition at_axis (a : list F32.float) (idx : nat) : F32.float :=
  default F32.zero (a !! idx).

(** The loop that limits.c writes for every pass over the axes:
<<
    idx = N_AXIS;
    do { idx--; body(idx); } while(idx);
>>
    [for_each_axis body n a] runs the body for [n - 1] down to [0]. *)
Fixpoint for_each_axis {A : Type} (body : nat -> A -> A) (idx : nat) (a : A)
  : A :=
  match idx with
  | O => a
  | S i => for_each_axis body i (body i a)
  end.

(** Does the mask of an [axes_signals_t] hold the bit of axis [idx]? *)
Definition in_mask (mask : Z) (idx : nat) : bool :=
  Int.bit_istrue mask (Int.bit idx).

(** The position committed for a homed axis when the origin is not forced:
    with the homing direction bit of the axis set,
    [lroundf((max_travel[idx] + pulloff) * steps_per_mm[idx])], else
    [lroundf(-pulloff * steps_per_mm[idx])]; stored in an [int32_t]. *)
Definition homed_position (settings : settings_t) (pulloff : F32.float)
    (idx : nat) : Z :=
  if in_mask (dir_mask (homing settings)) idx
  then Int.s32 (F32.lroundf
                  (F32.mul (F32.add (at_axis (max_travel settings) idx) pulloff)
                           (at_axis (steps_per_mm settings) idx)))
  else Int.s32 (F32.lroundf
                  (F32.mul (F32.opp pulloff)
                           (at_axis (steps_per_mm settings) idx))).

(** The body of both loops of [limits_set_machine_positions]:
<<
    if (cycle.mask & bit(--idx))
        sys_position[idx] = value;
>> *)
Definition set_axis (cycle : Z) (value : nat -> Z) (idx : nat)
    (sys_position : list Z) : list Z :=
  if in_mask cycle idx then <[idx := value idx]> sys_position
  else sys_position.

(** [limits_set_machine_positions]; [cycle] is [cycle.mask]. *)
Definition limits_set_machine_positions (settings : settings_t) (cycle : Z)
    (add_pulloff : bool) (sys_position : list Z) : list Z :=
  let pulloff_ := if add_pulloff then pulloff (homing settings) else F32.zero in
  if force_set_origin (homing settings) then
    for_each_axis (set_axis cycle (fun _ => 0)) N_AXIS sys_position
  else
    for_each_axis (set_axis cycle (homed_position settings pulloff_))
                  N_AXIS sys_position.

(** The alarm codes of system.h that limits.c raises.  They are the
    non-zero values of an enumeration; [sys_rt_exec_alarm] holds one of them
    or 0, here [None]. *)
Inductive alarm_code_t :=
| Alarm_HardLimit
| Alarm_SoftLimit
| Alarm_HomingFailReset
| Alarm_HomingFailDoor
| Alarm_FailPulloff
| Alarm_HomingFailApproach.

(** The part of [system_t] (system.h) that the homing cycle accesses; of
    [step_control] only the [execute_sys_motion] flag is kept. *)
Record system_t := {
  homed : Z;                 (* homed.mask, uint8_t *)
  homing_axis_lock : Z;      (* homing_axis_lock.mask, uint8_t *)
  execute_sys_motion : bool
}.

(** The globals of the core the homing cycle works on, and the moves it
    hands to the planner with [plan_buffer_line], latest first, each with its
    target and feed rate. *)
Record machine_t := {
  sys : system_t;
  sys_position : list Z;               (* int32_t sys_position[N_AXIS] *)
  sys_rt_exec_state : Z;               (* volatile *)
  sys_rt_exec_alarm : option alarm_code_t;   (* volatile *)
  planned : list (list F32.float * F32.float)
}.

(** What the interrupts did between two polls of the homing loop: the steps
    the stepper interrupt took on each axis, the realtime flags that were
    set, and the state of the limit switches as [hal.limits_get_state]
    reads it.  [o_delay] are the realtime flags that interrupts set after the
    poll when it is the last of its pass, while [st_reset] and the debounce
    delay run. *)
Record observation_t := {
  o_steps : list Z;
  o_exec : Z;
  o_limits : Z;                        (* uint8_t *)
  o_delay : Z
}.

Definition interrupts (o : observation_t) (m : machine_t) : machine_t :=
  {| sys := sys m;
     sys_position :=
       imap (fun idx p => Int.s32 (p + default 0 (o_steps o !! idx)))
            (sys_position m);
     sys_rt_exec_state := Z.lor (sys_rt_exec_state m) (o_exec o);
     sys_rt_exec_alarm := sys_rt_exec_alarm m;
     planned := planned m |}.

(** Lines 235 and 236, [st_reset] and the debounce delay that end a pass.
    The cycle reads no realtime flag while they run: the flags that
    interrupts set meanwhile are pending in [sys_rt_exec_state] afterwards,
    for the next poll to find, if there is one. *)
Definition debounce (o : observation_t) (m : machine_t) : machine_t :=
  {| sys := sys m;
     sys_position := sys_position m;
     sys_rt_exec_state := Z.lor (sys_rt_exec_state m) (o_delay o);
     sys_rt_exec_alarm := sys_rt_exec_alarm m;
     planned := planned m |}.

Definition set_homing_axis_lock (mask : Z) (m : machine_t) : machine_t :=
  {| sys := {| homed := homed (sys m); homing_axis_lock := mask;
               execute_sys_motion := execute_sys_motion (sys m) |};
     sys_position := sys_position m;
     sys_rt_exec_state := sys_rt_exec_state m;
     sys_rt_exec_alarm := sys_rt_exec_alarm m;
     planned := planned m |}.

(** Modelled from the spec: the macro [system_set_exec_alarm] of system.h.
    The design has every homing failure reported as a reason, and the cycle
    reads the reason back from [sys_rt_exec_alarm]: raising an alarm stores
    its code there. *)
Definition system_set_exec_alarm (code : alarm_code_t) (m : machine_t)
  : machine_t :=
  {| sys := sys m;
     sys_position := sys_position m;
     sys_rt_exec_state := sys_rt_exec_state m;
     sys_rt_exec_alarm := Some code;
     planned := planned m |}.

(** Modelled from the spec: the macro [system_clear_exec_state_flag] of
    system.h.  It clears the given flags of [sys_rt_exec_state]; the cycle
    uses it on the motion-completion event that ends a phase, so that the
    event is not handled again. *)
Definition system_clear_exec_state_flag (mask : Z) (m : machine_t)
  : machine_t :=
  {| sys := sys m;
     sys_position := sys_position m;
     sys_rt_exec_state := Z.land (sys_rt_exec_state m) (Z.lnot mask);
     sys_rt_exec_alarm := sys_rt_exec_alarm m;
     planned := planned m |}.

(** Two properties of the globals that every step of the cycle short of
    its completion keeps: the homed flags and the size of [sys_position]. *)
Definition same_frame (m1 m2 : machine_t) : Prop :=
  homed (sys m2) = homed (sys m1) /\
  length (sys_position m2) = length (sys_position m1).

(** The state of the cycle while it polls inside a pass: the passes still to
    come after this one ([n_cycle]), the direction of the pass, the axes
    still moving and the globals. *)
Record cycle_t := {
  n_cycle : nat;
  approach : bool;
  axislock : Z;                (* axislock.mask, uint8_t *)
  machine : machine_t
}.

(** One poll ends the cycle, with the value it returns and the alarms it
    raised with [system_set_exec_alarm], in order, or leaves it polling. *)
Inductive step_t :=
| Finished (ok : bool) (m : machine_t) (raised : list alarm_code_t)
| Continue (c : cycle_t).

Inductive outcome_t :=
| Returned (ok : bool) (m : machine_t) (raised : list alarm_code_t)
| Polling (c : cycle_t).

(** What the homing cycle takes from the rest of the core.  From system.h:
    the realtime flags and the [ABORTED] test.  From system.c,
    motion_control.c and protocol.c: the conversion of step counts to machine
    positions, [mc_reset] and [protocol_execute_realtime]. *)
Record core_t := {
  EXEC_RESET : Z;
  EXEC_SAFETY_DOOR : Z;
  EXEC_CYCLE_COMPLETE : Z;
  ABORTED : machine_t -> bool;
  system_convert_array_steps_to_mpos : list Z -> list F32.float;
  mc_reset : machine_t -> machine_t;
  protocol_execute_realtime : machine_t -> machine_t
}.

Section HomingCycle.

Variable core : core_t.
Variable settings : settings_t.

(** [cycle.mask] of the axes to home. *)
Variable cycle : Z.

(** Lines 120 to 133: the search distance of the first approach. *)
Definition search_travel : F32.float :=
  for_each_axis
    (fun idx travel =>
       if in_mask cycle idx
       then F32.max travel
                    (F32.mul (F32.opp HOMING_AXIS_SEARCH_SCALAR)
                             (at_axis (max_travel settings) idx))
       else travel)
    N_AXIS F32.zero.

(** What the set-up loop of a pass (lines 143 to 164) accumulates. *)
Record pass_setup_t := {
  target : list F32.float;
  lock : Z;
  n_active_axis : Z;
  position : list Z
}.

Definition setup_axis (approach_ : bool) (travel : F32.float) (idx : nat)
    (s : pass_setup_t) : pass_setup_t :=
  if in_mask cycle idx then
    {| target :=
         <[idx := if in_mask (dir_mask (homing settings)) idx
                  then (if approach_ then F32.opp travel else travel)
                  else (if approach_ then travel else F32.opp travel)]>
           (target s);
       lock := Int.u8 (Z.lor (lock s) (Int.bit idx));
       n_active_axis := n_active_axis s + 1;
       position := <[idx := 0]> (position s) |}
  else s.

(** Lines 138 to 176: the start of a pass, up to the first poll.  The move
    is handed to the planner; [st_prep_buffer] and [st_wake_up], which start
    the stepper interrupt on it, act on the stepper only and show here in
    what the polls observe. *)
Definition enter_pass (n : nat) (approach_ : bool)
    (travel homing_rate : F32.float) (m : machine_t) : cycle_t :=
  let s :=
    for_each_axis (setup_axis approach_ travel) N_AXIS
      {| target := system_convert_array_steps_to_mpos core (sys_position m);
         lock := 0;
         n_active_axis := 0;
         position := sys_position m |} in
  let rate := F32.mul homing_rate (F32.sqrtf (F32.of_Z (n_active_axis s))) in
  {| n_cycle := n;
     approach := approach_;
     axislock := lock s;
     machine :=
       {| sys := {| homed := homed (sys m);
                    homing_axis_lock := lock s;
                    execute_sys_motion := true |};
          sys_position := position s;
          sys_rt_exec_state := sys_rt_exec_state m;
          sys_rt_exec_alarm := sys_rt_exec_alarm m;
          planned := (target s, rate) :: planned m |} |}.

(** Lines 258 to 270: the positions are committed and the axes marked
    homed. *)
Definition commit (m : machine_t) : machine_t :=
  {| sys := {| homed := Int.u8 (Z.lor (homed (sys m)) cycle);
               homing_axis_lock := homing_axis_lock (sys m);
               execute_sys_motion := false |};
     sys_position :=
       limits_set_machine_positions settings cycle true (sys_position m);
     sys_rt_exec_state := sys_rt_exec_state m;
     sys_rt_exec_alarm := sys_rt_exec_alarm m;
     planned := planned m |}.

(** Lines 238 to 270: the end of a pass, once the steppers are stopped and
    the debounce delay is over.  The direction is reversed; a new approach
    searches five pull-off distances at the feed rate, a new retract moves
    one pull-off distance at the seek rate; after the last pass the cycle
    completes, without another look at the realtime flags. *)
Definition leave_pass (c : cycle_t) (m : machine_t) : step_t :=
  let approach_ := negb (approach c) in
  let travel :=
    if approach_
    then F32.mul (pulloff (homing settings)) HOMING_AXIS_LOCATE_SCALAR
    else pulloff (homing settings) in
  let rate :=
    if approach_ then feed_rate (homing settings)
    else seek_rate (homing settings) in
  match n_cycle c with
  | S n => Continue (enter_pass n approach_ travel rate m)
  | O => Finished true (commit m) []
  end.

(** Lines 182 to 194: the axes whose switch is engaged are locked out. *)
Definition lock_out (limit_state : Z) (idx : nat) (mask : Z) : Z :=
  if negb (Z.land mask (Int.bit idx) =? 0)
     && negb (Z.land limit_state (Int.bit idx) =? 0)
  then Int.u8 (Z.land mask (Z.lnot (Int.bit idx)))
  else mask.

(** Lines 204 to 220: the alarms that the exit routine raises, in order.
    [rt_exec] is the [uint8_t] copy of [sys_rt_exec_state]. *)
Definition exit_alarms (approach_ : bool) (rt_exec limit_state : Z)
  : list alarm_code_t :=
  (if negb (Z.land rt_exec (EXEC_RESET core) =? 0)
   then [Alarm_HomingFailReset] else [])
  ++ (if negb (Z.land rt_exec (EXEC_SAFETY_DOOR core) =? 0)
      then [Alarm_HomingFailDoor] else [])
  ++ (if negb approach_ && negb (Z.land limit_state cycle =? 0)
      then [Alarm_FailPulloff] else [])
  ++ (if approach_ && negb (Z.land rt_exec (EXEC_CYCLE_COMPLETE core) =? 0)
      then [Alarm_HomingFailApproach] else []).

Definition raise_alarms (raised : list alarm_code_t) (m : machine_t)
  : machine_t :=
  fold_left (fun m code => system_set_exec_alarm code m) raised m.


(** The test that opens the exit routine, line 202. *)
Definition exit_event (exec_state : Z) : bool :=
  negb (Z.land exec_state
               (Z.lor (Z.lor (EXEC_SAFETY_DOOR core) (EXEC_RESET core))
                      (EXEC_CYCLE_COMPLETE core))
        =? 0).

(** Lines 178 to 233: one turn of the polling loop, after the interrupts
    described by [o]. *)
Definition homing_poll (c : cycle_t) (o : observation_t) : step_t :=
  let m := interrupts o (machine c) in
  let mask :=
    if approach c
    then for_each_axis (lock_out (o_limits o)) N_AXIS (axislock c)
    else axislock c in
  let m := if approach c then set_homing_axis_lock mask m else m in
  if exit_event (sys_rt_exec_state m) then
    let rt_exec := Int.u8 (sys_rt_exec_state m) in
    let raised := exit_alarms (approach c) rt_exec (o_limits o) in
    let m := raise_alarms raised m in
    match sys_rt_exec_alarm m with
    | Some _ =>
        Finished false (protocol_execute_realtime core (mc_reset core m))
                 raised
    | None =>
        leave_pass c
          (debounce o
             (system_clear_exec_state_flag (EXEC_CYCLE_COMPLETE core) m))
    end
  else if negb (Z.land mask AXES_BITMASK =? 0) then
    Continue {| n_cycle := n_cycle c; approach := approach c;
                axislock := mask; machine := m |}
  else leave_pass c (debounce o m).

(** The cycle from a polling state on, over the observations of the
    successive polls. *)
Fixpoint homing_run (c : cycle_t) (trace : list observation_t) : outcome_t :=
  match trace with
  | [] => Polling c
  | o :: trace' =>
      match homing_poll c o with
      | Finished ok m raised => Returned ok m raised
      | Continue c' => homing_run c' trace'
      end
  end.

(** The realtime flags a poll finds: those pending and those the interrupts
    set since the previous poll. *)
Definition observed_exec (c : cycle_t) (o : observation_t) : Z :=
  Z.lor (sys_rt_exec_state (machine c)) (o_exec o).


(** [limits_homing_cycle]. *)
Definition limits_homing_cycle (m : machine_t) (trace : list observation_t)
  : outcome_t :=
  if ABORTED core m then Returned false m []
  else
    homing_run
      (enter_pass (Z.to_nat (Int.u32 (2 * locate_cycles (homing settings) + 1)))
                  true search_travel (seek_rate (homing settings)) m)
      trace.

End HomingCycle.

End Limits.

(** ** Spindle control (driver.c): pulse captures, speed, state, data reset
       and the delay of the 1 ms timer *)

Module SpindleControl.
Import Regulator.

(** A run of [RPMCOUNTER_IRQHandler]: the captures in order, each with the
    timer value and the counter value it reads. *)
Fixpoint pulse_captures (l : list (Z * Z)) (enc : Encoder.spindle_encoder_t)
    (spindle_data : Data.spindle_data_t) (ccr0 : Z)
  : Encoder.spindle_encoder_t * Data.spindle_data_t * Z :=
  match l with
  | [] => (enc, spindle_data, ccr0)
  | (tval, cval) :: l' =>
      let '(enc, spindle_data, ccr0) :=
        Spindle.RPMCOUNTER_IRQHandler tval cval enc spindle_data ccr0 in
      pulse_captures l' enc spindle_data ccr0
  end.

(** The values the driver writes to [SPINDLE_PWM_TIMER->CCTL[2]]; [CCTL_0]
    is the value 0. *)
Inductive cctl_t :=
| CCTL_0
| TIMER_A_CCTLN_OUT
| TIMER_A_CCTLN_OUTMOD_2
| TIMER_A_CCTLN_OUTMOD_6.

(** What the spindle functions read of [settings.spindle], of
    [hal.driver_cap] and of [spindle_pwm]. *)
Record config_t := {
  invert_on : bool;               (* settings.spindle.invert.on *)
  invert_ccw : bool;              (* settings.spindle.invert.ccw *)
  invert_pwm : bool;              (* settings.spindle.invert.pwm *)
  disable_with_zero_speed : bool; (* settings.spindle.disable_with_zero_speed *)
  spindle_dir_cap : bool;         (* hal.driver_cap.spindle_dir *)
  off_value : Z;                  (* spindle_pwm.off_value *)
  always_on : bool                (* spindle_pwm.always_on *)
}.

(** The globals and registers of the spindle: what the 1 ms interrupt owns,
    the encoder, the spindle data, the compare register
    [RPM_COUNTER->CCR[0]], the flag [pwmEnabled], the PWM output control
    register and the enable and direction pins. *)
Record spindle_t := {
  regulator : regulator_t;
  encoder : Encoder.spindle_encoder_t;
  spindle_data : Data.spindle_data_t;
  rpm_counter_ccr0 : Z;
  pwmEnabled : bool;
  pwm_cctl : cctl_t;
  enable_pin : bool;
  direction_pin : bool
}.

Definition set_regulator (r : regulator_t) (s : spindle_t) : spindle_t :=
  {| regulator := r; encoder := encoder s; spindle_data := spindle_data s;
     rpm_counter_ccr0 := rpm_counter_ccr0 s; pwmEnabled := pwmEnabled s;
     pwm_cctl := pwm_cctl s; enable_pin := enable_pin s;
     direction_pin := direction_pin s |}.

Definition set_pid_state (v : pid_state_t) (r : regulator_t) : regulator_t :=
  {| spindle_control :=
       {| pid_state := v; pid := pid (spindle_control r) |};
     pid_count := pid_count r; spid := spid r; tpp := tpp r;
     pwm_ccr := pwm_ccr r; delay_ms := delay_ms r;
     delay_callback := delay_callback r;
     systick_enable := systick_enable r |}.

Definition set_pid (p : Pid.pid_t) (r : regulator_t) : regulator_t :=
  {| spindle_control :=
       {| pid_state := pid_state (spindle_control r); pid := p |};
     pid_count := pid_count r; spid := spid r; tpp := tpp r;
     pwm_ccr := pwm_ccr r; delay_ms := delay_ms r;
     delay_callback := delay_callback r;
     systick_enable := systick_enable r |}.

Definition set_pid_count (v : Z) (r : regulator_t) : regulator_t :=
  {| spindle_control := spindle_control r;
     pid_count := v; spid := spid r; tpp := tpp r;
     pwm_ccr := pwm_ccr r; delay_ms := delay_ms r;
     delay_callback := delay_callback r;
     systick_enable := systick_enable r |}.

Definition set_pwm_ccr (v : Z) (r : regulator_t) : regulator_t :=
  {| spindle_control := spindle_control r;
     pid_count := pid_count r; spid := spid r; tpp := tpp r;
     pwm_ccr := v; delay_ms := delay_ms r;
     delay_callback := delay_callback r;
     systick_enable := systick_enable r |}.

Definition set_systick_enable (v : bool) (r : regulator_t) : regulator_t :=
  {| spindle_control := spindle_control r;
     pid_count := pid_count r; spid := spid r; tpp := tpp r;
     pwm_ccr := pwm_ccr r; delay_ms := delay_ms r;
     delay_callback := delay_callback r;
     systick_enable := v |}.

(** [spindle_control.pid.error = 0.0f]. *)
Definition clear_pid_error (p : Pid.pid_t) : Pid.pid_t :=
  {| Pid.cfg := Pid.cfg p; Pid.deadband := Pid.deadband p;
     Pid.i_error := Pid.i_error p; Pid.d_error := Pid.d_error p;
     Pid.sample_rate_prev := Pid.sample_rate_prev p;
     Pid.error := F32.zero;
     Pid.pid_max_error := Pid.pid_max_error p;
     Pid.enabled := Pid.enabled p |}.

(** The four assignments that [spindleSetStateVariable] makes to
    [spindle_control.pid] when it stops the spindle. *)
Definition clear_pid_history (p : Pid.pid_t) : Pid.pid_t :=
  {| Pid.cfg := Pid.cfg p; Pid.deadband := Pid.deadband p;
     Pid.i_error := F32.zero; Pid.d_error := F32.zero;
     Pid.sample_rate_prev := F32.one;
     Pid.error := F32.zero;
     Pid.pid_max_error := Pid.pid_max_error p;
     Pid.enabled := Pid.enabled p |}.

Section Control.

Variable config : config_t.

(** [spindle_compute_pwm_value] of spindle_control.c, applied to
    [&spindle_pwm]. *)
Variable spindle_compute_pwm_value : F32.float -> bool -> Z.

(** [spindle_off]. *)
Definition spindle_off (s : spindle_t) : spindle_t :=
  {| regulator := regulator s; encoder := encoder s;
     spindle_data := spindle_data s;
     rpm_counter_ccr0 := rpm_counter_ccr0 s; pwmEnabled := pwmEnabled s;
     pwm_cctl := pwm_cctl s;
     enable_pin := invert_on config;
     direction_pin :=
       if spindle_dir_cap config then invert_ccw config
       else direction_pin s |}.

(** [spindle_dir]. *)
Definition spindle_dir (ccw : bool) (s : spindle_t) : spindle_t :=
  {| regulator := regulator s; encoder := encoder s;
     spindle_data := spindle_data s;
     rpm_counter_ccr0 := rpm_counter_ccr0 s; pwmEnabled := pwmEnabled s;
     pwm_cctl := pwm_cctl s;
     enable_pin := enable_pin s;
     direction_pin :=
       if spindle_dir_cap config then xorb ccw (invert_ccw config)
       else direction_pin s |}.

(** [spindleDataReset].  [timer_value] is what [RPM_TIMER->VALUE] reads
    after the timer has been reloaded.  The 1 ms interrupt is disabled on
    entry and enabled again on exit if it was enabled, which leaves its
    enable bit as it was; the pulse counter is cleared and restarted.  The
    wait on [spindleLock], which only the 1 ms interrupt holds, is not part
    of the model. *)
Definition spindleDataReset (timer_value : Z) (s : spindle_t) : spindle_t :=
  let r := regulator s in
  let enc := encoder s in
  {| regulator :=
       if Pid.enabled (pid (spindle_control r))
       then set_pid_state PIDState_Pending r else r;
     encoder :=
       {| Encoder.ppr := Encoder.ppr enc;
          Encoder.rpm_factor := Encoder.rpm_factor enc;
          Encoder.pulse_distance := Encoder.pulse_distance enc;
          Encoder.timer_resolution := Encoder.timer_resolution enc;
          Encoder.rpm := Encoder.rpm enc;
          Encoder.timer_value_index := timer_value;
          Encoder.timer_value_last := Encoder.timer_value_last enc;
          Encoder.tpp := 0;
          Encoder.maximum_tt := Encoder.maximum_tt enc;
          Encoder.pulse_counter_trigger := Encoder.pulse_counter_trigger enc;
          Encoder.pulse_counter_last := 0;
          Encoder.pulse_counter_index := 0;
          Encoder.error := Encoder.error enc |};
     spindle_data :=
       Data.set_index_count 0 (Data.set_pulse_count 0 (spindle_data s));
     rpm_counter_ccr0 := Int.u16 (Encoder.pulse_counter_trigger enc);
     pwmEnabled := pwmEnabled s;
     pwm_cctl := pwm_cctl s;
     enable_pin := enable_pin s;
     direction_pin := direction_pin s |}.

(** [spindle_on]. *)
Definition spindle_on (timer_value : Z) (s : spindle_t) : spindle_t :=
  spindleDataReset timer_value
    {| regulator := regulator s; encoder := encoder s;
       spindle_data := spindle_data s;
       rpm_counter_ccr0 := rpm_counter_ccr0 s; pwmEnabled := pwmEnabled s;
       pwm_cctl := pwm_cctl s;
       enable_pin := negb (invert_on config);
       direction_pin := direction_pin s |}.

(** [spindleSetState], the routine of a spindle without speed control; its
    [rpm] argument is not used. *)
Definition spindleSetState (timer_value : Z) (on ccw : bool) (s : spindle_t)
  : spindle_t :=
  if negb on then spindle_off s
  else spindle_on timer_value (spindle_dir ccw s).

(** The writes to the PWM timer: [CCR[2]], a 16 bit register, and
    [CCTL[2]]. *)
Definition set_pwm (enabled : bool) (ccr : option Z) (cctl : cctl_t)
    (s : spindle_t) : spindle_t :=
  {| regulator :=
       match ccr with
       | Some v => set_pwm_ccr (Int.u16 v) (regulator s)
       | None => regulator s
       end;
     encoder := encoder s; spindle_data := spindle_data s;
     rpm_counter_ccr0 := rpm_counter_ccr0 s;
     pwmEnabled := enabled; pwm_cctl := cctl;
     enable_pin := enable_pin s; direction_pin := direction_pin s |}.

(** [spindle_set_speed], in a build with [SPINDLE_RPM_CONTROLLED]; the wait
    on [spindleLock] is left out as in [spindleDataReset]. *)
Definition spindle_set_speed (timer_value pwm_value : Z) (s : spindle_t)
  : spindle_t :=
  if pwm_value =? off_value config then
    let s := set_pwm false None (pwm_cctl s) s in
    let s := if disable_with_zero_speed config then spindle_off s else s in
    let s :=
      if always_on config
      then set_pwm false (Some (off_value config))
                   (if invert_pwm config then TIMER_A_CCTLN_OUTMOD_6
                    else TIMER_A_CCTLN_OUTMOD_2) s
      else set_pwm false None
                   (if invert_pwm config then TIMER_A_CCTLN_OUT else CCTL_0)
                   s in
    set_regulator
      (set_pid (clear_pid_error (pid (spindle_control (regulator s))))
               (regulator s))
      s
  else
    let s := if pwmEnabled s then s else spindle_on timer_value s in
    set_pwm true (Some pwm_value)
            (if invert_pwm config then TIMER_A_CCTLN_OUTMOD_6
             else TIMER_A_CCTLN_OUTMOD_2) s.

(** 1.1f. *)
Definition rpm_tolerance : F32.float := F32.of_scaled 9227469 (-23).

(** The three assignments that end [spindleUpdateRPM] and
    [spindleSetStateVariable]. *)
Definition set_programmed (rpm : F32.float) (s : spindle_t) : spindle_t :=
  let d := spindle_data s in
  {| regulator := regulator s; encoder := encoder s;
     spindle_data :=
       {| Data.rpm := rpm;
          Data.rpm_low_limit := F32.div rpm rpm_tolerance;
          Data.rpm_high_limit := F32.mul rpm rpm_tolerance;
          Data.rpm_programmed := rpm;
          Data.index_count := Data.index_count d;
          Data.pulse_count := Data.pulse_count d;
          Data.angular_position := Data.angular_position d |};
     rpm_counter_ccr0 := rpm_counter_ccr0 s; pwmEnabled := pwmEnabled s;
     pwm_cctl := pwm_cctl s; enable_pin := enable_pin s;
     direction_pin := direction_pin s |}.

(** The PWM value for a speed, corrected by the last PID output. *)
Definition corrected_pwm_value (rpm : F32.float) (s : spindle_t) : Z :=
  let e := Pid.error (pid (spindle_control (regulator s))) in
  spindle_compute_pwm_value (F32.add rpm e) (F32.neqb e F32.zero).

(** [spindleUpdateRPM]. *)
Definition spindleUpdateRPM (timer_value : Z) (rpm : F32.float)
    (s : spindle_t) : spindle_t :=
  set_programmed rpm
    (spindle_set_speed timer_value (corrected_pwm_value rpm s) s).

(** [spindleSetStateVariable]; [on] and [ccw] are the two flags of the
    requested state. *)
Definition spindleSetStateVariable (timer_value : Z) (on ccw : bool)
    (rpm : F32.float) (s : spindle_t) : spindle_t :=
  let s :=
    if negb on || F32.eqb rpm F32.zero then
      let s := spindle_off (spindle_set_speed timer_value (off_value config) s) in
      let r := regulator s in
      let r := if delay_ms r =? 0 then set_systick_enable false r else r in
      let r := set_pid_state PIDState_Disabled r in
      let r := set_pid (clear_pid_history (pid (spindle_control r))) r in
      {| regulator := r;
         encoder := Encoder.set_rpm F32.zero (encoder s);
         spindle_data := spindle_data s;
         rpm_counter_ccr0 := rpm_counter_ccr0 s; pwmEnabled := pwmEnabled s;
         pwm_cctl := pwm_cctl s; enable_pin := enable_pin s;
         direction_pin := direction_pin s |}
    else
      let s := spindle_dir ccw s in
      let r := regulator s in
      let r :=
        if F32.eqb (Data.rpm_programmed (spindle_data s)) F32.zero
           && Pid.enabled (pid (spindle_control r))
        then set_systick_enable true
               (set_pid_state PIDState_Pending (set_pid_count 0 r))
        else r in
      let s := set_regulator r s in
      spindle_set_speed timer_value (corrected_pwm_value rpm s) s in
  set_programmed rpm s.

(** The flags of [spindle_state_t] that [spindleGetState] sets. *)
Record spindle_state_t := {
  on : bool;
  ccw : bool;
  at_speed : bool
}.

(** [spindleGetState].  [enable_in] and [direction_in] are what the input
    registers of the two pins read; [timer_value] and [counter] are the reads
    of [spindleGetData].  The inversion mask is applied to the two flags read
    from the pins.  The function also leaves the measured speed in the global
    [spindle_data]. *)
Definition spindleGetState (enable_in direction_in : bool)
    (timer_value counter : Z) (s : spindle_t)
  : spindle_state_t * spindle_t :=
  let data :=
    Spindle.spindleGetData (encoder s)
      (Pid.enabled (pid (spindle_control (regulator s))))
      timer_value counter (spindle_data s) Encoder.SpindleData_RPM in
  let rpm := Data.rpm data in
  ({| on := if pwmEnabled s then true else xorb enable_in (invert_on config);
      ccw := xorb (if spindle_dir_cap config then direction_in else false)
                  (invert_ccw config);
      at_speed := F32.leb (Data.rpm_low_limit data) rpm
                  && F32.leb rpm (Data.rpm_high_limit data) |},
   {| regulator := regulator s; encoder := encoder s;
      spindle_data := data;
      rpm_counter_ccr0 := rpm_counter_ccr0 s; pwmEnabled := pwmEnabled s;
      pwm_cctl := pwm_cctl s; enable_pin := enable_pin s;
      direction_pin := direction_pin s |}).

End Control.

(** [driver_delay_ms].  The callback is reduced to whether one is given; the
    second component of the result tells whether it was called at once.
    With a delay and no callback the function then waits until the 1 ms
    interrupt has counted [delay.ms] down to 0. *)
Definition driver_delay_ms (ms : Z) (callback : bool) (r : regulator_t)
  : regulator_t * bool :=
  if 0 <? ms then
    ({| spindle_control := spindle_control r;
        pid_count := pid_count r; spid := spid r; tpp := tpp r;
        pwm_ccr := pwm_ccr r; delay_ms := ms;
        delay_callback := callback;
        systick_enable := true |},
     false)
  else
    ({| spindle_control := spindle_control r;
        pid_count := pid_count r; spid := spid r; tpp := tpp r;
        pwm_ccr := pwm_ccr r; delay_ms := ms;
        delay_callback := delay_callback r;
        systick_enable := systick_enable r |},
     callback).

Section Ticks.

Variable SPINDLE_PID_SAMPLE_RATE : Z.
Variable spindle_compute_pwm_value : F32.float -> bool -> Z.

(** For the ticks of a run as [SysTick_run] makes them: whether the delay
    callback was called. *)
Fixpoint SysTick_callbacks (r : regulator_t)
    (enc : Encoder.spindle_encoder_t) (spindle_data : Data.spindle_data_t)
    (captures : list (Z * Z)) : list bool :=
  match captures with
  | [] => []
  | (tpp_now, index_now) :: captures' =>
      let '(enc, spindle_data) := capture tpp_now index_now enc spindle_data in
      let '(r, enc, called) :=
        SysTick_Handler SPINDLE_PID_SAMPLE_RATE spindle_compute_pwm_value
                        r enc spindle_data in
      called :: SysTick_callbacks r enc spindle_data captures'
  end.

(** The regulator samples: it is active, or it is pending and, as long as
    [pid_count] is 0, its sample window is at its start. *)
Definition window_ok (r : regulator_t) : Prop :=
  pid_state (spindle_control r) = PIDState_Active \/
  (pid_state (spindle_control r) = PIDState_Pending /\
   0 <= pid_count r < 2 ^ 32 /\
   (pid_count r = 0 -> spid r = SPINDLE_PID_SAMPLE_RATE /\ tpp r = 0)).

End Ticks.

End SpindleControl.

(** ** Coolant outputs (driver.c) *)

Module Coolant.

(** The flood and mist flags of [coolant_state_t]. *)
Record coolant_state_t := {
  flood : bool;
  mist : bool
}.

(** The levels of the two output pins. *)
Record coolant_pins_t := {
  flood_pin : bool;
  mist_pin : bool
}.

(** [coolantSetState]; [invert] is [settings.coolant_invert]. *)
Definition coolantSetState (invert mode : coolant_state_t) : coolant_pins_t :=
  {| flood_pin := xorb (flood mode) (flood invert);
     mist_pin := xorb (mist mode) (mist invert) |}.

(** [coolantGetState]; [pins] is what the input registers of the two pins
    read. *)
Definition coolantGetState (invert : coolant_state_t) (pins : coolant_pins_t)
  : coolant_state_t :=
  {| flood := xorb (flood_pin pins) (flood invert);
     mist := xorb (mist_pin pins) (mist invert) |}.

End Coolant.

(** ** The stepper pulse routines (driver.c) and their dispatch through
       [hal.stepper_pulse_start] *)

Module PulseStart.
Import Sync.

(** What a routine does to the outputs: [set_dir_outputs], [set_step_outputs],
    the assignment to [next_step_outbits], which the pulse timer interrupt
    puts on the step pins after the delay, and the start of the pulse timer
    ([PULSE_TIMER->CTL |= TIMER_A_CTL_CLR|TIMER_A_CTL_MC1]). *)
Inductive pin_write_t :=
| DirOutputs (bits : Z)
| StepOutputs (bits : Z)
| NextStepOutbits (bits : Z)
| PulseTimerStart.

(** A call through [hal.stepper_pulse_start] completes, divides by zero, or
    calls itself without end. *)
Inductive call_t (A : Type) :=
| Completed (a : A)
| DividesByZero
| Recurses.
Arguments Completed {A} a.
Arguments DividesByZero {A}.
Arguments Recurses {A}.

(** One call of the stepper interrupt: the stepper state it passes and what
    the encoder and the registers of the spindle timer and counter hold. *)
Record stepper_call_t := {
  c_stepper : Stepper.stepper_t;
  c_encoder : Encoder.spindle_encoder_t;
  c_timer_value : Z;
  c_counter : Z
}.

Definition set_stepper_pulse_start (v : pulse_start_t) (d : driver_t)
  : driver_t :=
  {| spindle_tracker := spindle_tracker d; sync := sync d;
     stepper_pulse_start := v; spindle_data := spindle_data d;
     stepper_timer_load := stepper_timer_load d |}.

(** The first two statements of the switch to the synchronized routine:
<<
    spindle_tracker.stepper_pulse_start_normal = hal.stepper_pulse_start;
    hal.stepper_pulse_start = stepperPulseStartSynchronized;
>> *)
Definition switch_to_synchronized (d : driver_t) : driver_t :=
  let t := spindle_tracker d in
  {| spindle_tracker :=
       {| block_start := block_start t; prev_pos := prev_pos t;
          steps_per_mm := steps_per_mm t;
          programmed_rate := programmed_rate t;
          min_cycles_per_tick := min_cycles_per_tick t;
          stepper_pulse_start_normal := stepper_pulse_start d;
          segment_id := segment_id t; pid := pid t |};
     sync := sync d;
     stepper_pulse_start := PulseStartSynchronized;
     spindle_data := spindle_data d;
     stepper_timer_load := stepper_timer_load d |}.

(** The compare registers [CCR[0]] and [CCR[1]] of the pulse timer, 16 bit
    wide, and the interrupt enable bit of [CCTL[1]]: the interrupt of [CCR[1]]
    is the one that puts [next_step_outbits] on the step pins. *)
Record pulse_timer_t := {
  pulse_ccr0 : Z;
  pulse_ccr1 : Z;
  pulse_ccie1 : bool
}.

(** The stepper pulse part of [settings_changed], lines 1035 to 1044, run
    once the I/O is initialised; [step_pulse_delay] is
    [hal.driver_cap.step_pulse_delay], which [driver_init] sets. *)
Definition settings_changed_pulse (step_pulse_delay : bool)
    (pulse_microseconds pulse_delay_microseconds : Z) (d : driver_t)
  : driver_t * pulse_timer_t :=
  let delayed := step_pulse_delay && negb (pulse_delay_microseconds =? 0) in
  (set_stepper_pulse_start
     (if delayed then PulseStartDelayed else PulseStart) d,
   {| pulse_ccr0 := Int.u16 (pulse_microseconds + pulse_delay_microseconds);
      pulse_ccr1 := Int.u16 pulse_delay_microseconds;
      pulse_ccie1 := delayed |}).

Section Routines.

(** [hal.f_step_timer], [spindle_control.pid.enabled] and
    [settings.steppers.pulse_delay_microseconds]. *)
Variable f_step_timer : Z.
Variable pid_enabled : bool.
Variable pulse_delay_microseconds : Z.

(** The body of [stepperPulseStartSynchronized] for a call that does not
    switch back: the state is what [Sync.stepperPulseStartSynchronized]
    computes, the outputs are the direction pins at the start of a block and
    the step pulse. *)
Definition synchronized_body (c : stepper_call_t) (d : driver_t)
  : call_t (driver_t * Stepper.stepper_t * list pin_write_t) :=
  let st := c_stepper c in
  match stepperPulseStartSynchronized f_step_timer (c_encoder c) pid_enabled
                                      (c_timer_value c) (c_counter c) d st with
  | DivisionByZero => DividesByZero
  | NoReturn => Recurses
  | Ok (d', st') =>
      Completed
        (d', st',
         (if Stepper.new_block st then [DirOutputs (Stepper.dir_outbits st)]
          else [])
         ++ (if Stepper.step_outbits st =? 0 then []
             else [if pulse_delay_microseconds =? 0
                   then StepOutputs (Stepper.step_outbits st)
                   else NextStepOutbits (Stepper.step_outbits st);
                   PulseTimerStart]))
  end.

(** The part that [stepperPulseStart] and [stepperPulseStartDelayed] share;
    [delayed] tells the two apart: the first puts the step bits on the pins,
    the second stores them for the pulse timer interrupt. *)
Definition normal_routine (delayed : bool) (c : stepper_call_t) (d : driver_t)
  : call_t (driver_t * Stepper.stepper_t * list pin_write_t) :=
  let st := c_stepper c in
  if Stepper.new_block st && Stepper.spindle_sync (Stepper.exec_segment st)
  then synchronized_body c (switch_to_synchronized d)
  else
    Completed
      (d,
       (if Stepper.new_block st then Stepper.set_new_block false st else st),
       (if Stepper.new_block st then [DirOutputs (Stepper.dir_outbits st)]
        else [])
       ++ (if Stepper.step_outbits st =? 0 then []
           else [if delayed
                 then NextStepOutbits (Stepper.step_outbits st)
                 else StepOutputs (Stepper.step_outbits st);
                 PulseTimerStart])).

(** [stepperPulseStart]. *)
Definition stepperPulseStart : stepper_call_t -> driver_t ->
    call_t (driver_t * Stepper.stepper_t * list pin_write_t) :=
  normal_routine false.

(** [stepperPulseStartDelayed]. *)
Definition stepperPulseStartDelayed : stepper_call_t -> driver_t ->
    call_t (driver_t * Stepper.stepper_t * list pin_write_t) :=
  normal_routine true.

(** [stepperPulseStartSynchronized] with its way back: at a new block that
    is not synchronized it installs the routine saved in
    [spindle_tracker.stepper_pulse_start_normal] and calls it. *)
Definition synchronized_routine (c : stepper_call_t) (d : driver_t)
  : call_t (driver_t * Stepper.stepper_t * list pin_write_t) :=
  let st := c_stepper c in
  if Stepper.new_block st
     && negb (Stepper.spindle_sync (Stepper.exec_segment st))
  then
    match stepper_pulse_start_normal (spindle_tracker d) with
    | PulseStart =>
        stepperPulseStart c (set_stepper_pulse_start PulseStart d)
    | PulseStartDelayed =>
        stepperPulseStartDelayed c
          (set_stepper_pulse_start PulseStartDelayed d)
    | PulseStartSynchronized => Recurses
    end
  else synchronized_body c d.

(** A call of [hal.stepper_pulse_start]. *)
Definition hal_stepper_pulse_start (c : stepper_call_t) (d : driver_t)
  : call_t (driver_t * Stepper.stepper_t * list pin_write_t) :=
  match stepper_pulse_start d with
  | PulseStart => stepperPulseStart c d
  | PulseStartDelayed => stepperPulseStartDelayed c d
  | PulseStartSynchronized => synchronized_routine c d
  end.

(** The calls of a run of the stepper interrupt, with the outputs of all of
    them in order. *)
Fixpoint pulse_run (calls : list stepper_call_t) (d : driver_t)
  : call_t (driver_t * list pin_write_t) :=
  match calls with
  | [] => Completed (d, [])
  | c :: calls' =>
      match hal_stepper_pulse_start c d with
      | Completed (d', _, pins) =>
          match pulse_run calls' d' with
          | Completed (d'', pins') => Completed (d'', pins ++ pins')
          | DividesByZero => DividesByZero
          | Recurses => Recurses
          end
      | DividesByZero => DividesByZero
      | Recurses => Recurses
      end
  end.

End Routines.

(** The routine [orig] is installed, or the synchronized routine is
    installed and [orig] is the routine saved for the way back. *)
Definition routine_kept (orig : pulse_start_t) (d : driver_t) : Prop :=
  stepper_pulse_start d = orig \/
  (stepper_pulse_start d = PulseStartSynchronized /\
   stepper_pulse_start_normal (spindle_tracker d) = orig).

(** Is the block that the last call with a new block started a synchronized
    one?  [None] when no call of the run started a block. *)
Fixpoint last_block_synchronized (calls : list stepper_call_t)
  : option bool :=
  match calls with
  | [] => None
  | c :: calls' =>
      match last_block_synchronized calls' with
      | Some b => Some b
      | None =>
          if Stepper.new_block (c_stepper c)
          then Some (Stepper.spindle_sync (Stepper.exec_segment (c_stepper c)))
          else None
      end
  end.

End PulseStart.

(** ** Homing: the axes to home and the cycles of a homing run (limits.c) *)

Module Homing.
Import Limits.

(** [limits_set_homing_axes].  [cycles] is the array
    [settings.homing.cycle] of [N_AXIS] masks; the result is the pair of
    [sys.homing.mask] and [sys.homed.mask]. *)
Definition limits_set_homing_axes (cycles : list Z) (homed_ : Z) : Z * Z :=
  let homing_ :=
    for_each_axis
      (fun idx mask => Int.u8 (Z.lor mask (default 0 (cycles !! idx))))
      N_AXIS 0 in
  (homing_, Int.u8 (Z.land homed_ homing_)).

(** The passes still to run and the moves handed to the planner add up to
    the same number for as long as the cycle polls; when the cycle succeeds no
    pass is left. *)
Definition passes_left (m0 : machine_t) (c0 : cycle_t) (s : step_t) : Prop :=
  match s with
  | Continue c' =>
      (length (planned (machine c')) + n_cycle c'
       = length (planned m0) + n_cycle c0)%nat
  | Finished true m' _ =>
      length (planned m') = length (planned m0) /\ n_cycle c0 = O
  | Finished false _ _ => True
  end.

(** [squaring_mode_t] of hal.h. *)
Inductive squaring_mode_t :=
| SquaringMode_Both
| SquaringMode_A
| SquaringMode_B.

(** [sys.homed.mask &= ~ganged.mask]. *)
Definition clear_homed (ganged : Z) (m : machine_t) : machine_t :=
  {| sys := {| homed := Int.u8 (Z.land (homed (sys m)) (Z.lnot ganged));
               homing_axis_lock := homing_axis_lock (sys m);
               execute_sys_motion := execute_sys_motion (sys m) |};
     sys_position := sys_position m;
     sys_rt_exec_state := sys_rt_exec_state m;
     sys_rt_exec_alarm := sys_rt_exec_alarm m;
     planned := planned m |}.

(** The mask of an [axes_signals_t] with the given [x], [y] and [z]
    flags. *)
Definition axes_signals (x y z : bool) : Z :=
  Z.lor (Z.lor (Z.b2z x) (Z.shiftl (Z.b2z y) 1)) (Z.shiftl (Z.b2z z) 2).

Section GoHome.

Variable core : core_t.
Variable settings : settings_t.

(** [hal.driver_cap.axis_ganged_x], [axis_ganged_y] and [axis_ganged_z], and
    whether [hal.stepper_disable_motors] is set. *)
Variable axis_ganged_x axis_ganged_y axis_ganged_z : bool.
Variable stepper_disable_motors : bool.

(** [limits_go_home].  Each of the up to three homing cycles has the polls
    of its own; the result is the outcome of the last cycle run and the calls
    of [hal.stepper_disable_motors] made, in order. *)
Definition limits_go_home (cycle : Z) (m : machine_t)
    (trace1 trace2 trace3 : list observation_t)
  : outcome_t * list (Z * squaring_mode_t) :=
  let ganged :=
    Z.land (axes_signals axis_ganged_x axis_ganged_y axis_ganged_z) cycle in
  match limits_homing_cycle core settings cycle m trace1 with
  | Returned true m1 raised1 =>
      if negb (ganged =? 0) && stepper_disable_motors then
        match limits_homing_cycle core settings cycle (clear_homed ganged m1)
                                  trace2 with
        | Returned true m2 raised2 =>
            match limits_homing_cycle core settings cycle
                                      (clear_homed ganged m2) trace3 with
            | Returned ok m3 raised3 =>
                (Returned ok m3 raised3,
                 [(ganged, SquaringMode_A); (ganged, SquaringMode_B);
                  (0, SquaringMode_Both)])
            | Polling c =>
                (Polling c,
                 [(ganged, SquaringMode_A); (ganged, SquaringMode_B)])
            end
        | Returned false m2 raised2 =>
            (Returned false m2 raised2,
             [(ganged, SquaringMode_A); (0, SquaringMode_Both)])
        | Polling c => (Polling c, [(ganged, SquaringMode_A)])
        end
      else (Returned true m1 raised1, [])
  | r => (r, [])
  end.

End GoHome.

End Homing.

(** ** Concrete configurations and inputs used in the examples *)

Module Samples.

(** The LinuxCNC example settings quoted above [pid] in driver.c:
    P = 3, I = 1, D = 0.1 (here rounded to 1/8), MAXI = 20, MAXD = 20,
    MAXERROR = 250. *)
Definition pid_cfg_linuxcnc : Pid.pid_values_t :=
  {| Pid.p_gain := F32.of_Z 3;
     Pid.i_gain := F32.one;
     Pid.d_gain := F32.of_scaled 1 (-3);
     Pid.i_max_error := F32.of_Z 20;
     Pid.d_max_error := F32.of_Z 20;
     Pid.max_error := F32.of_Z 250 |}.

(** A controller as [spindleSetStateVariable] resets it. *)
Definition pid_reset (c : Pid.pid_values_t) : Pid.pid_t :=
  {| Pid.cfg := c;
     Pid.deadband := F32.zero;
     Pid.i_error := F32.zero;
     Pid.d_error := F32.zero;
     Pid.sample_rate_prev := F32.one;
     Pid.error := F32.zero;
     Pid.pid_max_error := F32.zero;
     Pid.enabled := true |}.

(** Three calls at sample rate 1: commanded 1000 against 900, 990, 1000. *)
Definition pid_inputs : list Pid.sample :=
  [ (F32.of_Z 1000, F32.of_Z 900, F32.one);
    (F32.of_Z 1000, F32.of_Z 990, F32.one);
    (F32.of_Z 1000, F32.of_Z 1000, F32.one) ].

(** The same settings with a negative integral bound. *)
Definition pid_cfg_negative_bound : Pid.pid_values_t :=
  {| Pid.p_gain := F32.of_Z 3;
     Pid.i_gain := F32.one;
     Pid.d_gain := F32.of_scaled 1 (-3);
     Pid.i_max_error := F32.of_Z (-20);
     Pid.d_max_error := F32.of_Z 20;
     Pid.max_error := F32.of_Z 250 |}.

(** A controller whose previous sample rate is infinite, as
    [stepperPulseStartSynchronized] leaves it at the first cruising segment
    of a block when that segment has no step: there
    [dt = f_step_timer / (float)(cycles_per_tick * n_step)] divides by 0. *)
Definition pid_first_cruise_no_step (c : Pid.pid_values_t) : Pid.pid_t :=
  {| Pid.cfg := c;
     Pid.deadband := F32.zero;
     Pid.i_error := F32.zero;
     Pid.d_error := F32.zero;
     Pid.sample_rate_prev := F32.infinity;
     Pid.error := F32.zero;
     Pid.pid_max_error := F32.zero;
     Pid.enabled := true |}.

(** Proportional and integral gain only: the derivative gain is zero. *)
Definition pid_cfg_pi : Pid.pid_values_t :=
  {| Pid.p_gain := F32.of_Z 3;
     Pid.i_gain := F32.one;
     Pid.d_gain := F32.zero;
     Pid.i_max_error := F32.of_Z 20;
     Pid.d_max_error := F32.of_Z 20;
     Pid.max_error := F32.of_Z 250 |}.

(** An encoder with every field cleared, as the static initialiser
    [spindle_encoder = {0}] leaves it. *)
Definition encoder_zero : Encoder.spindle_encoder_t :=
  {| Encoder.ppr := 0; Encoder.rpm_factor := F32.zero;
     Encoder.pulse_distance := F32.zero;
     Encoder.timer_resolution := F32.zero; Encoder.rpm := F32.zero;
     Encoder.timer_value_index := 0; Encoder.timer_value_last := 0;
     Encoder.tpp := 0; Encoder.maximum_tt := 0;
     Encoder.pulse_counter_trigger := 0; Encoder.pulse_counter_last := 0;
     Encoder.pulse_counter_index := 0; Encoder.error := false |}.

(** 60 pulses per revolution on a 48 MHz MSP432: the timer runs at 3 MHz. *)
Definition encoder_60ppr : Encoder.spindle_encoder_t :=
  Spindle.settings_changed_encoder 60 48000000 encoder_zero.

(** The same encoder after pulse captures 500 timer tics apart, the last
    one at timer value 1000000 with the pulse counter at 120; the last index
    pulse came with the pulse counter at 60.  [rpm] is the value sampled by
    the spindle PID loop. *)
Definition encoder_running (sampled_rpm : F32.float)
  : Encoder.spindle_encoder_t :=
  {| Encoder.ppr := 60;
     Encoder.rpm_factor := Encoder.rpm_factor encoder_60ppr;
     Encoder.pulse_distance := Encoder.pulse_distance encoder_60ppr;
     Encoder.timer_resolution := Encoder.timer_resolution encoder_60ppr;
     Encoder.rpm := sampled_rpm;
     Encoder.timer_value_index := 1030000;
     Encoder.timer_value_last := 1000000;
     Encoder.tpp := 500;
     Encoder.maximum_tt := Encoder.maximum_tt encoder_60ppr;
     Encoder.pulse_counter_trigger := 4;
     Encoder.pulse_counter_last := 120;
     Encoder.pulse_counter_index := 60;
     Encoder.error := false |}.

(** Spindle data while 6000 RPM are programmed; the limits are those of
    [spindleUpdateRPM], [rpm / 1.1f] and [rpm * 1.1f]. *)
Definition data_6000 : Data.spindle_data_t :=
  {| Data.rpm := F32.of_Z 6000;
     Data.rpm_low_limit :=
       F32.div (F32.of_Z 6000) (F32.of_scaled 9227469 (-23));
     Data.rpm_high_limit :=
       F32.mul (F32.of_Z 6000) (F32.of_scaled 9227469 (-23));
     Data.rpm_programmed := F32.of_Z 6000;
     Data.index_count := 1;
     Data.pulse_count := 120;
     Data.angular_position := F32.zero |}.

(** The regulator as [spindleSetStateVariable] leaves it when the spindle is
    started with the spindle PID enabled, after [count] ticks of the 1 ms
    timer. *)
Definition regulator_pending (count : Z) : Regulator.regulator_t :=
  {| Regulator.spindle_control :=
       {| Regulator.pid_state := Regulator.PIDState_Pending;
          Regulator.pid := pid_reset pid_cfg_linuxcnc |};
     Regulator.pid_count := count;
     Regulator.spid := 5;
     Regulator.tpp := 0;
     Regulator.pwm_ccr := 100;
     Regulator.delay_ms := 0;
     Regulator.delay_callback := false;
     Regulator.systick_enable := true |}.

(** A stand-in for [spindle_compute_pwm_value]: the RPM truncated. *)
Definition pwm_of_rpm (rpm : F32.float) (pid_limit : bool) : Z :=
  F32.to_uint32 rpm.

(** Spindle data with a given index count. *)
Definition data_indexed (n : Z) : Data.spindle_data_t :=
  Data.set_index_count n data_6000.

(** A block cut at 1 mm per spindle revolution with 250 steps per mm. *)
Definition block_thread : Stepper.st_block_t :=
  {| Stepper.programmed_rate := F32.one;
     Stepper.steps_per_mm := F32.of_Z 250 |}.

(** The stepper inside a cruising segment of that block: segment 2 of 24
    steps at 1000 timer cycles per step, [count] steps of it still to do. *)
Definition stepper_cruising (count : Z) : Stepper.stepper_t :=
  {| Stepper.new_block := false;
     Stepper.step_count := count;
     Stepper.step_outbits := 4;
     Stepper.dir_outbits := 0;
     Stepper.exec_block := block_thread;
     Stepper.exec_segment :=
       {| Stepper.id := 2;
          Stepper.spindle_sync := true;
          Stepper.cruising := true;
          Stepper.cycles_per_tick := 1000;
          Stepper.n_step := 24;
          Stepper.target_position := F32.of_scaled 3 (-2) |} |}.

(** The driver after segment 1 of that block, with a given minimum of
    cycles per tick and a given target position of segment 1.  The block
    started at spindle position 1 (in revolutions), and the position
    controller has no derivative gain. *)
Definition driver_synchronized (min_cycles : Z) (target : F32.float)
  : Sync.driver_t :=
  {| Sync.spindle_tracker :=
       {| Sync.block_start := F32.of_Z 1;
          Sync.prev_pos := target;
          Sync.steps_per_mm := F32.of_Z 250;
          Sync.programmed_rate := F32.one;
          Sync.min_cycles_per_tick := min_cycles;
          Sync.stepper_pulse_start_normal := Sync.PulseStart;
          Sync.segment_id := 1;
          Sync.pid := pid_reset pid_cfg_pi |};
     Sync.sync := false;
     Sync.stepper_pulse_start := Sync.PulseStartSynchronized;
     Sync.spindle_data := data_6000;
     Sync.stepper_timer_load := 1000 |}.

(** Target positions 1/64 mm ahead of and behind the spindle, which stands
    at 2 revolutions when the timer reads 1000000. *)
Definition target_ahead : F32.float := F32.of_scaled 65 (-6).
Definition target_behind : F32.float := F32.of_scaled 63 (-6).

(** The realtime flags as bits 2, 5 and 6; no abort pending; 250 steps per
    mm on every axis; [mc_reset] flags the reset and
    [protocol_execute_realtime] consumes the pending alarm. *)
Definition core_sample : Limits.core_t :=
  {| Limits.EXEC_RESET := 32;
     Limits.EXEC_SAFETY_DOOR := 64;
     Limits.EXEC_CYCLE_COMPLETE := 4;
     Limits.ABORTED := fun _ => false;
     Limits.system_convert_array_steps_to_mpos :=
       map (fun steps => F32.div (F32.of_Z steps) (F32.of_Z 250));
     Limits.mc_reset :=
       fun m =>
         {| Limits.sys := Limits.sys m;
            Limits.sys_position := Limits.sys_position m;
            Limits.sys_rt_exec_state := Z.lor (Limits.sys_rt_exec_state m) 32;
            Limits.sys_rt_exec_alarm := Limits.sys_rt_exec_alarm m;
            Limits.planned := Limits.planned m |};
     Limits.protocol_execute_realtime :=
       fun m =>
         {| Limits.sys := Limits.sys m;
            Limits.sys_position := Limits.sys_position m;
            Limits.sys_rt_exec_state := Limits.sys_rt_exec_state m;
            Limits.sys_rt_exec_alarm := None;
            Limits.planned := Limits.planned m |} |}.

(** 200 mm of travel on every axis, stored negative; 1 mm of pull-off; one
    locate cycle; the Y axis homes in the direction of its bit in the
    direction mask, the others do not. *)
Definition settings_sample (origin : bool) : Limits.settings_t :=
  {| Limits.homing :=
       {| Limits.pulloff := F32.one;
          Limits.force_set_origin := origin;
          Limits.dir_mask := 2;
          Limits.locate_cycles := 1;
          Limits.seek_rate := F32.of_Z 500;
          Limits.feed_rate := F32.of_Z 25 |};
     Limits.max_travel := [F32.of_Z (-200); F32.of_Z (-200); F32.of_Z (-200)];
     Limits.steps_per_mm := [F32.of_Z 250; F32.of_Z 250; F32.of_Z 250] |}.

(** The machine at rest somewhere in its envelope, the Z axis homed. *)
Definition machine_sample : Limits.machine_t :=
  {| Limits.sys := {| Limits.homed := 4; Limits.homing_axis_lock := 0;
                      Limits.execute_sys_motion := false |};
     Limits.sys_position := [-1000; -2000; -3000];
     Limits.sys_rt_exec_state := 0;
     Limits.sys_rt_exec_alarm := None;
     Limits.planned := [] |}.

(** Polls of the homing loop: the axes move by the given steps, the limit
    switches read [limits] and the interrupts have set the flags [exec]; no
    flag is set during the delay that may follow. *)
Definition poll (x y : Z) (limits exec : Z) : Limits.observation_t :=
  {| Limits.o_steps := [x; y; 0];
     Limits.o_exec := exec;
     Limits.o_limits := limits;
     Limits.o_delay := 0 |}.


(** Homing X and Y with one locate cycle: the approach finds the X switch,
    then the Y switch; the retract completes with both released; the second
    approach finds both; the pull-off completes with both released. *)
Definition trace_success : list Limits.observation_t :=
  [ poll 40 (-40) 0 0; poll 40 (-40) 1 0; poll 0 (-40) 3 0;
    poll (-20) 20 0 0; poll (-20) 20 0 4;
    poll 10 (-10) 0 0; poll 10 (-10) 3 0;
    poll (-20) 20 0 4 ].


(** The first approach under way, the X switch found. *)
Definition trace_approaching : list Limits.observation_t :=
  [ poll 40 (-40) 0 0; poll 40 (-40) 1 0 ].

(** The first approach done and the first retract under way. *)
Definition trace_retracting : list Limits.observation_t :=
  [ poll 40 (-40) 0 0; poll 40 (-40) 1 0; poll 0 (-40) 3 0;
    poll (-20) 20 0 0 ].

(** The regulator at work, the settling window behind it. *)
Definition regulator_active : Regulator.regulator_t :=
  {| Regulator.spindle_control :=
       {| Regulator.pid_state := Regulator.PIDState_Active;
          Regulator.pid := pid_reset pid_cfg_linuxcnc |};
     Regulator.pid_count := 500;
     Regulator.spid := 5;
     Regulator.tpp := 0;
     Regulator.pwm_ccr := 100;
     Regulator.delay_ms := 0;
     Regulator.delay_callback := false;
     Regulator.systick_enable := true |}.

(** The regulator of a spindle that is off. *)
Definition regulator_disabled : Regulator.regulator_t :=
  {| Regulator.spindle_control :=
       {| Regulator.pid_state := Regulator.PIDState_Disabled;
          Regulator.pid := pid_reset pid_cfg_linuxcnc |};
     Regulator.pid_count := 0;
     Regulator.spid := 5;
     Regulator.tpp := 0;
     Regulator.pwm_ccr := 0;
     Regulator.delay_ms := 0;
     Regulator.delay_callback := false;
     Regulator.systick_enable := false |}.

(** [n] ticks of the 1 ms timer during which the encoder reports 500 timer
    tics per pulse and three index pulses have been counted. *)
Definition ticks_steady (n : nat) : list (Z * Z) := repeat (500, 3) n.

(** No signal inverted, a direction output, PWM off at the value 0 and the
    enable output kept while the speed is 0. *)
Definition spindle_config : SpindleControl.config_t :=
  {| SpindleControl.invert_on := false;
     SpindleControl.invert_ccw := false;
     SpindleControl.invert_pwm := false;
     SpindleControl.disable_with_zero_speed := false;
     SpindleControl.spindle_dir_cap := true;
     SpindleControl.off_value := 0;
     SpindleControl.always_on := false |}.

(** Spindle data with no speed programmed. *)
Definition data_stopped : Data.spindle_data_t :=
  {| Data.rpm := F32.zero;
     Data.rpm_low_limit := F32.zero;
     Data.rpm_high_limit := F32.zero;
     Data.rpm_programmed := F32.zero;
     Data.index_count := 7;
     Data.pulse_count := 420;
     Data.angular_position := F32.zero |}.

(** The spindle running at the programmed 6000 RPM under its regulator. *)
Definition spindle_running : SpindleControl.spindle_t :=
  {| SpindleControl.regulator := regulator_active;
     SpindleControl.encoder := encoder_running (F32.of_Z 6000);
     SpindleControl.spindle_data := data_6000;
     SpindleControl.rpm_counter_ccr0 := 124;
     SpindleControl.pwmEnabled := true;
     SpindleControl.pwm_cctl := SpindleControl.TIMER_A_CCTLN_OUTMOD_2;
     SpindleControl.enable_pin := true;
     SpindleControl.direction_pin := false |}.

(** The spindle off, its encoder at rest. *)
Definition spindle_stopped : SpindleControl.spindle_t :=
  {| SpindleControl.regulator := regulator_disabled;
     SpindleControl.encoder := encoder_60ppr;
     SpindleControl.spindle_data := data_stopped;
     SpindleControl.rpm_counter_ccr0 := 4;
     SpindleControl.pwmEnabled := false;
     SpindleControl.pwm_cctl := SpindleControl.CCTL_0;
     SpindleControl.enable_pin := false;
     SpindleControl.direction_pin := false |}.


(** The stepper at the first step of a block, synchronized or not: segment 1,
    accelerating, the X axis stepping. *)
Definition stepper_block_start (synchronized : bool) : Stepper.stepper_t :=
  {| Stepper.new_block := true;
     Stepper.step_count := 24;
     Stepper.step_outbits := 1;
     Stepper.dir_outbits := 0;
     Stepper.exec_block := block_thread;
     Stepper.exec_segment :=
       {| Stepper.id := 1;
          Stepper.spindle_sync := synchronized;
          Stepper.cruising := false;
          Stepper.cycles_per_tick := 2000;
          Stepper.n_step := 24;
          Stepper.target_position := F32.of_scaled 1 (-2) |} |}.

(** The stepper at the first step of segment 2 of a synchronized block, a
    decelerating segment. *)
Definition stepper_decelerating : Stepper.stepper_t :=
  {| Stepper.new_block := false;
     Stepper.step_count := 24;
     Stepper.step_outbits := 1;
     Stepper.dir_outbits := 0;
     Stepper.exec_block := block_thread;
     Stepper.exec_segment :=
       {| Stepper.id := 2;
          Stepper.spindle_sync := true;
          Stepper.cruising := false;
          Stepper.cycles_per_tick := 2000;
          Stepper.n_step := 24;
          Stepper.target_position := F32.of_scaled 3 (-2) |} |}.

(** A call of the stepper interrupt while the spindle turns as in
    [encoder_running]. *)
Definition stepper_call (st : Stepper.stepper_t) : PulseStart.stepper_call_t :=
  {| PulseStart.c_stepper := st;
     PulseStart.c_encoder := encoder_running F32.zero;
     PulseStart.c_timer_value := 1000000;
     PulseStart.c_counter := 120 |}.

(** The driver before any synchronized motion, with a given pulse routine
    installed. *)
Definition driver_idle (routine : Sync.pulse_start_t) : Sync.driver_t :=
  {| Sync.spindle_tracker :=
       {| Sync.block_start := F32.zero;
          Sync.prev_pos := F32.zero;
          Sync.steps_per_mm := F32.zero;
          Sync.programmed_rate := F32.zero;
          Sync.min_cycles_per_tick := 960;
          Sync.stepper_pulse_start_normal := routine;
          Sync.segment_id := 0;
          Sync.pid := pid_reset pid_cfg_pi |};
     Sync.sync := false;
     Sync.stepper_pulse_start := routine;
     Sync.spindle_data := data_6000;
     Sync.stepper_timer_load := 1000 |}.

(** A synchronized block of two segments followed by the first step of a
    block that is not synchronized. *)
Definition calls_thread : list PulseStart.stepper_call_t :=
  [ stepper_call (stepper_block_start true);
    stepper_call stepper_decelerating;
    stepper_call (stepper_block_start false) ].

(** The first approach found neither switch and a reset was issued. *)
Definition trace_reset : list Limits.observation_t :=
  [ poll 40 (-40) 0 0; poll 40 (-40) 0 32 ].

End Samples.

(** * Properties *)

(** ** Machine integers *)

Section IntFacts.
Import Int.

Lemma u32_range x : 0 <= u32 x < 2 ^ 32.
Proof. unfold u32, wrap. apply Z.mod_pos_bound. lia. Qed.

Lemma s32_range x : - 2 ^ 31 <= s32 x < 2 ^ 31.
Proof.
  unfold s32, swrap.
  pose proof (Z.mod_pos_bound x (2 ^ 32) ltac:(lia)) as Hb.
  change (32 - 1) with 31.
  destruct (Z.ltb_spec (x mod 2 ^ 32) (2 ^ 31)); lia.
Qed.

Lemma u32_small x : 0 <= x < 2 ^ 32 -> u32 x = x.
Proof. intros Hx. unfold u32, wrap. now apply Z.mod_small. Qed.

Lemma s32_small x : - 2 ^ 31 <= x < 2 ^ 31 -> s32 x = x.
Proof.
  intros Hx. unfold s32, swrap. change (32 - 1) with 31.
  destruct (Z.ltb_spec (x mod 2 ^ 32) (2 ^ 31)) as [Hlt | Hge].
  - destruct (Z.neg_nonneg_cases x) as [Hneg | Hpos].
    + exfalso.
      assert (Hm : (x + 1 * 2 ^ 32) mod 2 ^ 32 = x + 2 ^ 32)
        by (apply Z.mod_small; lia).
      rewrite Z.mod_add in Hm by lia. lia.
    + apply Z.mod_small. lia.
  - destruct (Z.neg_nonneg_cases x) as [Hneg | Hpos].
    + assert (Hm : (x + 1 * 2 ^ 32) mod 2 ^ 32 = x + 2 ^ 32)
        by (apply Z.mod_small; lia).
      rewrite Z.mod_add in Hm by lia. lia.
    + exfalso. rewrite Z.mod_small in Hge by lia. lia.
Qed.

Lemma max_ge_r a b : b <= max a b.
Proof. unfold max. destruct (Z.gtb_spec a b); lia. Qed.

Lemma max_cases a b : max a b = a \/ max a b = b.
Proof. unfold max. destruct (a >? b); auto. Qed.

End IntFacts.

(** ** Order facts on floats used by the clamps *)

Section F32Facts.
Import F32.

Lemma compare_antisym x y c :
  SFcompare x y = Some c -> SFcompare y x = Some (CompOpp c).
Proof.
  destruct x as [sx | sx | | sx mx ex], y as [sy | sy | | sy my ey];
    simpl; try discriminate;
    try (intros [= <-]; first [ reflexivity
                              | destruct sx; reflexivity
                              | destruct sy; reflexivity
                              | destruct sx, sy; reflexivity ]).
  intros [= <-]. f_equal.
  assert (Hm : Pos.compare_cont Eq my mx = CompOpp (Pos.compare_cont Eq mx my))
    by (rewrite Pos.compare_cont_antisym; reflexivity).
  rewrite Hm, (Z.compare_antisym ex ey).
  destruct sx, sy; simpl; try reflexivity;
    destruct (ex ?= ey); simpl; try reflexivity;
    destruct (Pos.compare_cont Eq mx my); reflexivity.
Qed.

Lemma compare_nan_iff x y :
  SFcompare x y = None <-> is_nan x = true \/ is_nan y = true.
Proof.
  destruct x as [sx | sx | | sx mx ex], y as [sy | sy | | sy my ey];
    simpl; split; intros H; try discriminate; auto;
    destruct H; discriminate.
Qed.

Lemma compare_refl x : is_nan x = false -> SFcompare x x = Some Eq.
Proof.
  destruct x as [sx | sx | | sx mx ex]; simpl; intros H;
    try discriminate; try reflexivity.
  - destruct sx; reflexivity.
  - rewrite Z.compare_refl. rewrite Pos.compare_cont_refl.
    destruct sx; reflexivity.
Qed.

Lemma leb_refl x : is_nan x = false -> leb x x = true.
Proof. intros H. unfold leb, SFleb. now rewrite compare_refl. Qed.

(** [!(x > b)] gives [x <= b] as soon as neither is a NaN. *)
Lemma not_gtb_leb x b :
  is_nan x = false -> is_nan b = false -> gtb x b = false -> leb x b = true.
Proof.
  unfold gtb, ltb, leb, SFltb, SFleb. intros Hx Hb.
  destruct (SFcompare x b) as [c |] eqn:Hc.
  - rewrite (compare_antisym _ _ _ Hc). destruct c; simpl; congruence.
  - apply compare_nan_iff in Hc. destruct Hc; congruence.
Qed.

Lemma not_ltb_leb x b :
  is_nan x = false -> is_nan b = false -> ltb x b = false -> leb b x = true.
Proof.
  unfold ltb, leb, SFltb, SFleb. intros Hx Hb.
  destruct (SFcompare x b) as [c |] eqn:Hc.
  - rewrite (compare_antisym _ _ _ Hc). destruct c; simpl; congruence.
  - apply compare_nan_iff in Hc. destruct Hc; congruence.
Qed.

Lemma ltb_not_nan x y : ltb x y = true -> is_nan x = false /\ is_nan y = false.
Proof.
  unfold ltb, SFltb.
  destruct x as [sx | sx | | sx mx ex], y as [sy | sy | | sy my ey];
    simpl; intros H; try discriminate; auto.
Qed.

Lemma opp_not_nan x : is_nan (opp x) = is_nan x.
Proof. now destruct x. Qed.

(** A positive bound is at least its own negation. *)
Lemma opp_leb_pos b : ltb zero b = true -> leb (opp b) b = true.
Proof.
  destruct b as [sb | sb | | sb mb eb]; simpl; try discriminate.
  - destruct sb; [discriminate | reflexivity].
  - destruct sb; [discriminate | reflexivity].
Qed.

End F32Facts.

(** ** PID controller *)

Section PidFacts.
Import Pid.

Lemma pos_neqb_zero b : F32.ltb F32.zero b = true -> F32.neqb b F32.zero = true.
Proof.
  destruct b as [sb | sb | | sb mb eb]; simpl; try discriminate;
    destruct sb; try discriminate; reflexivity.
Qed.

(** With a positive bound the limiter returns a value within the bound, or
    the NaN it was given. *)
Lemma limit_within b x :
  F32.ltb F32.zero b = true ->
  F32.is_nan (limit b x) = false ->
  F32.within b (limit b x).
Proof.
  intros Hpos. unfold limit. rewrite (pos_neqb_zero _ Hpos).
  destruct (ltb_not_nan _ _ Hpos) as [_ Hb].
  pose proof (opp_leb_pos _ Hpos) as Hopp.
  destruct (F32.gtb x b) eqn:Hgt.
  - intros _. split; [exact Hopp | now apply leb_refl].
  - destruct (F32.ltb x (F32.opp b)) eqn:Hlt.
    + intros _. split; [| exact Hopp].
      apply leb_refl. now rewrite opp_not_nan.
    + intros Hx. split.
      * apply not_ltb_leb; auto. now rewrite opp_not_nan.
      * now apply not_gtb_leb.
Qed.

Lemma pid_cfg p command actual sample_rate :
  cfg (fst (pid p command actual sample_rate)) = cfg p.
Proof. reflexivity. Qed.

Lemma pid_i_error p command actual sample_rate :
  i_error (fst (pid p command actual sample_rate)) =
  limit (i_max_error (cfg p))
        (integral_sum p (F32.sub command actual) sample_rate).
Proof. reflexivity. Qed.

Lemma pid_output p command actual sample_rate :
  snd (pid p command actual sample_rate) =
  limit (max_error (cfg p))
        (output_sum p (F32.sub command actual) sample_rate).
Proof. reflexivity. Qed.

(** A property of the controller's configuration and of what one call
    leaves holds after every call of a sequence as soon as it holds after
    one call from any state with that configuration. *)
Lemma pid_calls_Forall (P : pid_values_t -> pid_t * F32.float -> Prop) :
  (forall p command actual sample_rate,
      P (cfg p) (pid p command actual sample_rate)) ->
  forall l p, Forall (P (cfg p)) (pid_calls p l).
Proof.
  intros Hone l. induction l as [| [[command actual] sample_rate] l IH];
    intros p; simpl.
  - constructor.
  - constructor.
    + apply Hone.
    + specialize (IH (fst (pid p command actual sample_rate))).
      now rewrite pid_cfg in IH.
Qed.

End PidFacts.

Section PidClaims.
Import Pid.

(** C3 (as amended).  After every call of any sequence of calls of [pid]:
    when the configured [i_max_error] is positive, the stored integral error
    lies within [-i_max_error, i_max_error] unless it is a NaN; when the
    configured [max_error] is positive, the returned correction lies within
    [-max_error, max_error] unless it is a NaN. *)
Theorem pid_limits_hold (p : pid_t) (l : list sample) :
  (F32.ltb F32.zero (i_max_error (cfg p)) = true ->
   Forall (fun r => F32.is_nan (i_error (fst r)) = false ->
                    F32.within (i_max_error (cfg p)) (i_error (fst r)))
          (pid_calls p l)) /\
  (F32.ltb F32.zero (max_error (cfg p)) = true ->
   Forall (fun r => F32.is_nan (snd r) = false ->
                    F32.within (max_error (cfg p)) (snd r))
          (pid_calls p l)).
Proof.
  split; intros Hpos.
  - apply (Forall_impl
             (fun r => F32.ltb F32.zero (i_max_error (cfg p)) = true ->
                       F32.is_nan (i_error (fst r)) = false ->
                       F32.within (i_max_error (cfg p)) (i_error (fst r)))).
    + apply (pid_calls_Forall
               (fun c r => F32.ltb F32.zero (i_max_error c) = true ->
                           F32.is_nan (i_error (fst r)) = false ->
                           F32.within (i_max_error c) (i_error (fst r)))).
      intros q command actual sample_rate Hq.
      rewrite pid_i_error. now apply limit_within.
    + intros r Hr. now apply Hr.
  - apply (Forall_impl
             (fun r => F32.ltb F32.zero (max_error (cfg p)) = true ->
                       F32.is_nan (snd r) = false ->
                       F32.within (max_error (cfg p)) (snd r))).
    + apply (pid_calls_Forall
               (fun c r => F32.ltb F32.zero (max_error c) = true ->
                           F32.is_nan (snd r) = false ->
                           F32.within (max_error c) (snd r))).
      intros q command actual sample_rate Hq.
      rewrite pid_output. now apply limit_within.
    + intros r Hr. now apply Hr.
Qed.

(** The bounds hold along the three sample calls with the LinuxCNC
    settings. *)
Lemma pid_limits_hold_witness :
  (F32.ltb F32.zero (i_max_error Samples.pid_cfg_linuxcnc) = true /\
   Forall (fun r => F32.is_nan (i_error (fst r)) = false ->
                    F32.within (F32.of_Z 20) (i_error (fst r)))
          (pid_calls (Samples.pid_reset Samples.pid_cfg_linuxcnc)
                     Samples.pid_inputs)) /\
  (F32.ltb F32.zero (max_error Samples.pid_cfg_linuxcnc) = true /\
   Forall (fun r => F32.is_nan (snd r) = false ->
                    F32.within (F32.of_Z 250) (snd r))
          (pid_calls (Samples.pid_reset Samples.pid_cfg_linuxcnc)
                     Samples.pid_inputs)).
Proof.
  destruct (pid_limits_hold (Samples.pid_reset Samples.pid_cfg_linuxcnc)
                            Samples.pid_inputs) as [Hi Ho].
  split; split.
  - reflexivity.
  - apply Hi. reflexivity.
  - reflexivity.
  - apply Ho. reflexivity.
Defined.

(** C3 as stated fails.  With a non-zero but negative [i_max_error] one call
    leaves an integral error outside the bound; and with the positive bound
    20 a call with an infinite sample rate on a controller whose previous
    sample rate is infinite leaves a NaN, which no comparison of the limiter
    catches. *)
Lemma pid_limits_counterexample :
  (let p := Samples.pid_reset Samples.pid_cfg_negative_bound in
   let r := pid p F32.zero F32.zero F32.one in
   F32.neqb (i_max_error (cfg p)) F32.zero = true /\
   i_error (fst r) = F32.of_Z (-20) /\
   ~ F32.within (i_max_error (cfg p)) (i_error (fst r))) /\
  (let p := Samples.pid_first_cruise_no_step Samples.pid_cfg_linuxcnc in
   let r := pid p F32.one F32.zero F32.infinity in
   F32.neqb (i_max_error (cfg p)) F32.zero = true /\
   F32.neqb (max_error (cfg p)) F32.zero = true /\
   ~ F32.within (i_max_error (cfg p)) (i_error (fst r)) /\
   ~ F32.within (max_error (cfg p)) (snd r)).
Proof.
  split; cbv zeta.
  - split; [reflexivity |]. split; [reflexivity |].
    intros [H _]. vm_compute in H. discriminate.
  - split; [reflexivity |]. split; [reflexivity |].
    split; intros [H _]; vm_compute in H; discriminate.
Qed.

(** C8 (as amended).  Every call of [pid] stores the call's sample rate in
    [sample_rate_prev]; it stores the call's error in [d_error] exactly when
    the derivative gain is not zero, and leaves [d_error] as it was when the
    derivative gain is zero. *)
Theorem pid_history_update (p : pid_t)
        (command actual sample_rate : F32.float) :
  let p' := fst (pid p command actual sample_rate) in
  sample_rate_prev p' = sample_rate /\
  d_error p' = if F32.neqb (d_gain (cfg p)) F32.zero
               then F32.sub command actual
               else d_error p.
Proof. split; reflexivity. Qed.

(** C8 as stated fails: with a zero derivative gain a call with error 1
    leaves the previous error at 0. *)
Lemma pid_previous_error_counterexample :
  let p := Samples.pid_reset Samples.pid_cfg_pi in
  let p' := fst (pid p F32.one F32.zero F32.one) in
  d_gain (cfg p) = F32.zero /\
  F32.sub F32.one F32.zero = F32.one /\
  d_error p' = F32.zero /\
  d_error p' <> F32.sub F32.one F32.zero.
Proof.
  cbv zeta. split; [reflexivity |]. split; [reflexivity |].
  split; [reflexivity |]. vm_compute. discriminate.
Qed.

End PidClaims.

(** ** Spindle encoder tracker *)

Section EncoderClaims.
Import Encoder Spindle.

(** [settings_changed] sets the RPM factor to [60 / (timer_resolution * ppr)],
    so that [spindle_calc_rpm] is the formula
    [(60 / timer_resolution / ppr) / tpp] of the design, with the two
    divisions by the constants done once. *)
Lemma settings_changed_rpm_factor new_ppr clock enc :
  let enc' := settings_changed_encoder new_ppr clock enc in
  ppr enc' = new_ppr /\
  rpm_factor enc' =
  F32.div (F32.of_Z 60) (F32.mul (timer_resolution enc') (F32.of_Z new_ppr)).
Proof. split; reflexivity. Qed.

(** The end-to-end scenario of the design: 60 pulses per revolution, timer
    resolution 1/3000000 s, 500 timer tics per pulse give 6000 RPM. *)
Example rpm_60ppr_500tpp :
  spindle_calc_rpm Samples.encoder_60ppr 500 = F32.of_Z 6000.
Proof. vm_compute. reflexivity. Qed.

Lemma spindleGetData_stopped enc pid_enabled timer_value counter data request :
  tpp enc = 0 \/
  Int.u32 (timer_value_last enc - timer_value) > maximum_tt enc ->
  Data.rpm (spindleGetData enc pid_enabled timer_value counter data request)
  = F32.zero.
Proof.
  intros H. unfold spindleGetData.
  assert (Hs : (tpp enc =? 0)
               || (Int.u32 (timer_value_last enc - timer_value)
                   >? maximum_tt enc) = true).
  { destruct H as [H | H].
    - rewrite H. reflexivity.
    - apply orb_true_iff. right. apply Z.gtb_lt. lia. }
  rewrite Hs. destruct request; reflexivity.
Qed.




Lemma spindleGetData_ignores_error b enc pid_enabled timer_value counter data
      request :
  spindleGetData (set_error b enc) pid_enabled timer_value counter data request
  = spindleGetData enc pid_enabled timer_value counter data request.
Proof. reflexivity. Qed.

(** C7 (as amended).  An index pulse at which the count of the 16 bit pulse
    counter since the previous index pulse (their difference modulo [2^16])
    differs from [ppr] sets the encoder error flag, whether the counter has
    wrapped in between or not, for every [ppr] up to [2^32 - 2^16]; when the
    counter has not wrapped, the flag is set exactly when the count differs
    from [ppr].  The flag is assigned once at each index pulse, and the index
    pulse is counted.  The interrupt handler calls the control callback only
    for the control pins.  No query of [spindleGetData] reads the flag: its
    result is the same whether the flag is set or not. *)
Theorem spindle_index_error_flag timer_value counter enc data ccr0 :
  0 <= counter < 2 ^ 16 ->
  0 <= pulse_counter_index enc < 2 ^ 16 ->
  0 <= ppr enc <= 2 ^ 32 - 2 ^ 16 ->
  let '(enc', data', _) :=
    spindle_index_pulse timer_value counter enc data ccr0 in
  (Int.u16 (counter - pulse_counter_index enc) <> ppr enc ->
   error enc' = true) /\
  (pulse_counter_index enc <= counter ->
   (error enc' = true <-> counter - pulse_counter_index enc <> ppr enc)) /\
  pulse_counter_index enc' = counter /\
  Data.index_count data' = Int.u32 (Data.index_count data + 1) /\
  (forall RPM_INDEX_BIT CONTROL_MASK iflags,
      Z.land iflags RPM_INDEX_BIT <> 0 ->
      Z.land iflags CONTROL_MASK = 0 ->
      CONTROL_IRQHandler RPM_INDEX_BIT CONTROL_MASK iflags timer_value counter
                         enc data ccr0
      = (spindle_index_pulse timer_value counter enc data ccr0, false)) /\
  (forall b pid_enabled tv c d request,
      spindleGetData (set_error b enc') pid_enabled tv c d request
      = spindleGetData enc' pid_enabled tv c d request).
Proof.
  intros Hc Hi Hp. simpl.
  split; [| split; [| split; [reflexivity | split; [reflexivity | split]]]].
  - unfold index_mismatch. intros Hne.
    apply negb_true_iff, Z.eqb_neq.
    destruct (Z.le_gt_cases (pulse_counter_index enc) counter) as [Hle | Hgt].
    + rewrite u32_small by lia.
      unfold Int.u16, Int.wrap in Hne.
      rewrite Z.mod_small in Hne by lia. exact Hne.
    + assert (Hw : Int.u32 (counter - pulse_counter_index enc)
                   = counter - pulse_counter_index enc + 2 ^ 32).
      { symmetry. unfold Int.u32, Int.wrap.
        apply Z.mod_unique with (q := -1); [left |]; lia. }
      rewrite Hw. lia.
  - intros Hle. unfold index_mismatch.
    rewrite u32_small by lia.
    rewrite negb_true_iff, Z.eqb_neq. reflexivity.
  - intros IDX MASK iflags Hidx Hmask. unfold CONTROL_IRQHandler.
    apply Z.eqb_neq in Hidx. rewrite Hidx, Hmask. reflexivity.
  - intros. apply spindleGetData_ignores_error.
Qed.

(** An index pulse 61 counts after the previous one, with 60 pulses per
    revolution, sets the flag. *)
Lemma spindle_index_error_flag_witness :
  Encoder.error
    (fst (fst (spindle_index_pulse 900000 121
                                   (Samples.encoder_running F32.zero)
                                   Samples.data_6000 124))) = true /\
  CONTROL_IRQHandler 64 63 64 900000 121 (Samples.encoder_running F32.zero)
                     Samples.data_6000 124
  = (spindle_index_pulse 900000 121 (Samples.encoder_running F32.zero)
                         Samples.data_6000 124, false).
Proof.
  pose proof (spindle_index_error_flag 900000 121
                (Samples.encoder_running F32.zero) Samples.data_6000 124
                ltac:(lia) ltac:(simpl; lia) ltac:(simpl; lia)) as H.
  simpl in H. destruct H as (Hflag & _ & _ & _ & Hirq & _).
  split.
  - apply Hflag. vm_compute. discriminate.
  - apply (Hirq 64 63 64); [discriminate | reflexivity].
Defined.

(** C7 as stated fails in its second half: after an offending index pulse
    the flag is set, and each of the three queries answers exactly as it
    does with the flag clear, so no query surfaces the fault. *)
Lemma spindle_index_error_counterexample :
  let enc' :=
    fst (fst (spindle_index_pulse 900000 121
                                  (Samples.encoder_running F32.zero)
                                  Samples.data_6000 124)) in
  Encoder.error enc' = true /\
  spindleGetData enc' false 899000 122 Samples.data_6000 SpindleData_RPM
  = spindleGetData (set_error false enc') false 899000 122 Samples.data_6000
                   SpindleData_RPM /\
  spindleGetData enc' false 899000 122 Samples.data_6000
                 SpindleData_AngularPosition
  = spindleGetData (set_error false enc') false 899000 122 Samples.data_6000
                   SpindleData_AngularPosition /\
  spindleGetData enc' false 899000 122 Samples.data_6000 SpindleData_Counters
  = spindleGetData (set_error false enc') false 899000 122 Samples.data_6000
                   SpindleData_Counters.
Proof. cbv zeta. repeat split. Qed.

(** With the counter wrapped between two index pulses the difference, taken
    in [int], is negative: an exact revolution of 60 pulses, from 65530 to
    54, is flagged all the same. *)
Example spindle_index_wrap_flagged :
  let enc1 :=
    fst (fst (spindle_index_pulse 950000 65530
                                  (Samples.encoder_running F32.zero)
                                  Samples.data_6000 124)) in
  let enc2 :=
    fst (fst (spindle_index_pulse 900000 54 enc1 Samples.data_6000 124)) in
  pulse_counter_index enc1 = 65530 /\
  Int.u16 (54 - pulse_counter_index enc1) = ppr enc1 /\
  Encoder.error enc2 = true.
Proof. vm_compute. repeat split. Qed.

End EncoderClaims.

(** ** Spindle RPM regulator *)

Section RegulatorClaims.
Import Regulator.

Variable SPINDLE_PID_SAMPLE_RATE : Z.
Variable spindle_compute_pwm_value : F32.float -> bool -> Z.

Lemma tick_pending_state r enc data :
  pid_state (spindle_control r) = PIDState_Pending ->
  state_after SPINDLE_PID_SAMPLE_RATE spindle_compute_pwm_value r enc data =
  if pid_count r <? 500 then PIDState_Pending
  else if Data.index_count data >? 2 then PIDState_Active
       else PIDState_Pending.
Proof.
  intros Hp. unfold state_after, SysTick_Handler. rewrite Hp.
  destruct (pid_count r =? 0); destruct (pid_count r <? 500);
    [ | destruct (Data.index_count data >? 2)
      | | destruct (Data.index_count data >? 2) ];
    match goal with
    | |- context [if ?c =? 0 then _ else _] => destruct (c =? 0)
    end; reflexivity.
Qed.

Lemma tick_pending_count r enc data :
  pid_state (spindle_control r) = PIDState_Pending ->
  pid_count (fst (fst (SysTick_Handler SPINDLE_PID_SAMPLE_RATE
                                       spindle_compute_pwm_value r enc data)))
  = if pid_count r <? 500 then Int.u32 (pid_count r + 1) else pid_count r.
Proof.
  intros Hp. unfold SysTick_Handler. rewrite Hp.
  destruct (pid_count r =? 0); destruct (pid_count r <? 500);
    [ | destruct (Data.index_count data >? 2)
      | | destruct (Data.index_count data >? 2) ];
    match goal with
    | |- context [if ?c =? 0 then _ else _] => destruct (c =? 0)
    end; reflexivity.
Qed.

(** C9 (as amended).  A tick of the 1 ms timer takes the regulator from
    Pending to Active exactly when the settling window has elapsed
    ([pid_count] has reached 500) and more than two index pulses have been
    counted; while either is missing it stays Pending, counting the tick if
    the window has not elapsed. *)
Theorem regulator_pending_to_active r enc data :
  pid_state (spindle_control r) = PIDState_Pending ->
  (state_after SPINDLE_PID_SAMPLE_RATE spindle_compute_pwm_value r enc data
   = PIDState_Active <->
   500 <= pid_count r /\ 2 < Data.index_count data) /\
  (state_after SPINDLE_PID_SAMPLE_RATE spindle_compute_pwm_value r enc data
   = PIDState_Pending <->
   pid_count r < 500 \/ Data.index_count data <= 2) /\
  pid_count (fst (fst (SysTick_Handler SPINDLE_PID_SAMPLE_RATE
                                       spindle_compute_pwm_value r enc data)))
  = (if pid_count r <? 500 then Int.u32 (pid_count r + 1) else pid_count r).
Proof.
  intros Hp. rewrite (tick_pending_state _ _ _ Hp).
  split; [| split; [| now apply tick_pending_count]].
  - destruct (Z.ltb_spec (pid_count r) 500);
      [| destruct (Z.gtb_spec (Data.index_count data) 2)];
      split; intros H'; try discriminate; try lia; reflexivity.
  - destruct (Z.ltb_spec (pid_count r) 500);
      [| destruct (Z.gtb_spec (Data.index_count data) 2)];
      split; intros H'; try discriminate; try lia; reflexivity.
Qed.

(** Started with [pid_count] at 0, the regulator is still Pending after each
    of the first 500 ticks, however many index pulses are counted
    meanwhile. *)
Lemma regulator_settling_window captures : forall r enc data,
  pid_state (spindle_control r) = PIDState_Pending ->
  0 <= pid_count r ->
  pid_count r + Z.of_nat (length captures) <= 500 ->
  let r' := fst (SysTick_run SPINDLE_PID_SAMPLE_RATE spindle_compute_pwm_value
                             r enc data captures) in
  pid_state (spindle_control r') = PIDState_Pending /\
  pid_count r' = pid_count r + Z.of_nat (length captures).
Proof.
  induction captures as [| [tpp_now index_now] captures IH];
    intros r enc data Hp Hc Hlen; cbv zeta.
  - simpl. split; [exact Hp | lia].
  - simpl length in Hlen. rewrite Nat2Z.inj_succ in Hlen.
    change (SysTick_run SPINDLE_PID_SAMPLE_RATE spindle_compute_pwm_value r enc
                        data ((tpp_now, index_now) :: captures))
      with (let '(r1, enc1, _) :=
              SysTick_Handler SPINDLE_PID_SAMPLE_RATE spindle_compute_pwm_value
                r (fst (capture tpp_now index_now enc data))
                (snd (capture tpp_now index_now enc data)) in
            SysTick_run SPINDLE_PID_SAMPLE_RATE spindle_compute_pwm_value
                        r1 enc1 (snd (capture tpp_now index_now enc data))
                        captures).
    pose proof (tick_pending_state r (fst (capture tpp_now index_now enc data))
                  (snd (capture tpp_now index_now enc data)) Hp) as Hs.
    pose proof (tick_pending_count r (fst (capture tpp_now index_now enc data))
                  (snd (capture tpp_now index_now enc data)) Hp) as Hn.
    unfold state_after in Hs.
    destruct (SysTick_Handler SPINDLE_PID_SAMPLE_RATE spindle_compute_pwm_value
                r (fst (capture tpp_now index_now enc data))
                (snd (capture tpp_now index_now enc data)))
      as [[r1 enc1] fired].
    simpl fst in Hs, Hn.
    assert (Hlt : (pid_count r <? 500) = true) by (apply Z.ltb_lt; lia).
    rewrite Hlt in Hs, Hn.
    rewrite u32_small in Hn by lia.
    destruct (IH r1 enc1 (snd (capture tpp_now index_now enc data)) Hs)
      as [IHs IHn]; [lia | lia |].
    split; [exact IHs |].
    rewrite IHn, Hn. simpl length. lia.
Qed.

End RegulatorClaims.

Section RegulatorExamples.
Import Regulator.

(** After 500 elapsed ticks and with 3 index pulses counted the next tick
    activates the regulator. *)
Lemma regulator_pending_to_active_witness :
  state_after 5 Samples.pwm_of_rpm (Samples.regulator_pending 500)
              (Samples.encoder_running F32.zero) (Samples.data_indexed 3)
  = PIDState_Active.
Proof.
  apply (proj1 (regulator_pending_to_active 5 Samples.pwm_of_rpm
                  (Samples.regulator_pending 500)
                  (Samples.encoder_running F32.zero) (Samples.data_indexed 3)
                  eq_refl)).
  simpl. lia.
Defined.

(** C9 as stated fails on both counts: with the settling window elapsed but
    no index pulse seen the regulator stays Pending, and with 5 index pulses
    seen but only 10 ticks elapsed it stays Pending as well. *)
Lemma regulator_pending_counterexample :
  state_after 5 Samples.pwm_of_rpm (Samples.regulator_pending 500)
              (Samples.encoder_running F32.zero) (Samples.data_indexed 0)
  = PIDState_Pending /\
  state_after 5 Samples.pwm_of_rpm (Samples.regulator_pending 10)
              (Samples.encoder_running F32.zero) (Samples.data_indexed 5)
  = PIDState_Pending.
Proof. split; reflexivity. Qed.

End RegulatorExamples.

(** ** Spindle-synchronized pulse corrector *)

Section SyncClaims.
Import Sync.

Lemma s32_nonzero x : 0 < x < 2 ^ 32 -> Int.s32 x <> 0.
Proof.
  intros Hx. unfold Int.s32, Int.swrap. change (32 - 1) with 31.
  rewrite Z.mod_small by lia.
  destruct (Z.ltb_spec x (2 ^ 31)); lia.
Qed.

Lemma segment_ticks_ok step_count step_delta cycles_per_tick :
  Int.s32 step_count <> 0 ->
  exists ticks,
    segment_ticks step_count step_delta cycles_per_tick = Ok ticks /\
    - 2 ^ 31 <= ticks < 2 ^ 31.
Proof.
  intros Hn. unfold segment_ticks.
  apply Z.eqb_neq in Hn. rewrite Hn.
  eexists. split; [reflexivity | apply s32_range].
Qed.

(** The signed maximum is a floor as long as the minimum is an [int32_t]
    value: then the cast leaves it unchanged, and the result of the maximum
    is not negative, so that the cast back to [uint32_t] leaves it unchanged
    too. *)
Lemma floor_cycles_per_tick_ge ticks min_cycles :
  - 2 ^ 31 <= ticks < 2 ^ 31 ->
  0 <= min_cycles < 2 ^ 31 ->
  min_cycles <= floor_cycles_per_tick ticks min_cycles.
Proof.
  intros Ht Hm. unfold floor_cycles_per_tick.
  rewrite (s32_small min_cycles) by lia.
  pose proof (max_ge_r ticks min_cycles) as Hge.
  destruct (max_cases ticks min_cycles) as [He | He];
    rewrite He in *; rewrite u32_small; lia.
Qed.

Section Boundary.

Variable f_step_timer : Z.
Variable enc : Encoder.spindle_encoder_t.
Variable pid_enabled : bool.
Variable timer_value counter : Z.

Lemma correct_cruising_zero d st :
  Stepper.step_count st = 0 ->
  correct_cruising f_step_timer enc pid_enabled timer_value counter d st
  = DivisionByZero.
Proof.
  intros Hz. unfold correct_cruising.
  destruct (Pid.pid _ _ _ _) as [p correction].
  rewrite Hz. reflexivity.
Qed.

Lemma correct_cruising_floor d st :
  Int.s32 (Stepper.step_count st) <> 0 ->
  0 <= min_cycles_per_tick (spindle_tracker d) < 2 ^ 31 ->
  exists tracker data cycles,
    correct_cruising f_step_timer enc pid_enabled timer_value counter d st
    = Ok (tracker, data, cycles) /\
    min_cycles_per_tick (spindle_tracker d) <= cycles.
Proof.
  intros Hn Hm. unfold correct_cruising.
  destruct (Pid.pid _ _ _ _) as [p correction].
  destruct (segment_ticks_ok
              (Stepper.step_count st)
              (F32.to_int32
                 (F32.mul correction (steps_per_mm (spindle_tracker d))))
              (Stepper.cycles_per_tick (Stepper.exec_segment st)) Hn)
    as (ticks & Hticks & Hrange).
  rewrite Hticks.
  do 3 eexists. split; [reflexivity |].
  now apply floor_cycles_per_tick_ge.
Qed.

Lemma boundary_runs_correction d st :
  cruising_boundary d st ->
  stepperPulseStartSynchronized f_step_timer enc pid_enabled timer_value
                                counter d st
  = match correct_cruising f_step_timer enc pid_enabled timer_value counter
                           d st with
    | DivisionByZero => DivisionByZero
    | NoReturn => NoReturn
    | Ok (tracker2, data2, cycles) =>
        Ok ({| spindle_tracker :=
                 close_boundary (Stepper.exec_segment st) tracker2;
               sync := false;
               stepper_pulse_start := stepper_pulse_start d;
               spindle_data := data2;
               stepper_timer_load := stepperCyclesPerTick cycles |},
            Stepper.set_cycles_per_tick cycles st)
    end.
Proof.
  intros (Hnew & Hid & Hcruise). unfold stepperPulseStartSynchronized.
  rewrite Hnew. cbn [andb].
  apply Z.eqb_neq in Hid. rewrite Hid, Hcruise. reflexivity.
Qed.

(** C1: what the code does at the input of the claim.  On a cruising
    segment boundary with a zero [step_count] the routine does not skip the
    correction: it evaluates the quotient of line 415, whose divisor is that
    [step_count]. *)
Theorem sync_zero_step_count_divides d st :
  cruising_boundary d st ->
  Stepper.step_count st = 0 ->
  stepperPulseStartSynchronized f_step_timer enc pid_enabled timer_value
                                counter d st
  = DivisionByZero.
Proof.
  intros Hb Hz. rewrite (boundary_runs_correction _ _ Hb).
  now rewrite correct_cruising_zero.
Qed.

(** C2.  What the code does at the input of the claim, a cruising segment
    boundary, for a [min_cycles_per_tick] below [2^31] (line 977 computes no
    other).  With a zero [step_count] the routine divides by it at line 415
    and computes no [cycles_per_tick] at all, so that the floor is not
    applied.  With any other [step_count], whatever the PID correction, it
    stores a [cycles_per_tick] for the segment that is not below
    [min_cycles_per_tick], and programs the stepper timer with it through
    [stepperCyclesPerTick]. *)
Theorem sync_cycles_per_tick_floor d st :
  cruising_boundary d st ->
  0 <= Stepper.step_count st < 2 ^ 32 ->
  0 <= min_cycles_per_tick (spindle_tracker d) < 2 ^ 31 ->
  let r :=
    stepperPulseStartSynchronized f_step_timer enc pid_enabled timer_value
                                  counter d st in
  (Stepper.step_count st = 0 ->
   r = DivisionByZero /\ segment_cycles_per_tick r = None) /\
  (Stepper.step_count st <> 0 ->
   exists d' st',
     r = Ok (d', st') /\
     min_cycles_per_tick (spindle_tracker d)
     <= Stepper.cycles_per_tick (Stepper.exec_segment st') /\
     min_cycles_per_tick (spindle_tracker d')
     = min_cycles_per_tick (spindle_tracker d) /\
     stepper_timer_load d'
     = stepperCyclesPerTick
         (Stepper.cycles_per_tick (Stepper.exec_segment st'))).
Proof.
  intros Hb Hc Hm. cbv zeta. rewrite (boundary_runs_correction _ _ Hb).
  split.
  - intros Hz. rewrite (correct_cruising_zero _ _ Hz). split; reflexivity.
  - intros Hnz.
    assert (Hpos : 0 < Stepper.step_count st < 2 ^ 32) by lia.
    destruct (correct_cruising_floor d st (s32_nonzero _ Hpos) Hm)
      as (tracker & data & cycles & Hrun & Hge).
    pose proof Hrun as Hrun'. unfold correct_cruising in Hrun'.
    destruct (Pid.pid _ _ _ _) as [p correction].
    destruct (segment_ticks _ _ _) as [ticks | |]; [| discriminate ..].
    injection Hrun' as Htr _ _.
    rewrite Hrun. do 2 eexists. split; [reflexivity |].
    split; [exact Hge |]. split; [| reflexivity].
    rewrite <- Htr. reflexivity.
Qed.

End Boundary.

(** Line 977 gives a minimum below [2^31] for a step timer clock that fits
    its 32 bits and pulse settings that fit the 16 bit compare registers of
    the pulse timer. *)
Lemma settings_changed_min_cycles_int32 f_step_timer pulse delay :
  0 <= f_step_timer < 2 ^ 32 ->
  0 <= pulse < 2 ^ 16 ->
  0 <= delay < 2 ^ 16 ->
  0 <= settings_changed_min_cycles_per_tick f_step_timer pulse delay < 2 ^ 31.
Proof.
  intros Hf Hp Hd. unfold settings_changed_min_cycles_per_tick.
  assert (Hq : 0 <= f_step_timer / 1000000 <= 4294).
  { split; [apply Z.div_pos; lia |].
    apply Z.lt_succ_r, Z.div_lt_upper_bound; lia. }
  rewrite (u32_small (pulse * 2 + delay)) by lia.
  rewrite u32_small; nia.
Qed.

(** The sample boundary with no step left in the segment. *)
Lemma sync_zero_step_count_witness :
  stepperPulseStartSynchronized
    48000000 (Samples.encoder_running F32.zero) false 1000000 120
    (Samples.driver_synchronized 960 Samples.target_ahead)
    (Samples.stepper_cruising 0)
  = DivisionByZero.
Proof.
  apply sync_zero_step_count_divides.
  - repeat split. simpl. lia.
  - reflexivity.
Defined.

(** The sample boundary with a minimum of 960 cycles, which line 977 gives
    for a 48 MHz clock and pulses of 10 microseconds.  With no step left the
    routine divides by zero.  With 20 steps left, a target ahead of the
    spindle stretches the 1000 cycles to 1550; a target behind it would
    shorten them to 450, which the floor raises to 960. *)
Lemma sync_cycles_per_tick_floor_witness :
  settings_changed_min_cycles_per_tick 48000000 10 0 = 960 /\
  stepperPulseStartSynchronized
    48000000 (Samples.encoder_running F32.zero) false 1000000 120
    (Samples.driver_synchronized 960 Samples.target_behind)
    (Samples.stepper_cruising 0)
  = DivisionByZero /\
  (exists d' st',
      stepperPulseStartSynchronized
        48000000 (Samples.encoder_running F32.zero) false 1000000 120
        (Samples.driver_synchronized 960 Samples.target_behind)
        (Samples.stepper_cruising 20)
      = Ok (d', st') /\
      960 <= Stepper.cycles_per_tick (Stepper.exec_segment st') /\
      min_cycles_per_tick (spindle_tracker d') = 960 /\
      stepper_timer_load d'
      = stepperCyclesPerTick
          (Stepper.cycles_per_tick (Stepper.exec_segment st'))).
Proof.
  split; [reflexivity |]. split.
  - apply (sync_cycles_per_tick_floor
             48000000 (Samples.encoder_running F32.zero) false 1000000 120
             (Samples.driver_synchronized 960 Samples.target_behind)
             (Samples.stepper_cruising 0)).
    + repeat split. simpl. lia.
    + simpl. lia.
    + simpl. lia.
    + reflexivity.
  - apply (sync_cycles_per_tick_floor
             48000000 (Samples.encoder_running F32.zero) false 1000000 120
             (Samples.driver_synchronized 960 Samples.target_behind)
             (Samples.stepper_cruising 20)).
    + repeat split. simpl. lia.
    + simpl. lia.
    + simpl. lia.
    + simpl. lia.
Defined.

(** The three cases of the sample boundary: target ahead of the spindle,
    behind it, and exactly met, which leaves the 1000 cycles as they are. *)
Example sync_correction_values :
  let run target :=
    segment_cycles_per_tick
      (stepperPulseStartSynchronized
         48000000 (Samples.encoder_running F32.zero) false 1000000 120
         (Samples.driver_synchronized 960 target)
         (Samples.stepper_cruising 20)) in
  run Samples.target_ahead = Some 1550 /\
  run Samples.target_behind = Some 960 /\
  run (F32.of_Z 1) = Some 1000.
Proof. cbv zeta. repeat split; vm_compute; reflexivity. Qed.

End SyncClaims.

(** ** Homing: the machine positions *)

Section PositionFacts.
Import Limits.

Variable cycle : Z.
Variable commit_value : nat -> Z.

Lemma set_axis_length idx (pos : list Z) :
  length (set_axis cycle commit_value idx pos) = length pos.
Proof.
  unfold set_axis.
  destruct (in_mask cycle idx); [apply length_insert | reflexivity].
Qed.

Lemma set_loop_length n : forall pos : list Z,
  length (for_each_axis (set_axis cycle commit_value) n pos) = length pos.
Proof.
  induction n as [| i IH]; intros pos; simpl; [reflexivity |].
  now rewrite IH, set_axis_length.
Qed.

(** The loop leaves the axes from [n] on alone. *)
Lemma set_loop_above n : forall (pos : list Z) (j : nat),
  (n <= j)%nat ->
  for_each_axis (set_axis cycle commit_value) n pos !! j = pos !! j.
Proof.
  induction n as [| i IH]; intros pos j Hj; simpl; [reflexivity |].
  rewrite IH by lia. unfold set_axis.
  destruct (in_mask cycle i); [| reflexivity].
  apply list_lookup_insert_ne. lia.
Qed.

(** The loop leaves the axes outside the mask alone. *)
Lemma set_loop_outside n : forall (pos : list Z) (j : nat),
  in_mask cycle j = false ->
  for_each_axis (set_axis cycle commit_value) n pos !! j = pos !! j.
Proof.
  induction n as [| i IH]; intros pos j Hj; simpl; [reflexivity |].
  rewrite IH by exact Hj. unfold set_axis.
  destruct (in_mask cycle i) eqn:Hi; [| reflexivity].
  apply list_lookup_insert_ne. intros ->. congruence.
Qed.

(** The loop writes the axes of the mask below [n]. *)
Lemma set_loop_inside n : forall (pos : list Z) (j : nat),
  (j < n)%nat -> (j < length pos)%nat -> in_mask cycle j = true ->
  for_each_axis (set_axis cycle commit_value) n pos !! j
  = Some (commit_value j).
Proof.
  induction n as [| i IH]; intros pos j Hj Hlen Hin; simpl; [lia |].
  destruct (Nat.eq_dec j i) as [-> | Hne].
  - rewrite set_loop_above by lia. unfold set_axis. rewrite Hin.
    now apply list_lookup_insert_eq.
  - apply IH; [lia | now rewrite set_axis_length | exact Hin].
Qed.

End PositionFacts.

Section PositionClaims.
Import Limits.

Lemma limits_set_machine_positions_length settings cycle add_pulloff
      (pos : list Z) :
  length (limits_set_machine_positions settings cycle add_pulloff pos)
  = length pos.
Proof.
  unfold limits_set_machine_positions.
  destruct (force_set_origin (homing settings)).
  - apply (set_loop_length cycle (fun _ => 0)).
  - apply set_loop_length.
Qed.

(** What [limits_set_machine_positions] writes for an axis of the mask. *)
Lemma limits_set_machine_positions_inside settings cycle add_pulloff
      (pos : list Z) (idx : nat) :
  (idx < N_AXIS)%nat -> (idx < length pos)%nat -> in_mask cycle idx = true ->
  limits_set_machine_positions settings cycle add_pulloff pos !! idx
  = Some (if force_set_origin (homing settings) then 0
          else homed_position
                 settings
                 (if add_pulloff then pulloff (homing settings) else F32.zero)
                 idx).
Proof.
  intros Hn Hlen Hin. unfold limits_set_machine_positions.
  destruct (force_set_origin (homing settings)).
  - now apply (set_loop_inside cycle (fun _ => 0)).
  - now apply set_loop_inside.
Qed.

(** C10.  [limits_set_machine_positions] changes [sys_position] only for the
    axes of the cycle mask: the entry of every axis outside the mask is after
    the call what it was before, with and without [force_set_origin]. *)
Theorem limits_set_machine_positions_frame settings cycle add_pulloff
        (pos : list Z) (idx : nat) :
  in_mask cycle idx = false ->
  limits_set_machine_positions settings cycle add_pulloff pos !! idx
  = pos !! idx.
Proof.
  intros Hout. unfold limits_set_machine_positions.
  destruct (force_set_origin (homing settings)).
  - now apply (set_loop_outside cycle (fun _ => 0)).
  - now apply set_loop_outside.
Qed.

End PositionClaims.

(** ** Homing: the cycle *)

Section BitFacts.




Lemma in_mask_testbit mask idx :
  Limits.in_mask mask idx = Z.testbit mask (Z.of_nat idx).
Proof.
  unfold Limits.in_mask, Int.bit_istrue, Int.bit.
  rewrite Z.shiftl_1_l.
  assert (Hland : Z.land mask (2 ^ Z.of_nat idx)
                  = if Z.testbit mask (Z.of_nat idx)
                    then 2 ^ Z.of_nat idx else 0).
  { apply Z.bits_inj'. intros j Hj.
    rewrite Z.land_spec, Z.pow2_bits_eqb by lia.
    destruct (Z.eqb_spec (Z.of_nat idx) j) as [<- | Hne].
    - destruct (Z.testbit mask (Z.of_nat idx)).
      + rewrite Z.pow2_bits_eqb, Z.eqb_refl by lia. reflexivity.
      + now rewrite Z.bits_0.
    - rewrite andb_false_r.
      destruct (Z.testbit mask (Z.of_nat idx)).
      + rewrite Z.pow2_bits_eqb by lia.
        symmetry. now apply Z.eqb_neq.
      + now rewrite Z.bits_0. }
  rewrite Hland.
  destruct (Z.testbit mask (Z.of_nat idx)); [| reflexivity].
  assert (0 < 2 ^ Z.of_nat idx) by (apply Z.pow_pos_nonneg; lia).
  destruct (Z.eqb_spec (2 ^ Z.of_nat idx) 0); [lia | reflexivity].
Qed.

(** Marking the axes of [cycle] in a mask marks each of them. *)
Lemma in_mask_marked homed cycle idx :
  (idx < 8)%nat -> Limits.in_mask cycle idx = true ->
  Limits.in_mask (Int.u8 (Z.lor homed cycle)) idx = true.
Proof.
  rewrite !in_mask_testbit. intros Hidx Hc.
  unfold Int.u8, Int.wrap.
  rewrite Z.mod_pow2_bits_low by lia.
  rewrite Z.lor_spec, Hc. apply orb_true_r.
Qed.

End BitFacts.

Section HomingFacts.
Import Limits.

Variable core : core_t.
Variable settings : settings_t.
Variable cycle : Z.

Lemma raise_alarms_sys raised : forall m,
  sys (raise_alarms raised m) = sys m.
Proof.
  induction raised as [| code raised IH]; intros m; simpl; [reflexivity |].
  unfold raise_alarms in IH. now rewrite IH.
Qed.

Lemma raise_alarms_position raised : forall m,
  sys_position (raise_alarms raised m) = sys_position m.
Proof.
  induction raised as [| code raised IH]; intros m; simpl; [reflexivity |].
  unfold raise_alarms in IH. now rewrite IH.
Qed.



Lemma setup_position_length approach_ travel n : forall s,
  length (position (for_each_axis (setup_axis settings cycle approach_ travel)
                                  n s))
  = length (position s).
Proof.
  induction n as [| i IH]; intros s; simpl; [reflexivity |].
  rewrite IH. unfold setup_axis.
  destruct (in_mask cycle i); [apply length_insert | reflexivity].
Qed.

Lemma enter_pass_homed n approach_ travel rate m :
  homed (sys (machine (enter_pass core settings cycle n approach_ travel
                                  rate m)))
  = homed (sys m).
Proof. reflexivity. Qed.

Lemma enter_pass_length n approach_ travel rate m :
  length (sys_position (machine (enter_pass core settings cycle n approach_
                                            travel rate m)))
  = length (sys_position m).
Proof.
  unfold enter_pass. cbn [machine sys_position].
  apply setup_position_length.
Qed.

(** How a pass can end: with the next pass entered, or with the positions
    committed. *)
Lemma leave_pass_cases c m :
  (exists n approach_ travel rate,
      leave_pass core settings cycle c m
      = Continue (enter_pass core settings cycle n approach_ travel rate m)) \/
  leave_pass core settings cycle c m
  = Finished true (commit settings cycle m) [].
Proof.
  unfold leave_pass. destruct (n_cycle c) as [| n].
  - right. reflexivity.
  - left. do 4 eexists. reflexivity.
Qed.

(** The machine as a poll finds it, after the interrupts and with the axis
    lock updated. *)
Lemma polled_machine c o :
  exists m,
    homed (sys m) = homed (sys (machine c)) /\
    length (sys_position m) = length (sys_position (machine c)) /\
    sys_rt_exec_state m = observed_exec c o /\
    sys_rt_exec_alarm m = sys_rt_exec_alarm (machine c) /\
    homing_poll core settings cycle c o
    = if exit_event core (sys_rt_exec_state m) then
        match sys_rt_exec_alarm
                (raise_alarms
                   (exit_alarms core cycle (approach c)
                                (Int.u8 (sys_rt_exec_state m)) (o_limits o))
                   m) with
        | Some _ =>
            Finished false
              (protocol_execute_realtime core
                 (mc_reset core
                    (raise_alarms
                       (exit_alarms core cycle (approach c)
                                    (Int.u8 (sys_rt_exec_state m))
                                    (o_limits o))
                       m)))
              (exit_alarms core cycle (approach c)
                           (Int.u8 (sys_rt_exec_state m)) (o_limits o))
        | None =>
            leave_pass core settings cycle c
              (debounce o
                 (system_clear_exec_state_flag
                    (EXEC_CYCLE_COMPLETE core)
                    (raise_alarms
                       (exit_alarms core cycle (approach c)
                                    (Int.u8 (sys_rt_exec_state m))
                                    (o_limits o))
                       m)))
        end
      else if negb (Z.land (if approach c
                            then for_each_axis (lock_out (o_limits o)) N_AXIS
                                               (axislock c)
                            else axislock c)
                           AXES_BITMASK =? 0)
           then Continue
                  {| n_cycle := n_cycle c; approach := approach c;
                     axislock := if approach c
                                 then for_each_axis (lock_out (o_limits o))
                                                    N_AXIS (axislock c)
                                 else axislock c;
                     machine := m |}
           else leave_pass core settings cycle c (debounce o m).
Proof.
  eexists. split; [| split; [| split; [| split]]]; cycle 4.
  - unfold homing_poll. reflexivity.
  - destruct (approach c); reflexivity.
  - destruct (approach c); cbn [sys_position set_homing_axis_lock interrupts];
      apply length_imap.
  - destruct (approach c); reflexivity.
  - destruct (approach c); reflexivity.
Qed.

End HomingFacts.

Section HomingRuns.
Import Limits.

Variable core : core_t.
Variable settings : settings_t.
Variable cycle : Z.


Lemma same_frame_trans m1 m2 m3 :
  same_frame m1 m2 -> same_frame m2 m3 -> same_frame m1 m3.
Proof. intros [H1 H2] [H3 H4]. split; congruence. Qed.

Lemma same_frame_exit raised flag m1 m2 :
  same_frame m1 m2 ->
  same_frame m1 (system_clear_exec_state_flag flag (raise_alarms raised m2)).
Proof.
  intros [Hh Hl]. split.
  - cbn [sys system_clear_exec_state_flag]. now rewrite raise_alarms_sys.
  - cbn [sys_position system_clear_exec_state_flag].
    now rewrite raise_alarms_position.
Qed.

Lemma same_frame_debounce o m1 m2 :
  same_frame m1 m2 -> same_frame m1 (debounce o m2).
Proof. intros H. exact H. Qed.

Lemma leave_pass_continue c m c' :
  leave_pass core settings cycle c m = Continue c' ->
  same_frame m (machine c').
Proof.
  destruct (leave_pass_cases core settings cycle c m)
    as [(n & a & t & r & ->) | ->]; [| discriminate].
  intros [= <-]. split; [apply enter_pass_homed | apply enter_pass_length].
Qed.

Lemma leave_pass_finished c m ok m' raised :
  leave_pass core settings cycle c m = Finished ok m' raised ->
  ok = true /\ raised = [] /\ m' = commit settings cycle m.
Proof.
  destruct (leave_pass_cases core settings cycle c m)
    as [(n & a & t & r & ->) | ->]; [discriminate |].
  intros [= <- <- <-]. auto.
Qed.

Lemma homing_poll_continue c o c' :
  homing_poll core settings cycle c o = Continue c' ->
  same_frame (machine c) (machine c').
Proof.
  destruct (polled_machine core settings cycle c o)
    as (m & Hh & Hl & _ & _ & ->).
  assert (Hm : same_frame (machine c) m) by (split; assumption).
  destruct (exit_event core (sys_rt_exec_state m)).
  - destruct (sys_rt_exec_alarm _); [discriminate |].
    intros H. apply leave_pass_continue in H.
    eapply same_frame_trans; [| exact H].
    now apply same_frame_debounce, same_frame_exit.
  - destruct (negb _).
    + intros [= <-]. exact Hm.
    + intros H. apply leave_pass_continue in H.
      eapply same_frame_trans; [| exact H].
      now apply same_frame_debounce.
Qed.

(** A poll that ends the cycle with success commits the positions of a
    machine whose homed flags are still those of the start. *)
Lemma homing_poll_success c o m' raised :
  homing_poll core settings cycle c o = Finished true m' raised ->
  raised = [] /\
  exists m1, m' = commit settings cycle m1 /\ same_frame (machine c) m1.
Proof.
  destruct (polled_machine core settings cycle c o)
    as (m & Hh & Hl & _ & _ & ->).
  assert (Hm : same_frame (machine c) m) by (split; assumption).
  destruct (exit_event core (sys_rt_exec_state m)).
  - destruct (sys_rt_exec_alarm _); [discriminate |].
    intros H. apply leave_pass_finished in H as (_ & -> & ->).
    split; [reflexivity |]. eexists. split; [reflexivity |].
    now apply same_frame_debounce, same_frame_exit.
  - destruct (negb _); [discriminate |].
    intros H. apply leave_pass_finished in H as (_ & -> & ->).
    split; [reflexivity |]. eexists. split; [reflexivity |].
    now apply same_frame_debounce.
Qed.

Hypothesis mc_reset_homed :
  forall m, homed (sys (mc_reset core m)) = homed (sys m).
Hypothesis protocol_execute_realtime_homed :
  forall m, homed (sys (protocol_execute_realtime core m)) = homed (sys m).

Lemma homing_poll_failed c o m' raised :
  homing_poll core settings cycle c o = Finished false m' raised ->
  homed (sys m') = homed (sys (machine c)).
Proof.
  destruct (polled_machine core settings cycle c o)
    as (m & Hh & Hl & _ & _ & ->).
  destruct (exit_event core (sys_rt_exec_state m)).
  - destruct (sys_rt_exec_alarm _).
    + intros [= <- <-].
      now rewrite protocol_execute_realtime_homed, mc_reset_homed,
        raise_alarms_sys.
    + intros H. apply leave_pass_finished in H as (H & _). discriminate.
  - destruct (negb _); [discriminate |].
    intros H. apply leave_pass_finished in H as (H & _). discriminate.
Qed.



Lemma homing_run_failed trace : forall c m' raised,
  homing_run core settings cycle c trace = Returned false m' raised ->
  homed (sys m') = homed (sys (machine c)).
Proof.
  induction trace as [| o trace IH]; intros c m' raised; simpl;
    [discriminate |].
  destruct (homing_poll core settings cycle c o) as [ok m1 r1 | c1] eqn:Hp.
  - intros [= -> <- <-]. eapply homing_poll_failed. exact Hp.
  - intros H. apply IH in H. rewrite H.
    now destruct (homing_poll_continue _ _ _ Hp).
Qed.

Lemma homing_run_success trace : forall c m' raised,
  homing_run core settings cycle c trace = Returned true m' raised ->
  raised = [] /\
  exists m1, m' = commit settings cycle m1 /\ same_frame (machine c) m1.
Proof.
  induction trace as [| o trace IH]; intros c m' raised; simpl;
    [discriminate |].
  destruct (homing_poll core settings cycle c o) as [ok m1 r1 | c1] eqn:Hp.
  - intros [= -> <- <-]. eapply homing_poll_success. exact Hp.
  - intros H. apply IH in H as (-> & m1 & -> & Hf).
    split; [reflexivity |]. exists m1. split; [reflexivity |].
    eapply same_frame_trans; [| exact Hf].
    eapply homing_poll_continue. exact Hp.
Qed.

(** Whenever [limits_homing_cycle] returns false, on whatever path, the
    homed flags are those of the start. *)
Lemma limits_homing_cycle_failed m trace m' raised :
  limits_homing_cycle core settings cycle m trace = Returned false m' raised ->
  homed (sys m') = homed (sys m).
Proof.
  unfold limits_homing_cycle. destruct (ABORTED core m).
  - intros [= <- _]. reflexivity.
  - intros H. apply homing_run_failed in H. rewrite H.
    apply enter_pass_homed.
Qed.

End HomingRuns.

Section HomingClaims.
Import Limits.

Variable core : core_t.
Variable settings : settings_t.
Variable cycle : Z.

(** The realtime flags are among the eight that the exit routine copies
    into its [uint8_t rt_exec]. *)
Hypothesis flags_in_low_byte :
  0 <= EXEC_RESET core < 256 /\
  0 <= EXEC_SAFETY_DOOR core < 256 /\
  0 <= EXEC_CYCLE_COMPLETE core < 256.




Hypothesis mc_reset_homed :
  forall m, homed (sys (mc_reset core m)) = homed (sys m).
Hypothesis protocol_execute_realtime_homed :
  forall m, homed (sys (protocol_execute_realtime core m)) = homed (sys m).


End HomingClaims.

Section HomingSuccess.
Import Limits.

Variable core : core_t.
Variable settings : settings_t.
Variable cycle : Z.

(** C5 (as amended).  A homing cycle that succeeds commits, for every axis
    of the requested group, the machine position 0 when [force_set_origin]
    is configured; otherwise
    [lroundf((max_travel + pulloff) * steps_per_mm)] when the homing
    direction bit of the axis is set and [lroundf(-pulloff * steps_per_mm)]
    when it is clear; and it marks the axis homed. *)
Theorem homing_success_commits m trace m' raised (idx : nat) :
  length (sys_position m) = N_AXIS ->
  limits_homing_cycle core settings cycle m trace = Returned true m' raised ->
  (idx < N_AXIS)%nat ->
  in_mask cycle idx = true ->
  sys_position m' !! idx
  = Some (if force_set_origin (homing settings) then 0
          else if in_mask (dir_mask (homing settings)) idx
               then Int.s32
                      (F32.lroundf
                         (F32.mul
                            (F32.add (at_axis (max_travel settings) idx)
                                     (pulloff (homing settings)))
                            (at_axis (steps_per_mm settings) idx)))
               else Int.s32
                      (F32.lroundf
                         (F32.mul (F32.opp (pulloff (homing settings)))
                                  (at_axis (steps_per_mm settings) idx)))) /\
  in_mask (homed (sys m')) idx = true.
Proof.
  intros Hlen Hrun Hidx Hin. unfold limits_homing_cycle in Hrun.
  destruct (ABORTED core m); [discriminate |].
  apply homing_run_success in Hrun as (_ & m1 & -> & _ & Hl).
  rewrite enter_pass_length, Hlen in Hl.
  split.
  - cbn [commit sys_position].
    rewrite limits_set_machine_positions_inside by (rewrite ?Hl; assumption).
    reflexivity.
  - cbn [commit sys homed]. apply in_mask_marked; [| exact Hin].
    unfold N_AXIS in Hidx. lia.
Qed.

End HomingSuccess.

Section HomingExamples.
Import Limits.

(** Axis Z is outside the cycle of X and Y: its position is kept. *)
Lemma limits_set_machine_positions_frame_witness :
  limits_set_machine_positions (Samples.settings_sample false) 3 true
                               [-1000; -2000; -3000] !! 2%nat
  = Some (-3000) /\
  limits_set_machine_positions (Samples.settings_sample true) 3 true
                               [-1000; -2000; -3000] !! 2%nat
  = Some (-3000).
Proof.
  split.
  - apply (limits_set_machine_positions_frame
             (Samples.settings_sample false) 3 true [-1000; -2000; -3000] 2).
    reflexivity.
  - apply (limits_set_machine_positions_frame
             (Samples.settings_sample true) 3 true [-1000; -2000; -3000] 2).
    reflexivity.
Defined.


(** The four failures on the sample machine, each with the alarms raised:
    reset, safety door and completed motion during the first approach; an
    engaged switch when the first retract completes. *)
Example homing_failures :
  let run trace :=
    match limits_homing_cycle Samples.core_sample
                              (Samples.settings_sample false) 3
                              Samples.machine_sample trace with
    | Returned ok m raised => Some (ok, raised, homed (sys m))
    | Polling _ => None
    end in
  run (Samples.trace_approaching ++ [Samples.poll 0 0 1 32])
  = Some (false, [Alarm_HomingFailReset], 4) /\
  run (Samples.trace_approaching ++ [Samples.poll 0 0 1 64])
  = Some (false, [Alarm_HomingFailDoor], 4) /\
  run (Samples.trace_approaching ++ [Samples.poll 0 0 1 4])
  = Some (false, [Alarm_HomingFailApproach], 4) /\
  run (Samples.trace_retracting ++ [Samples.poll 0 0 1 4])
  = Some (false, [Alarm_FailPulloff], 4).
Proof. cbv zeta. repeat split; vm_compute; reflexivity. Qed.


(** The sample cycle of X and Y succeeds; X, whose direction bit is clear,
    is committed to -250 steps (-1 mm) and Y, whose bit is set, to -49750
    steps (-199 mm); both are marked homed. *)
Lemma homing_success_commits_witness :
  exists m' raised,
    limits_homing_cycle Samples.core_sample (Samples.settings_sample false)
                        3 Samples.machine_sample Samples.trace_success
    = Returned true m' raised /\
    sys_position m' !! 0%nat = Some (-250) /\
    sys_position m' !! 1%nat = Some (-49750) /\
    in_mask (homed (sys m')) 0 = true /\
    in_mask (homed (sys m')) 1 = true.
Proof.
  pose (m' := ltac:(let v := eval vm_compute in
                      (limits_homing_cycle
                         Samples.core_sample (Samples.settings_sample false) 3
                         Samples.machine_sample Samples.trace_success) in
                    match v with Returned true ?m _ => exact m end)).
  assert (Hrun : limits_homing_cycle
                   Samples.core_sample (Samples.settings_sample false) 3
                   Samples.machine_sample Samples.trace_success
                 = Returned true m' [])
    by (vm_compute; reflexivity).
  exists m', []. split; [exact Hrun |].
  destruct (homing_success_commits
              Samples.core_sample (Samples.settings_sample false) 3
              Samples.machine_sample Samples.trace_success m' [] 0%nat
              eq_refl Hrun ltac:(unfold N_AXIS; lia) eq_refl) as [Hx Hhx].
  destruct (homing_success_commits
              Samples.core_sample (Samples.settings_sample false) 3
              Samples.machine_sample Samples.trace_success m' [] 1%nat
              eq_refl Hrun ltac:(unfold N_AXIS; lia) eq_refl) as [Hy Hhy].
  split; [rewrite Hx; vm_compute; reflexivity |].
  split; [rewrite Hy; vm_compute; reflexivity |].
  split; assumption.
Defined.

(** With [force_set_origin] the same cycle commits both axes to 0. *)
Example homing_success_origin :
  match limits_homing_cycle Samples.core_sample (Samples.settings_sample true)
                            3 Samples.machine_sample Samples.trace_success with
  | Returned ok m raised => Some (ok, sys_position m, homed (sys m))
  | Polling _ => None
  end
  = Some (true, [0; 0; -3000], 7).
Proof. vm_compute. reflexivity. Qed.

(** C5 as stated fails for an axis whose homing direction bit is clear:
    the successful sample cycle, without [force_set_origin], commits X to
    -250 steps, which is neither [max_travel + pulloff] (-49750 steps) nor
    [max_travel - pulloff] (-50250 steps). *)
Lemma homing_success_counterexample :
  exists m' raised,
    limits_homing_cycle Samples.core_sample (Samples.settings_sample false) 3
                        Samples.machine_sample Samples.trace_success
    = Returned true m' raised /\
    in_mask 3 0 = true /\
    force_set_origin (homing (Samples.settings_sample false)) = false /\
    sys_position m' !! 0%nat = Some (-250) /\
    F32.lroundf (F32.mul (F32.add (F32.of_Z (-200)) F32.one) (F32.of_Z 250))
    = -49750 /\
    F32.lroundf (F32.mul (F32.sub (F32.of_Z (-200)) F32.one) (F32.of_Z 250))
    = -50250.
Proof.
  pose (m' := ltac:(let v := eval vm_compute in
                      (limits_homing_cycle
                         Samples.core_sample (Samples.settings_sample false) 3
                         Samples.machine_sample Samples.trace_success) in
                    match v with Returned true ?m _ => exact m end)).
  exists m', []. repeat split; vm_compute; reflexivity.
Qed.

End HomingExamples.

(** ** PID controller: the limiter inside its bounds, the controller at rest *)

Section LimiterFacts.
Import Pid.

Lemma leb_not_ltb x b : F32.leb x b = true -> F32.ltb b x = false.
Proof.
  unfold F32.leb, F32.ltb, SFleb, SFltb.
  destruct (SFcompare x b) as [c |] eqn:Hc; [| discriminate].
  rewrite (compare_antisym _ _ _ Hc).
  destruct c; simpl; congruence.
Qed.

Lemma limit_inside b x : F32.within b x -> limit b x = x.
Proof.
  intros [Hlo Hhi]. unfold limit, F32.gtb.
  rewrite (leb_not_ltb _ _ Hhi), (leb_not_ltb _ _ Hlo).
  destruct (F32.neqb b F32.zero); reflexivity.
Qed.

Lemma limit_zero b z :
  F32.ltb b F32.zero = false -> F32.is_zero z = true ->
  F32.is_zero (limit b z) = true.
Proof.
  destruct z as [sz | | |]; try discriminate. intros Hb _.
  destruct b as [sb | [] | | [] m e]; try reflexivity; try discriminate Hb.
Qed.

Lemma sub_self_zero c :
  F32.is_finite c = true -> F32.is_zero (F32.sub c c) = true.
Proof.
  destruct c as [[] | | | s m e]; try discriminate; try reflexivity.
  intros _. unfold F32.sub, SFsub. cbv zeta.
  rewrite Z.sub_diag. reflexivity.
Qed.

Lemma mul_zero_r a z :
  F32.is_finite a = true -> F32.is_zero z = true ->
  F32.is_zero (F32.mul a z) = true.
Proof.
  destruct a; try discriminate; destruct z; try discriminate; reflexivity.
Qed.

Lemma mul_zero_l z a :
  F32.is_zero z = true -> F32.is_finite a = true ->
  F32.is_zero (F32.mul z a) = true.
Proof.
  destruct a; try discriminate; destruct z; try discriminate; reflexivity.
Qed.

Lemma add_zero_zero a b :
  F32.is_zero a = true -> F32.is_zero b = true ->
  F32.is_zero (F32.add a b) = true.
Proof.
  destruct a as [[] | | |]; try discriminate;
    destruct b as [[] | | |]; try discriminate; reflexivity.
Qed.

Lemma sub_zero_zero a b :
  F32.is_zero a = true -> F32.is_zero b = true ->
  F32.is_zero (F32.sub a b) = true.
Proof.
  destruct a as [[] | | |]; try discriminate;
    destruct b as [[] | | |]; try discriminate; reflexivity.
Qed.

(** X1.  The limiter of [pid] changes only values outside its bounds: when
    the integral sum of a call lies within [-i_max_error, i_max_error] it is
    stored as it is, and when the sum of the three terms lies within
    [-max_error, max_error] it is returned as it is, and recorded as the last
    correction. *)
Theorem pid_within_limits_unchanged p command actual sample_rate :
  let err := F32.sub command actual in
  let r := pid p command actual sample_rate in
  (F32.within (i_max_error (cfg p)) (integral_sum p err sample_rate) ->
   i_error (fst r) = integral_sum p err sample_rate) /\
  (F32.within (max_error (cfg p)) (output_sum p err sample_rate) ->
   snd r = output_sum p err sample_rate /\ error (fst r) = snd r).
Proof.
  cbv zeta. split; intros H.
  - rewrite pid_i_error. now apply limit_inside.
  - rewrite pid_output. split; [now apply limit_inside | reflexivity].
Qed.

(** With the LinuxCNC settings, a call 10 RPM below the command stores the
    integral sum 10 and returns 3 * 10 + 10 + 10 / 8 = 41.25. *)
Lemma pid_within_limits_unchanged_witness :
  let r := pid (Samples.pid_reset Samples.pid_cfg_linuxcnc)
               (F32.of_Z 1000) (F32.of_Z 990) F32.one in
  i_error (fst r) = F32.of_Z 10 /\ snd r = F32.of_scaled 165 (-2).
Proof.
  destruct (pid_within_limits_unchanged
              (Samples.pid_reset Samples.pid_cfg_linuxcnc)
              (F32.of_Z 1000) (F32.of_Z 990) F32.one) as [Hi Ho].
  split.
  - rewrite Hi; [vm_compute; reflexivity | vm_compute; split; reflexivity].
  - destruct Ho as [Ho _]; [vm_compute; split; reflexivity |].
    rewrite Ho. vm_compute. reflexivity.
Defined.

(** X2.  A controller at rest on its target stays at rest: when the
    command equals the actual value (a finite number), the gains are finite,
    no bound is negative, the two ratios of the sample rates are finite and
    the stored integral and previous error are zero, [pid] returns zero and
    leaves the stored integral and previous error zero. *)
Theorem pid_on_target_at_rest p command sample_rate :
  F32.is_finite command = true ->
  F32.is_finite (p_gain (cfg p)) = true ->
  F32.is_finite (i_gain (cfg p)) = true ->
  F32.is_finite (d_gain (cfg p)) = true ->
  F32.ltb (i_max_error (cfg p)) F32.zero = false ->
  F32.ltb (d_max_error (cfg p)) F32.zero = false ->
  F32.ltb (max_error (cfg p)) F32.zero = false ->
  F32.is_finite (F32.div (sample_rate_prev p) sample_rate) = true ->
  F32.is_finite (F32.div sample_rate (sample_rate_prev p)) = true ->
  F32.is_zero (i_error p) = true ->
  F32.is_zero (d_error p) = true ->
  let r := pid p command command sample_rate in
  F32.is_zero (snd r) = true /\
  F32.is_zero (i_error (fst r)) = true /\
  F32.is_zero (d_error (fst r)) = true.
Proof.
  intros Hc Hp Hi Hd Hbi Hbd Hbo Hr1 Hr2 Hie Hde. cbv zeta.
  pose proof (sub_self_zero _ Hc) as He.
  assert (Hint : F32.is_zero
                   (limit (i_max_error (cfg p))
                          (integral_sum p (F32.sub command command)
                                        sample_rate)) = true).
  { apply limit_zero; [exact Hbi |]. unfold integral_sum.
    apply add_zero_zero; [exact Hie |]. now apply mul_zero_l. }
  split; [| split].
  - rewrite pid_output. apply limit_zero; [exact Hbo |].
    unfold output_sum. cbv zeta.
    assert (Hpi : F32.is_zero
                    (F32.add (F32.mul (p_gain (cfg p))
                                      (F32.sub command command))
                             (F32.mul (i_gain (cfg p))
                                (limit (i_max_error (cfg p))
                                   (integral_sum p (F32.sub command command)
                                                 sample_rate)))) = true).
    { apply add_zero_zero; now apply mul_zero_r. }
    destruct (F32.neqb (d_gain (cfg p)) F32.zero); [| exact Hpi].
    apply add_zero_zero; [exact Hpi |]. apply mul_zero_r; [exact Hd |].
    apply limit_zero; [exact Hbd |]. unfold derivative.
    apply mul_zero_l; [| exact Hr2]. now apply sub_zero_zero.
  - rewrite pid_i_error. exact Hint.
  - unfold pid. simpl.
    destruct (F32.neqb (d_gain (cfg p)) F32.zero); assumption.
Qed.

(** The LinuxCNC settings on a controller just reset, at 1000 RPM. *)
Lemma pid_on_target_at_rest_witness :
  let r := pid (Samples.pid_reset Samples.pid_cfg_linuxcnc)
               (F32.of_Z 1000) (F32.of_Z 1000) F32.one in
  F32.is_zero (snd r) = true /\
  F32.is_zero (i_error (fst r)) = true /\
  F32.is_zero (d_error (fst r)) = true.
Proof.
  apply (pid_on_target_at_rest (Samples.pid_reset Samples.pid_cfg_linuxcnc)
                               (F32.of_Z 1000) F32.one);
    vm_compute; reflexivity.
Defined.

End LimiterFacts.

(** ** Spindle encoder: pulse captures, data reset and the speed flag *)

Section WrapFacts.

Lemma u32_add_u32_l a b : Int.u32 (Int.u32 a + b) = Int.u32 (a + b).
Proof. unfold Int.u32, Int.wrap. apply Z.add_mod_idemp_l. lia. Qed.

Lemma u16_add_u16_l a b : Int.u16 (Int.u16 a + b) = Int.u16 (a + b).
Proof. unfold Int.u16, Int.wrap. apply Z.add_mod_idemp_l. lia. Qed.

Lemma u16_small x : 0 <= x < 2 ^ 16 -> Int.u16 x = x.
Proof. intros H. unfold Int.u16, Int.wrap. now apply Z.mod_small. Qed.

End WrapFacts.

Section CaptureFacts.
Import Encoder Spindle SpindleControl.

(** X3.  Over any run of pulse captures the pulse count follows the pulse
    counter: it ends as the count at the start plus the difference between
    the counter value of the last capture and the one recorded at the start,
    modulo 2^32; the recorded counter value is that of the last capture; and
    the compare register has advanced by the trigger distance once per
    capture, modulo 2^16. *)
Theorem pulse_captures_count l : forall enc data ccr0,
  0 <= Data.pulse_count data < 2 ^ 32 ->
  0 <= ccr0 < 2 ^ 16 ->
  let '(enc', data', ccr0') := pulse_captures l enc data ccr0 in
  Data.pulse_count data'
  = Int.u32 (Data.pulse_count data
             + (pulse_counter_last enc' - pulse_counter_last enc)) /\
  pulse_counter_last enc'
  = default (pulse_counter_last enc) (snd <$> last l) /\
  ccr0' = Int.u16 (ccr0 + Z.of_nat (length l) * pulse_counter_trigger enc).
Proof.
  induction l as [| [tval cval] l IH]; intros enc data ccr0 Hp Hc.
  - simpl. rewrite Z.sub_diag, Z.add_0_r, Z.add_0_r.
    rewrite u32_small, u16_small by assumption. auto.
  - cbn [pulse_captures RPMCOUNTER_IRQHandler].
    match goal with
    | |- context [pulse_captures l ?e ?d ?c] =>
        specialize (IH e d c); destruct (pulse_captures l e d c)
          as [[enc' data'] ccr0']
    end.
    cbn [Data.pulse_count Data.set_pulse_count pulse_counter_last
         pulse_counter_trigger] in IH.
    destruct IH as (IH1 & IH2 & IH3);
      [apply u32_range | unfold Int.u16, Int.wrap; apply Z.mod_pos_bound; lia |].
    split; [| split].
    + rewrite IH1, u32_add_u32_l. f_equal. lia.
    + rewrite IH2. destruct l as [| c l']; [reflexivity |].
      change (last ((tval, cval) :: c :: l')) with (last (c :: l')).
      destruct (last (c :: l')) eqn:Hl; [reflexivity |].
      apply last_None in Hl. discriminate.
    + rewrite IH3, u16_add_u16_l. f_equal.
      change (length ((tval, cval) :: l)) with (S (length l)). lia.
Qed.

(** Two captures, four pulses apart each, after the capture at counter value
    120: the pulse count goes from 120 to 128 and the compare register from
    124 to 132. *)
Lemma pulse_captures_count_witness :
  let '(enc', data', ccr0') :=
    pulse_captures [(998000, 124); (996000, 128)]
                   (Samples.encoder_running F32.zero) Samples.data_6000 124 in
  Data.pulse_count data' = 128 /\ pulse_counter_last enc' = 128 /\
  ccr0' = 132.
Proof.
  generalize (pulse_captures_count
                [(998000, 124); (996000, 128)]
                (Samples.encoder_running F32.zero) Samples.data_6000 124
                ltac:(simpl; lia) ltac:(lia)).
  destruct (pulse_captures [(998000, 124); (996000, 128)]
                           (Samples.encoder_running F32.zero)
                           Samples.data_6000 124) as [[enc' data'] ccr0'].
  intros (H1 & H2 & H3). rewrite H1, H2, H3. repeat split.
Defined.


(** X4.  A speed query that follows a pulse capture within the time-out
    reports the speed of the pulses just captured: with the spindle PID off,
    and the capture at least four timer tics after the previous one, the
    speed is the RPM factor divided by a quarter of the tics between the two
    captures. *)
Theorem capture_then_rpm_query tval cval enc data ccr0 timer_value counter :
  4 <= Int.u32 (timer_value_last enc - tval) ->
  Int.u32 (tval - timer_value) <= maximum_tt enc ->
  let '(enc', data', _) := RPMCOUNTER_IRQHandler tval cval enc data ccr0 in
  Data.rpm (spindleGetData enc' false timer_value counter data'
                           SpindleData_RPM)
  = F32.div (rpm_factor enc)
            (F32.of_Z (Int.u32 (timer_value_last enc - tval) / 4)).
Proof.
  intros Hd Hq. unfold RPMCOUNTER_IRQHandler, spindleGetData, spindle_calc_rpm.
  cbn [tpp timer_value_last maximum_tt rpm_factor].
  rewrite Z.shiftr_div_pow2 by lia. change (2 ^ 2) with 4.
  assert (Hq4 : 1 <= Int.u32 (timer_value_last enc - tval) / 4)
    by (apply Z.div_le_lower_bound; lia).
  destruct (Z.eqb_spec (Int.u32 (timer_value_last enc - tval) / 4) 0); [lia |].
  destruct (Z.gtb_spec (Int.u32 (tval - timer_value)) (maximum_tt enc));
    [lia |].
  reflexivity.
Qed.

(** A capture 2000 timer tics after the previous one and a query 1000 tics
    later: 6000 RPM. *)
Lemma capture_then_rpm_query_witness :
  let '(enc', data', _) :=
    RPMCOUNTER_IRQHandler 998000 124 (Samples.encoder_running F32.zero)
                          Samples.data_stopped 124 in
  Data.rpm (spindleGetData enc' false 997000 125 data' SpindleData_RPM)
  = F32.of_Z 6000.
Proof.
  generalize (capture_then_rpm_query
                998000 124 (Samples.encoder_running F32.zero)
                Samples.data_stopped 124 997000 125
                ltac:(vm_compute; discriminate)
                ltac:(vm_compute; discriminate)).
  destruct (RPMCOUNTER_IRQHandler 998000 124
                                  (Samples.encoder_running F32.zero)
                                  Samples.data_stopped 124)
    as [[enc' data'] ccr0'].
  intros H. rewrite H. vm_compute. reflexivity.
Defined.

(** X5.  After [spindleDataReset] the spindle data start anew, whatever
    the timer and the pulse counter read: a speed query gives 0, a counter
    query gives the pulse counter itself, and, when the pulse distance is
    finite, a position query gives 0. *)
Theorem spindleDataReset_queries tv s pid_enabled timer_value counter :
  let s' := spindleDataReset tv s in
  let query :=
    spindleGetData (encoder s') pid_enabled timer_value counter
                   (spindle_data s') in
  Data.rpm (query SpindleData_RPM) = F32.zero /\
  Data.pulse_count (query SpindleData_Counters) = Int.u32 counter /\
  (F32.is_finite (pulse_distance (encoder s)) = true ->
   Data.angular_position (query SpindleData_AngularPosition) = F32.zero).
Proof.
  cbv zeta. split; [| split].
  - apply spindleGetData_stopped. left. reflexivity.
  - unfold spindleGetData, spindleDataReset.
    cbn [tpp encoder spindle_data pulse_counter_last]. simpl.
    f_equal. lia.
  - intros Hf. unfold spindleGetData, spindleDataReset.
    cbn [tpp encoder spindle_data pulse_counter_last pulse_counter_index
         pulse_distance].
    simpl.
    destruct (pulse_distance (encoder s)) as [[] | | | [] m e];
      try discriminate; reflexivity.
Qed.

(** The running spindle, reset and queried after 8 more pulses. *)
Lemma spindleDataReset_queries_witness :
  let s' := spindleDataReset 4294967295 Samples.spindle_running in
  Data.angular_position
    (spindleGetData (encoder s') true 4294960000 8 (spindle_data s')
                    SpindleData_AngularPosition) = F32.zero.
Proof.
  destruct (spindleDataReset_queries 4294967295 Samples.spindle_running true
                                     4294960000 8) as (_ & _ & H).
  apply H. reflexivity.
Defined.

Section State.

Variable config : config_t.


End State.


End CaptureFacts.

(** ** The 1 ms timer: delays, the regulator's states and its samples *)

Section TickFacts.
Import Regulator SpindleControl.

Variable SPINDLE_PID_SAMPLE_RATE : Z.
Variable spindle_compute_pwm_value : F32.float -> bool -> Z.

Ltac tick_ifs :=
  repeat match goal with
         | |- context [if ?c =? 0 then _ else _] => destruct (c =? 0) eqn:?
         | |- context [if ?c <? 500 then _ else _] => destruct (c <? 500) eqn:?
         | |- context [if ?c >? 2 then _ else _] => destruct (c >? 2) eqn:?
         end.

(** The delay part of a tick. *)
Lemma tick_delay r enc data :
  let t := SysTick_Handler SPINDLE_PID_SAMPLE_RATE spindle_compute_pwm_value
                           r enc data in
  let ms := if delay_ms r =? 0 then 0 else Int.u32 (delay_ms r - 1) in
  let expired := negb (delay_ms r =? 0) && (ms =? 0) in
  delay_ms (fst (fst t)) = ms /\
  delay_callback (fst (fst t)) = (if expired then false else delay_callback r) /\
  snd t = expired && delay_callback r.
Proof.
  cbv zeta. unfold SysTick_Handler.
  destruct (pid_state (spindle_control r)); tick_ifs;
    repeat split; reflexivity.
Qed.

Lemma tick_delay_cases r enc data :
  0 <= delay_ms r < 2 ^ 32 ->
  let t := SysTick_Handler SPINDLE_PID_SAMPLE_RATE spindle_compute_pwm_value
                           r enc data in
  (delay_ms r = 0 /\ delay_ms (fst (fst t)) = 0 /\
   delay_callback (fst (fst t)) = delay_callback r /\ snd t = false) \/
  (delay_ms r = 1 /\ delay_ms (fst (fst t)) = 0 /\
   delay_callback (fst (fst t)) = false /\ snd t = delay_callback r) \/
  (2 <= delay_ms r /\ delay_ms (fst (fst t)) = delay_ms r - 1 /\
   delay_callback (fst (fst t)) = delay_callback r /\ snd t = false).
Proof.
  intros Hms. cbv zeta. destruct (tick_delay r enc data) as (Hd & Hc & Hf).
  rewrite Hd, Hc, Hf.
  destruct (Z.eqb_spec (delay_ms r) 0) as [E | E].
  - left. simpl. auto.
  - rewrite u32_small by lia.
    destruct (Z.eqb_spec (delay_ms r - 1) 0).
    + right; left. simpl. repeat split; lia.
    + right; right. simpl. repeat split; lia.
Qed.

(** A tick of a disabled regulator. *)
Lemma tick_disabled r enc data :
  pid_state (spindle_control r) = PIDState_Disabled ->
  let t := SysTick_Handler SPINDLE_PID_SAMPLE_RATE spindle_compute_pwm_value
                           r enc data in
  spindle_control (fst (fst t)) = spindle_control r /\
  pid_count (fst (fst t)) = pid_count r /\
  pwm_ccr (fst (fst t)) = pwm_ccr r /\
  snd (fst t) = enc.
Proof.
  intros Hd. cbv zeta. unfold SysTick_Handler. rewrite Hd.
  tick_ifs; repeat split; reflexivity.
Qed.

(** A tick of an active regulator leaves it active. *)
Lemma tick_active r enc data :
  pid_state (spindle_control r) = PIDState_Active ->
  state_after SPINDLE_PID_SAMPLE_RATE spindle_compute_pwm_value r enc data
  = PIDState_Active.
Proof.
  intros Hd. unfold state_after, SysTick_Handler, spindle_rpm_pid. rewrite Hd.
  destruct (Pid.pid _ _ _ _). tick_ifs; try reflexivity; simpl; exact Hd.
Qed.

(** A run at its first tick. *)
Lemma SysTick_run_cons r enc data tpp_now index_now captures :
  SysTick_run SPINDLE_PID_SAMPLE_RATE spindle_compute_pwm_value r enc data
              ((tpp_now, index_now) :: captures)
  = let t := SysTick_Handler SPINDLE_PID_SAMPLE_RATE spindle_compute_pwm_value
               r (fst (capture tpp_now index_now enc data))
               (snd (capture tpp_now index_now enc data)) in
    SysTick_run SPINDLE_PID_SAMPLE_RATE spindle_compute_pwm_value
                (fst (fst t)) (snd (fst t))
                (snd (capture tpp_now index_now enc data)) captures.
Proof.
  cbv zeta. cbn [SysTick_run capture fst snd].
  destruct (SysTick_Handler _ _ _ _ _) as [[r1 enc1] fired]. reflexivity.
Qed.

Lemma SysTick_callbacks_cons r enc data tpp_now index_now captures :
  SysTick_callbacks SPINDLE_PID_SAMPLE_RATE spindle_compute_pwm_value r enc
                    data ((tpp_now, index_now) :: captures)
  = let t := SysTick_Handler SPINDLE_PID_SAMPLE_RATE spindle_compute_pwm_value
               r (fst (capture tpp_now index_now enc data))
               (snd (capture tpp_now index_now enc data)) in
    snd t
    :: SysTick_callbacks SPINDLE_PID_SAMPLE_RATE spindle_compute_pwm_value
         (fst (fst t)) (snd (fst t))
         (snd (capture tpp_now index_now enc data)) captures.
Proof.
  cbv zeta. cbn [SysTick_callbacks capture fst snd].
  destruct (SysTick_Handler _ _ _ _ _) as [[r1 enc1] fired]. reflexivity.
Qed.

Lemma delay_run captures : forall r enc data,
  0 <= delay_ms r < 2 ^ 32 ->
  (forall k : nat,
      (k < length captures)%nat ->
      SysTick_callbacks SPINDLE_PID_SAMPLE_RATE spindle_compute_pwm_value
                        r enc data captures !! k
      = Some (delay_callback r && (Z.of_nat k =? delay_ms r - 1))) /\
  delay_ms (fst (SysTick_run SPINDLE_PID_SAMPLE_RATE spindle_compute_pwm_value
                             r enc data captures))
  = Z.max 0 (delay_ms r - Z.of_nat (length captures)).
Proof.
  induction captures as [| [tpp_now index_now] captures IH];
    intros r enc data Hms.
  - split; [intros k Hk; simpl in Hk; lia | simpl; lia].
  - rewrite SysTick_run_cons, SysTick_callbacks_cons. cbv zeta.
    pose proof (tick_delay_cases
                  r (fst (capture tpp_now index_now enc data))
                  (snd (capture tpp_now index_now enc data)) Hms) as Ht.
    cbv zeta in Ht.
    set (t := SysTick_Handler SPINDLE_PID_SAMPLE_RATE spindle_compute_pwm_value
                r (fst (capture tpp_now index_now enc data))
                (snd (capture tpp_now index_now enc data))) in *.
    destruct (IH (fst (fst t)) (snd (fst t))
                 (snd (capture tpp_now index_now enc data)))
      as [IHc IHd]; [lia |].
    split.
    + intros [| k] Hk.
      * change (Some (snd t)
                = Some (delay_callback r && (0 =? delay_ms r - 1))).
        f_equal.
        destruct Ht as [(E & _ & _ & ->) | [(E & _ & _ & ->) | (E & _ & _ & ->)]];
          destruct (Z.eqb_spec 0 (delay_ms r - 1)); try lia;
          destruct (delay_callback r); reflexivity.
      * simpl length in Hk.
        change (SysTick_callbacks SPINDLE_PID_SAMPLE_RATE
                                  spindle_compute_pwm_value
                                  (fst (fst t)) (snd (fst t))
                                  (snd (capture tpp_now index_now enc data))
                                  captures !! k
                = Some (delay_callback r
                        && (Z.of_nat (S k) =? delay_ms r - 1))).
        rewrite IHc by lia. f_equal.
        destruct Ht as [(E & -> & -> & _) | [(E & -> & -> & _) | (E & -> & -> & _)]];
          destruct (Z.eqb_spec (Z.of_nat (S k)) (delay_ms r - 1)); try lia;
          match goal with
          | |- context [Z.of_nat k =? ?x] => destruct (Z.eqb_spec (Z.of_nat k) x)
          end; try lia; destruct (delay_callback r); reflexivity.
    + rewrite IHd. simpl length. lia.
Qed.

(** X7.  A delay of [ms] milliseconds registered with [driver_delay_ms]
    enables the 1 ms timer and is counted down by it: whatever the regulator
    does meanwhile, the callback is called at tick number [ms] and at no
    other tick, and the milliseconds left after [n] ticks are [ms - n], or 0
    once the delay has expired. *)
Theorem delay_callback_after_ms ms callback captures r enc data :
  0 < ms < 2 ^ 32 ->
  let r0 := fst (driver_delay_ms ms callback r) in
  systick_enable r0 = true /\
  (forall k : nat,
      (k < length captures)%nat ->
      SysTick_callbacks SPINDLE_PID_SAMPLE_RATE spindle_compute_pwm_value
                        r0 enc data captures !! k
      = Some (callback && (Z.of_nat k =? ms - 1))) /\
  delay_ms (fst (SysTick_run SPINDLE_PID_SAMPLE_RATE spindle_compute_pwm_value
                             r0 enc data captures))
  = Z.max 0 (ms - Z.of_nat (length captures)).
Proof.
  intros Hms. cbv zeta. unfold driver_delay_ms.
  destruct (Z.ltb_spec 0 ms); [| lia]. cbn [fst].
  split; [reflexivity |].
  match goal with
  | |- context [SysTick_callbacks _ _ ?r0 _ _ _] =>
      destruct (delay_run captures r0 enc data) as [Hc Hd];
        [cbn [delay_ms]; lia |]
  end.
  cbn [delay_ms delay_callback] in Hc, Hd. split; assumption.
Qed.

(** A disabled regulator over a run. *)
Lemma disabled_run captures : forall r enc data,
  pid_state (spindle_control r) = PIDState_Disabled ->
  let t := SysTick_run SPINDLE_PID_SAMPLE_RATE spindle_compute_pwm_value
                       r enc data captures in
  spindle_control (fst t) = spindle_control r /\
  pid_count (fst t) = pid_count r /\
  pwm_ccr (fst t) = pwm_ccr r /\
  Encoder.rpm (snd t) = Encoder.rpm enc.
Proof.
  induction captures as [| [tpp_now index_now] captures IH];
    intros r enc data Hd; cbv zeta.
  - simpl. auto.
  - rewrite SysTick_run_cons. cbv zeta.
    destruct (tick_disabled r (fst (capture tpp_now index_now enc data))
                            (snd (capture tpp_now index_now enc data)) Hd)
      as (Hc & Hn & Hp & He).
    set (t := SysTick_Handler SPINDLE_PID_SAMPLE_RATE spindle_compute_pwm_value
                r (fst (capture tpp_now index_now enc data))
                (snd (capture tpp_now index_now enc data))) in *.
    destruct (IH (fst (fst t)) (snd (fst t))
                 (snd (capture tpp_now index_now enc data)))
      as (IHc & IHn & IHp & IHe); [rewrite Hc; exact Hd |].
    rewrite IHc, IHn, IHp, IHe, Hc, Hn, Hp, He. repeat split; reflexivity.
Qed.

Lemma active_run captures : forall r enc data,
  pid_state (spindle_control r) = PIDState_Active ->
  pid_state (spindle_control
               (fst (SysTick_run SPINDLE_PID_SAMPLE_RATE
                                 spindle_compute_pwm_value r enc data
                                 captures)))
  = PIDState_Active.
Proof.
  induction captures as [| [tpp_now index_now] captures IH];
    intros r enc data Hd.
  - exact Hd.
  - rewrite SysTick_run_cons. cbv zeta. apply IH.
    apply (tick_active r _ _ Hd).
Qed.

(** X8.  The 1 ms timer never takes the regulator back: over any run of
    ticks an active regulator stays active, and a disabled one stays
    disabled, with its PID, its tick count, the PWM compare register and the
    sampled speed untouched. *)
Theorem regulator_state_never_regresses captures r enc data :
  let t := SysTick_run SPINDLE_PID_SAMPLE_RATE spindle_compute_pwm_value
                       r enc data captures in
  (pid_state (spindle_control r) = PIDState_Active ->
   pid_state (spindle_control (fst t)) = PIDState_Active) /\
  (pid_state (spindle_control r) = PIDState_Disabled ->
   spindle_control (fst t) = spindle_control r /\
   pid_count (fst t) = pid_count r /\
   pwm_ccr (fst t) = pwm_ccr r /\
   Encoder.rpm (snd t) = Encoder.rpm enc).
Proof.
  cbv zeta. split; intros H.
  - now apply active_run.
  - now apply disabled_run.
Qed.

(** The sampling part of a tick of a regulator that is not disabled. *)
Lemma tick_window r enc data :
  window_ok SPINDLE_PID_SAMPLE_RATE r ->
  let t := SysTick_Handler SPINDLE_PID_SAMPLE_RATE spindle_compute_pwm_value
                           r enc data in
  let tpp1 := Int.u32 (tpp r + Encoder.tpp enc) in
  window_ok SPINDLE_PID_SAMPLE_RATE (fst (fst t)) /\
  Encoder.rpm_factor (snd (fst t)) = Encoder.rpm_factor enc /\
  if Int.u32 (spid r - 1) =? 0
  then Encoder.rpm (snd (fst t))
       = F32.div (Encoder.rpm_factor enc)
                 (F32.of_Z (tpp1 / SPINDLE_PID_SAMPLE_RATE))
  else spid (fst (fst t)) = Int.u32 (spid r - 1) /\ tpp (fst (fst t)) = tpp1.
Proof.
  intros [Ha | (Hp & Hc & Hz)]; cbv zeta;
    unfold window_ok, SysTick_Handler, spindle_rpm_pid, Spindle.spindle_calc_rpm.
  - rewrite Ha. destruct (Pid.pid _ _ _ _).
    destruct (Int.u32 (spid r - 1) =? 0); cbn; auto.
  - rewrite Hp.
    destruct (Z.eqb_spec (pid_count r) 0) as [E | E].
    + destruct (Hz E) as [Hs Ht]. rewrite E, Hs, Ht. change (0 <? 500) with true.
      cbv iota. change (Int.u32 (0 + 1)) with 1.
      destruct (Int.u32 (SPINDLE_PID_SAMPLE_RATE - 1) =? 0); cbn;
        (split;
         [ right; split; [reflexivity | split; [lia | intros; lia]]
         | auto ]).
    + destruct (Z.ltb_spec (pid_count r) 500);
        [| destruct (Data.index_count data >? 2)];
        destruct (Int.u32 (spid r - 1) =? 0); cbn;
        (split;
         [ first [ left; reflexivity
                 | right; split;
                   [ reflexivity
                   | split;
                     [ first [apply u32_range | lia]
                     | try (rewrite u32_small by lia); intros; lia ] ] ]
         | auto ]).
Qed.

Lemma window_run captures : forall r enc data,
  window_ok SPINDLE_PID_SAMPLE_RATE r ->
  1 <= spid r < 2 ^ 32 ->
  Z.of_nat (length captures) = spid r ->
  Encoder.rpm (snd (SysTick_run SPINDLE_PID_SAMPLE_RATE
                                spindle_compute_pwm_value r enc data captures))
  = F32.div (Encoder.rpm_factor enc)
            (F32.of_Z (Int.u32 (tpp r + foldr Z.add 0 (map fst captures))
                       / SPINDLE_PID_SAMPLE_RATE)).
Proof.
  induction captures as [| [tpp_now index_now] captures IH];
    intros r enc data Hw Hs Hl.
  - simpl in Hl. lia.
  - rewrite SysTick_run_cons. cbv zeta.
    pose proof (tick_window r (fst (capture tpp_now index_now enc data))
                            (snd (capture tpp_now index_now enc data)) Hw)
      as Ht.
    cbv zeta in Ht.
    change (Encoder.rpm_factor (fst (capture tpp_now index_now enc data)))
      with (Encoder.rpm_factor enc) in Ht.
    change (Encoder.tpp (fst (capture tpp_now index_now enc data)))
      with tpp_now in Ht.
    set (t := SysTick_Handler SPINDLE_PID_SAMPLE_RATE spindle_compute_pwm_value
                r (fst (capture tpp_now index_now enc data))
                (snd (capture tpp_now index_now enc data))) in *.
    destruct Ht as (Hw' & Hrf' & Ht).
    simpl length in Hl. rewrite Nat2Z.inj_succ in Hl.
    rewrite u32_small in Ht by lia.
    change (foldr Z.add 0 (map fst ((tpp_now, index_now) :: captures)))
      with (tpp_now + foldr Z.add 0 (map fst captures)).
    destruct (Z.eqb_spec (spid r - 1) 0) as [E | E].
    + destruct captures; [| simpl length in Hl; lia].
      simpl. rewrite Ht, Z.add_0_r. reflexivity.
    + destruct Ht as [Hsp Htp'].
      rewrite (IH _ _ _ Hw') by lia.
      rewrite Hrf', Htp', u32_add_u32_l, Z.add_assoc. reflexivity.
Qed.

(** X9.  The speed that the regulator samples is the speed of the mean
    pulse period of its window: from the start of a window (the tick counter
    [spid] at the sample rate, the sum [tpp] at 0) of a regulator that is not
    disabled, the ticks of one window leave in [spindle_encoder.rpm] the RPM
    factor divided by the sum of the pulse periods seen at the ticks, taken
    modulo 2^32 and divided by the sample rate. *)
Theorem regulator_sample_is_window_mean captures r enc data :
  0 < SPINDLE_PID_SAMPLE_RATE < 2 ^ 32 ->
  pid_state (spindle_control r) <> PIDState_Disabled ->
  0 <= pid_count r < 2 ^ 32 ->
  spid r = SPINDLE_PID_SAMPLE_RATE ->
  tpp r = 0 ->
  Z.of_nat (length captures) = SPINDLE_PID_SAMPLE_RATE ->
  Encoder.rpm (snd (SysTick_run SPINDLE_PID_SAMPLE_RATE
                                spindle_compute_pwm_value r enc data captures))
  = F32.div (Encoder.rpm_factor enc)
            (F32.of_Z (Int.u32 (foldr Z.add 0 (map fst captures))
                       / SPINDLE_PID_SAMPLE_RATE)).
Proof.
  intros Hr Hd Hc Hs Ht Hl.
  rewrite window_run; [rewrite Ht; reflexivity | | lia | lia].
  destruct (pid_state (spindle_control r)) eqn:Hp; [congruence | |].
  - right. split; [exact Hp | split; [lia | intros _; split; assumption]].
  - left. exact Hp.
Qed.

Lemma pending_run captures tpp_last index_last : forall r enc data,
  pid_state (spindle_control r) = PIDState_Pending ->
  0 <= pid_count r ->
  pid_count r + Z.of_nat (length captures) = 500 ->
  pid_state (spindle_control
               (fst (SysTick_run SPINDLE_PID_SAMPLE_RATE
                                 spindle_compute_pwm_value r enc data
                                 (captures ++ [(tpp_last, index_last)]))))
  = if index_last >? 2 then PIDState_Active else PIDState_Pending.
Proof.
  induction captures as [| [tpp_now index_now] captures IH];
    intros r enc data Hp Hc Hl.
  - simpl app. rewrite SysTick_run_cons. cbv zeta.
    change (SysTick_run SPINDLE_PID_SAMPLE_RATE spindle_compute_pwm_value
                        ?r0 ?e0 ?d0 []) with (r0, e0). cbn [fst].
    pose proof (tick_pending_state
                  SPINDLE_PID_SAMPLE_RATE spindle_compute_pwm_value r
                  (fst (capture tpp_last index_last enc data))
                  (snd (capture tpp_last index_last enc data)) Hp) as Hs.
    unfold state_after in Hs. rewrite Hs.
    simpl length in Hl.
    destruct (Z.ltb_spec (pid_count r) 500); [lia | reflexivity].
  - simpl app. rewrite SysTick_run_cons. cbv zeta.
    simpl length in Hl. rewrite Nat2Z.inj_succ in Hl.
    pose proof (tick_pending_state
                  SPINDLE_PID_SAMPLE_RATE spindle_compute_pwm_value r
                  (fst (capture tpp_now index_now enc data))
                  (snd (capture tpp_now index_now enc data)) Hp) as Hs.
    pose proof (tick_pending_count
                  SPINDLE_PID_SAMPLE_RATE spindle_compute_pwm_value r
                  (fst (capture tpp_now index_now enc data))
                  (snd (capture tpp_now index_now enc data)) Hp) as Hn.
    unfold state_after in Hs.
    assert (Hlt : (pid_count r <? 500) = true) by (apply Z.ltb_lt; lia).
    rewrite Hlt in Hs, Hn. rewrite u32_small in Hn by lia.
    apply IH; [exact Hs | lia | lia].
Qed.

(** X10.  The regulator becomes active at the first tick after its
    settling window at which more than two index pulses are counted, and not
    before: started pending with its tick count at 0, it is pending after
    each of the first 500 ticks, and after tick 501 it is active when the
    index count then exceeds 2 and still pending when it does not. *)
Theorem regulator_activates_after_window captures tpp_last index_last r enc
        data :
  pid_state (spindle_control r) = PIDState_Pending ->
  pid_count r = 0 ->
  length captures = 500%nat ->
  (forall n,
      pid_state (spindle_control
                   (fst (SysTick_run SPINDLE_PID_SAMPLE_RATE
                                     spindle_compute_pwm_value r enc data
                                     (take n captures))))
      = PIDState_Pending) /\
  pid_state (spindle_control
               (fst (SysTick_run SPINDLE_PID_SAMPLE_RATE
                                 spindle_compute_pwm_value r enc data
                                 (captures ++ [(tpp_last, index_last)]))))
  = if index_last >? 2 then PIDState_Active else PIDState_Pending.
Proof.
  intros Hp Hc Hl. split.
  - intros n.
    apply (regulator_settling_window SPINDLE_PID_SAMPLE_RATE
                                     spindle_compute_pwm_value
                                     (take n captures) r enc data Hp);
      [lia |].
    rewrite length_take. lia.
  - apply pending_run; [exact Hp | lia | lia].
Qed.

Variable config : config_t.

(** What [spindle_set_speed] leaves of the regulator. *)
Lemma spindle_set_speed_regulator timer_value pwm_value s :
  let s' := spindle_set_speed config timer_value pwm_value s in
  pid_count (regulator s') = pid_count (regulator s) /\
  delay_ms (regulator s') = delay_ms (regulator s) /\
  systick_enable (regulator s') = systick_enable (regulator s) /\
  Pid.enabled (pid (spindle_control (regulator s')))
  = Pid.enabled (pid (spindle_control (regulator s))) /\
  (pid_state (spindle_control (regulator s')) = PIDState_Pending \/
   pid_state (spindle_control (regulator s'))
   = pid_state (spindle_control (regulator s))).
Proof.
  cbv zeta. unfold spindle_set_speed.
  destruct (pwm_value =? off_value config).
  - destruct (disable_with_zero_speed config); destruct (always_on config);
      cbn; auto 10.
  - destruct (pwmEnabled s); [cbn; auto 10 |].
    unfold spindle_on, spindleDataReset. cbn.
    destruct (Pid.enabled (pid (spindle_control (regulator s)))) eqn:He;
      cbn; rewrite ?He; auto 10.
Qed.

(** X11.  Stopping the spindle puts the regulator to rest for good:
    [spindleSetStateVariable] with the state off, or with the speed 0, leaves
    the regulator disabled, the PID history cleared, the sampled speed 0, the
    PWM flag off and the enable output at its inactive level; and no run of
    ticks of the 1 ms timer then changes the regulator's state, its PID or
    the PWM compare register. *)
Theorem spindle_stop_disables_regulator timer_value on ccw rpm s :
  negb on || F32.eqb rpm F32.zero = true ->
  let s' :=
    spindleSetStateVariable config spindle_compute_pwm_value timer_value
                            on ccw rpm s in
  let p := pid (spindle_control (regulator s')) in
  pid_state (spindle_control (regulator s')) = PIDState_Disabled /\
  (Pid.error p = F32.zero /\ Pid.i_error p = F32.zero /\
   Pid.d_error p = F32.zero /\ Pid.sample_rate_prev p = F32.one) /\
  Encoder.rpm (encoder s') = F32.zero /\
  pwmEnabled s' = false /\
  enable_pin s' = invert_on config /\
  forall captures enc data,
    let t := SysTick_run SPINDLE_PID_SAMPLE_RATE spindle_compute_pwm_value
                         (regulator s') enc data captures in
    spindle_control (fst t) = spindle_control (regulator s') /\
    pwm_ccr (fst t) = pwm_ccr (regulator s').
Proof.
  intros Hoff. cbv zeta.
  assert (Hd : pid_state (spindle_control
                            (regulator
                               (spindleSetStateVariable
                                  config spindle_compute_pwm_value timer_value
                                  on ccw rpm s)))
               = PIDState_Disabled).
  { unfold spindleSetStateVariable. rewrite Hoff. reflexivity. }
  split; [exact Hd |].
  split; [unfold spindleSetStateVariable; rewrite Hoff; cbn; auto |].
  split; [unfold spindleSetStateVariable; rewrite Hoff; reflexivity |].
  split.
  { unfold spindleSetStateVariable, spindle_set_speed. rewrite Hoff.
    rewrite Z.eqb_refl.
    destruct (disable_with_zero_speed config); destruct (always_on config);
      reflexivity. }
  split; [unfold spindleSetStateVariable; rewrite Hoff; reflexivity |].
  intros captures enc data.
  destruct (disabled_run captures _ enc data Hd) as (Hc & _ & Hp & _).
  split; assumption.
Qed.

(** X12.  Starting the spindle from rest with the spindle PID enabled opens
    the settling window: [spindleSetStateVariable] with the state on and a
    speed other than 0, while no speed is programmed, leaves the regulator
    pending with its tick count at 0 and the 1 ms timer enabled; and the
    regulator is still pending after each of the next 500 ticks, whatever the
    encoder reports. *)
Theorem spindle_start_settles timer_value ccw rpm s :
  F32.eqb rpm F32.zero = false ->
  F32.eqb (Data.rpm_programmed (spindle_data s)) F32.zero = true ->
  Pid.enabled (pid (spindle_control (regulator s))) = true ->
  let s' :=
    spindleSetStateVariable config spindle_compute_pwm_value timer_value
                            true ccw rpm s in
  pid_state (spindle_control (regulator s')) = PIDState_Pending /\
  pid_count (regulator s') = 0 /\
  systick_enable (regulator s') = true /\
  forall captures enc data,
    (length captures <= 500)%nat ->
    pid_state (spindle_control
                 (fst (SysTick_run SPINDLE_PID_SAMPLE_RATE
                                   spindle_compute_pwm_value
                                   (regulator s') enc data captures)))
    = PIDState_Pending.
Proof.
  intros Hrpm Hprog Hen. cbv zeta.
  assert (H : pid_state (spindle_control
                           (regulator
                              (spindleSetStateVariable
                                 config spindle_compute_pwm_value timer_value
                                 true ccw rpm s)))
              = PIDState_Pending /\
              pid_count (regulator
                           (spindleSetStateVariable
                              config spindle_compute_pwm_value timer_value
                              true ccw rpm s)) = 0 /\
              systick_enable (regulator
                                (spindleSetStateVariable
                                   config spindle_compute_pwm_value
                                   timer_value true ccw rpm s)) = true).
  { unfold spindleSetStateVariable. rewrite Hrpm. cbn [negb orb].
    cbn [spindle_dir regulator spindle_data]. rewrite Hprog, Hen.
    cbn [andb set_programmed regulator].
    match goal with
    | |- context [spindle_set_speed config timer_value ?v ?s0] =>
        destruct (spindle_set_speed_regulator timer_value v s0)
          as (Hc & _ & Hs & _ & Hst)
    end.
    cbv zeta in Hc, Hs, Hst. rewrite Hc, Hs.
    split; [| split; reflexivity].
    destruct Hst as [-> | ->]; reflexivity. }
  destruct H as (Hp & Hc & Hs). repeat split; try assumption.
  intros captures enc data Hl.
  apply (regulator_settling_window SPINDLE_PID_SAMPLE_RATE
                                   spindle_compute_pwm_value captures _ enc
                                   data Hp); lia.
Qed.

(** X13.  A change of speed while the spindle runs keeps the encoder's
    tracking: [spindleUpdateRPM] on a spindle whose PWM is on, with a PWM
    value other than the off value, leaves the encoder, the index and pulse
    counts and the regulator's state and tick count as they are; it writes
    the PWM value to the compare register and records the new speed as
    programmed. *)
Theorem spindle_speed_change_keeps_tracking timer_value rpm s :
  pwmEnabled s = true ->
  corrected_pwm_value spindle_compute_pwm_value rpm s <> off_value config ->
  let s' := spindleUpdateRPM config spindle_compute_pwm_value timer_value
                             rpm s in
  encoder s' = encoder s /\
  Data.index_count (spindle_data s') = Data.index_count (spindle_data s) /\
  Data.pulse_count (spindle_data s') = Data.pulse_count (spindle_data s) /\
  spindle_control (regulator s') = spindle_control (regulator s) /\
  pid_count (regulator s') = pid_count (regulator s) /\
  pwm_ccr (regulator s')
  = Int.u16 (corrected_pwm_value spindle_compute_pwm_value rpm s) /\
  Data.rpm_programmed (spindle_data s') = rpm.
Proof.
  intros Hon Hv. cbv zeta. unfold spindleUpdateRPM, spindle_set_speed.
  destruct (Z.eqb_spec (corrected_pwm_value spindle_compute_pwm_value rpm s)
                       (off_value config)); [contradiction |].
  rewrite Hon. cbn. repeat split; reflexivity.
Qed.

End TickFacts.

Section TickExamples.
Import Regulator SpindleControl.

(** A delay of 3 ms with a callback: the callback is called at the third
    tick, and 5 ticks leave no delay. *)
Lemma delay_callback_after_ms_witness :
  let r0 := fst (driver_delay_ms 3 true Samples.regulator_disabled) in
  SysTick_callbacks 5 Samples.pwm_of_rpm r0 Samples.encoder_60ppr
                    Samples.data_stopped (Samples.ticks_steady 5) !! 2%nat
  = Some true /\
  delay_ms (fst (SysTick_run 5 Samples.pwm_of_rpm r0 Samples.encoder_60ppr
                             Samples.data_stopped (Samples.ticks_steady 5)))
  = 0.
Proof.
  destruct (delay_callback_after_ms
              5 Samples.pwm_of_rpm 3 true (Samples.ticks_steady 5)
              Samples.regulator_disabled Samples.encoder_60ppr
              Samples.data_stopped ltac:(lia)) as (_ & Hc & Hd).
  split.
  - rewrite Hc by (simpl; lia). reflexivity.
  - rewrite Hd. reflexivity.
Defined.

(** Started as in [regulator_pending 0]: pending after 500 ticks, active
    after the next one, three index pulses being counted. *)
Lemma regulator_activates_after_window_witness :
  pid_state (spindle_control
               (fst (SysTick_run 5 Samples.pwm_of_rpm
                                 (Samples.regulator_pending 0)
                                 (Samples.encoder_running F32.zero)
                                 Samples.data_6000
                                 (take 500 (Samples.ticks_steady 500)))))
  = PIDState_Pending /\
  pid_state (spindle_control
               (fst (SysTick_run 5 Samples.pwm_of_rpm
                                 (Samples.regulator_pending 0)
                                 (Samples.encoder_running F32.zero)
                                 Samples.data_6000
                                 (Samples.ticks_steady 500 ++ [(500, 3)]))))
  = PIDState_Active.
Proof.
  destruct (regulator_activates_after_window
              5 Samples.pwm_of_rpm (Samples.ticks_steady 500) 500 3
              (Samples.regulator_pending 0) (Samples.encoder_running F32.zero)
              Samples.data_6000 eq_refl eq_refl
              (repeat_length (500, 3) 500)) as [H1 H2].
  split; [apply H1 | exact H2].
Defined.

(** The regulator at work for 12 ticks, and at rest for 12 ticks. *)
Lemma regulator_state_never_regresses_witness :
  pid_state (spindle_control
               (fst (SysTick_run 5 Samples.pwm_of_rpm Samples.regulator_active
                                 (Samples.encoder_running F32.zero)
                                 Samples.data_6000 (Samples.ticks_steady 12))))
  = PIDState_Active /\
  pwm_ccr (fst (SysTick_run 5 Samples.pwm_of_rpm Samples.regulator_disabled
                            (Samples.encoder_running F32.zero)
                            Samples.data_6000 (Samples.ticks_steady 12)))
  = 0.
Proof.
  split.
  - apply (regulator_state_never_regresses
             5 Samples.pwm_of_rpm (Samples.ticks_steady 12)
             Samples.regulator_active (Samples.encoder_running F32.zero)
             Samples.data_6000).
    reflexivity.
  - destruct (regulator_state_never_regresses
                5 Samples.pwm_of_rpm (Samples.ticks_steady 12)
                Samples.regulator_disabled (Samples.encoder_running F32.zero)
                Samples.data_6000) as [_ H].
    destruct H as (_ & _ & H & _); [reflexivity |].
    rewrite H. reflexivity.
Defined.

(** Five ticks at 500 timer tics per pulse, 60 pulses per revolution and a
    3 MHz timer: 6000 RPM. *)
Lemma regulator_sample_is_window_mean_witness :
  Encoder.rpm (snd (SysTick_run 5 Samples.pwm_of_rpm
                                (Samples.regulator_pending 10)
                                (Samples.encoder_running F32.zero)
                                Samples.data_6000 (Samples.ticks_steady 5)))
  = F32.of_Z 6000.
Proof.
  rewrite (regulator_sample_is_window_mean
             5 Samples.pwm_of_rpm (Samples.ticks_steady 5)
             (Samples.regulator_pending 10) (Samples.encoder_running F32.zero)
             Samples.data_6000);
    [vm_compute; reflexivity | lia | discriminate | simpl; lia | reflexivity
    | reflexivity | reflexivity].
Defined.

(** The running spindle switched off, then 12 ticks. *)
Lemma spindle_stop_disables_regulator_witness :
  let s' :=
    spindleSetStateVariable Samples.spindle_config Samples.pwm_of_rpm
                            4294967295 false false (F32.of_Z 6000)
                            Samples.spindle_running in
  pid_state (spindle_control (regulator s')) = PIDState_Disabled /\
  pwmEnabled s' = false /\
  pwm_ccr (fst (SysTick_run 5 Samples.pwm_of_rpm (regulator s')
                            (Samples.encoder_running F32.zero)
                            Samples.data_6000 (Samples.ticks_steady 12)))
  = pwm_ccr (regulator s').
Proof.
  destruct (spindle_stop_disables_regulator
              5 Samples.pwm_of_rpm Samples.spindle_config 4294967295 false
              false (F32.of_Z 6000) Samples.spindle_running eq_refl)
    as (H1 & _ & _ & H2 & _ & H3).
  split; [exact H1 |]. split; [exact H2 |].
  exact (proj2 (H3 (Samples.ticks_steady 12)
                   (Samples.encoder_running F32.zero) Samples.data_6000)).
Defined.

(** The spindle at rest started at 6000 RPM, then 500 ticks. *)
Lemma spindle_start_settles_witness :
  let s' :=
    spindleSetStateVariable Samples.spindle_config Samples.pwm_of_rpm
                            4294967295 true false (F32.of_Z 6000)
                            Samples.spindle_stopped in
  pid_state (spindle_control (regulator s')) = PIDState_Pending /\
  pid_state (spindle_control
               (fst (SysTick_run 5 Samples.pwm_of_rpm (regulator s')
                                 (Samples.encoder_running F32.zero)
                                 Samples.data_6000 (Samples.ticks_steady 500))))
  = PIDState_Pending.
Proof.
  destruct (spindle_start_settles
              5 Samples.pwm_of_rpm Samples.spindle_config 4294967295 false
              (F32.of_Z 6000) Samples.spindle_stopped eq_refl eq_refl eq_refl)
    as (H1 & _ & _ & H2).
  split; [exact H1 |].
  apply H2. unfold Samples.ticks_steady. rewrite repeat_length. lia.
Defined.

(** The spindle running at 6000 RPM set to 5000 RPM. *)
Lemma spindle_speed_change_keeps_tracking_witness :
  let s' := spindleUpdateRPM Samples.spindle_config Samples.pwm_of_rpm
                             4294967295 (F32.of_Z 5000)
                             Samples.spindle_running in
  Data.index_count (spindle_data s') = 1 /\
  Data.pulse_count (spindle_data s') = 120 /\
  pwm_ccr (regulator s') = 5000.
Proof.
  destruct (spindle_speed_change_keeps_tracking
              Samples.pwm_of_rpm Samples.spindle_config 4294967295
              (F32.of_Z 5000) Samples.spindle_running eq_refl
              ltac:(vm_compute; discriminate))
    as (_ & H1 & H2 & _ & _ & H3 & _).
  split; [rewrite H1; reflexivity |].
  split; [rewrite H2; reflexivity |].
  rewrite H3. vm_compute. reflexivity.
Defined.

End TickExamples.

(** ** Stepper pulse routines: retiming, the timer load and the routine
       installed *)

Section RetimingFacts.
Import Sync.

Variable f_step_timer : Z.
Variable enc : Encoder.spindle_encoder_t.
Variable pid_enabled : bool.
Variable timer_value counter : Z.

(** X14.  The synchronized routine retimes only at cruising segment
    boundaries: at every other call, with one of the two normal routines
    saved for the way back, it returns, having divided nothing, and leaves
    the segment's [cycles_per_tick], the step count, the load of the stepper
    timer and the last correction as they are.  This holds also for the call
    that hands a block that is not synchronized back to the saved routine. *)
Theorem sync_retimes_only_cruising_boundaries d st :
  ~ cruising_boundary d st ->
  stepper_pulse_start_normal (spindle_tracker d) <> PulseStartSynchronized ->
  exists d' st',
    stepperPulseStartSynchronized f_step_timer enc pid_enabled timer_value
                                  counter d st = Ok (d', st') /\
    Stepper.cycles_per_tick (Stepper.exec_segment st')
    = Stepper.cycles_per_tick (Stepper.exec_segment st) /\
    Stepper.step_count st' = Stepper.step_count st /\
    stepper_timer_load d' = stepper_timer_load d /\
    Pid.error (pid (spindle_tracker d')) = Pid.error (pid (spindle_tracker d)).
Proof.
  intros Hn Hsaved. unfold stepperPulseStartSynchronized.
  destruct (Stepper.new_block st) eqn:Hb.
  - destruct (Stepper.spindle_sync (Stepper.exec_segment st)); cbn [negb andb].
    + cbn [segment_id start_block].
      destruct (0 =? Stepper.id (Stepper.exec_segment st));
        eexists _, _; (split; [reflexivity |]); cbn; auto.
    + destruct (stepper_pulse_start_normal (spindle_tracker d));
        [| | congruence];
        (eexists _, _; split; [reflexivity |]; cbn; auto).
  - cbn [andb].
    destruct (Z.eqb_spec (segment_id (spindle_tracker d))
                         (Stepper.id (Stepper.exec_segment st))) as [E | E].
    + eexists _, _. split; [reflexivity |]. cbn. auto.
    + destruct (Stepper.cruising (Stepper.exec_segment st)) eqn:Hc.
      * exfalso. apply Hn. repeat split; assumption.
      * eexists _, _. split; [reflexivity |]. cbn. auto.
Qed.

(** X15.  After the correction of a cruising segment the stepper timer is
    loaded with a value that fits its 20 bits and is not below the minimum
    of cycles per tick, or not below the largest load when the minimum
    exceeds it. *)
Theorem sync_timer_load_bounds d st :
  cruising_boundary d st ->
  0 < Stepper.step_count st < 2 ^ 32 ->
  0 <= min_cycles_per_tick (spindle_tracker d) < 2 ^ 31 ->
  exists d' st',
    stepperPulseStartSynchronized f_step_timer enc pid_enabled timer_value
                                  counter d st = Ok (d', st') /\
    Z.min (min_cycles_per_tick (spindle_tracker d)) 1048575
    <= stepper_timer_load d' <= 1048575.
Proof.
  intros Hb Hs Hm.
  rewrite (boundary_runs_correction _ _ _ _ _ _ _ Hb).
  destruct (correct_cruising_floor f_step_timer enc pid_enabled timer_value
                                   counter d st (s32_nonzero _ Hs) Hm)
    as (tracker & data & cycles & -> & Hge).
  eexists _, _. split; [reflexivity |]. cbn [stepper_timer_load].
  unfold stepperCyclesPerTick. change (Z.shiftl 1 20) with 1048576.
  destruct (Z.ltb_spec cycles 1048576); lia.
Qed.

End RetimingFacts.

Section RetimingExamples.
Import Sync.

(** The first step of a decelerating segment: the segment keeps its 2000
    cycles per tick and the timer its load. *)
Lemma sync_retimes_only_cruising_boundaries_witness :
  exists d' st',
    stepperPulseStartSynchronized
      48000000 (Samples.encoder_running F32.zero) false 1000000 120
      (Samples.driver_synchronized 960 Samples.target_ahead)
      Samples.stepper_decelerating = Ok (d', st') /\
    Stepper.cycles_per_tick (Stepper.exec_segment st') = 2000 /\
    stepper_timer_load d' = 1000.
Proof.
  destruct (sync_retimes_only_cruising_boundaries
              48000000 (Samples.encoder_running F32.zero) false 1000000 120
              (Samples.driver_synchronized 960 Samples.target_ahead)
              Samples.stepper_decelerating)
    as (d' & st' & H1 & H2 & _ & H3 & _).
  - intros (_ & _ & H). discriminate H.
  - simpl. discriminate.
  - exists d', st'. split; [exact H1 |]. split; [rewrite H2 | rewrite H3];
      reflexivity.
Defined.

(** The sample boundary with the target behind the spindle. *)
Lemma sync_timer_load_bounds_witness :
  exists d' st',
    stepperPulseStartSynchronized
      48000000 (Samples.encoder_running F32.zero) false 1000000 120
      (Samples.driver_synchronized 960 Samples.target_behind)
      (Samples.stepper_cruising 20) = Ok (d', st') /\
    960 <= stepper_timer_load d' <= 1048575.
Proof.
  apply (sync_timer_load_bounds
           48000000 (Samples.encoder_running F32.zero) false 1000000 120
           (Samples.driver_synchronized 960 Samples.target_behind)
           (Samples.stepper_cruising 20)).
  - repeat split. simpl. lia.
  - simpl. lia.
  - simpl. lia.
Defined.

End RetimingExamples.

Section PulseFacts.
Import Sync PulseStart.

Variable f_step_timer : Z.
Variable pid_enabled : bool.
Variable pulse_delay_microseconds : Z.

(** The synchronized routine, when it does not switch back, leaves the
    installed and the saved routine as they are. *)
Lemma synchronized_keeps_routines enc timer_value counter d st d' st' :
  Stepper.new_block st
  && negb (Stepper.spindle_sync (Stepper.exec_segment st)) = false ->
  stepperPulseStartSynchronized f_step_timer enc pid_enabled timer_value
                                counter d st = Ok (d', st') ->
  stepper_pulse_start d' = stepper_pulse_start d /\
  stepper_pulse_start_normal (spindle_tracker d')
  = stepper_pulse_start_normal (spindle_tracker d).
Proof.
  intros Hb. unfold stepperPulseStartSynchronized, correct_cruising.
  rewrite Hb.
  destruct (Stepper.new_block st).
  - cbn [segment_id start_block].
    destruct (0 =? Stepper.id (Stepper.exec_segment st));
      intros [= <- <-]; split; reflexivity.
  - destruct (segment_id (spindle_tracker d)
              =? Stepper.id (Stepper.exec_segment st));
      [intros [= <- <-]; split; reflexivity |].
    destruct (Stepper.cruising (Stepper.exec_segment st));
      [| intros [= <- <-]; split; reflexivity].
    cbn [spindle_tracker sync spindle_data].
    destruct (Pid.pid _ _ _ _) as [p correction].
    destruct (segment_ticks _ _ _); [| discriminate ..].
    intros [= <- <-]. split; reflexivity.
Qed.

(** A call that does not switch back returns or divides by zero. *)
Lemma synchronized_returns enc timer_value counter d st :
  Stepper.new_block st
  && negb (Stepper.spindle_sync (Stepper.exec_segment st)) = false ->
  stepperPulseStartSynchronized f_step_timer enc pid_enabled timer_value
                                counter d st <> NoReturn.
Proof.
  intros Hb. unfold stepperPulseStartSynchronized, correct_cruising.
  rewrite Hb.
  destruct (Stepper.new_block st).
  - cbn [segment_id start_block].
    destruct (0 =? Stepper.id (Stepper.exec_segment st)); discriminate.
  - destruct (segment_id (spindle_tracker d)
              =? Stepper.id (Stepper.exec_segment st)); [discriminate |].
    destruct (Stepper.cruising (Stepper.exec_segment st)); [| discriminate].
    cbn [spindle_tracker sync spindle_data].
    destruct (Pid.pid _ _ _ _) as [p correction].
    unfold segment_ticks.
    destruct (Int.s32 (Stepper.step_count st) =? 0); discriminate.
Qed.

Lemma synchronized_body_returns c d :
  Stepper.new_block (c_stepper c)
  && negb (Stepper.spindle_sync (Stepper.exec_segment (c_stepper c))) = false ->
  synchronized_body f_step_timer pid_enabled pulse_delay_microseconds c d
  <> Recurses.
Proof.
  intros Hb. unfold synchronized_body.
  pose proof (synchronized_returns (c_encoder c) (c_timer_value c)
                                   (c_counter c) d (c_stepper c) Hb) as Hr.
  destruct (stepperPulseStartSynchronized _ _ _ _ _ _ _) as [[? ?] | |];
    [discriminate | discriminate | congruence].
Qed.

Ltac pins_cases Hin :=
  apply in_app_or in Hin;
  destruct Hin as [Hin | Hin]; simpl in Hin;
  repeat match goal with
         | H : _ \/ _ |- _ => destruct H
         | H : False |- _ => destruct H
         | H : _ = _ |- _ => discriminate H
         end.

Lemma synchronized_body_call c d d' st' pins :
  Stepper.new_block (c_stepper c)
  && negb (Stepper.spindle_sync (Stepper.exec_segment (c_stepper c))) = false ->
  synchronized_body f_step_timer pid_enabled pulse_delay_microseconds c d
  = Completed (d', st', pins) ->
  stepper_pulse_start d' = stepper_pulse_start d /\
  stepper_pulse_start_normal (spindle_tracker d')
  = stepper_pulse_start_normal (spindle_tracker d) /\
  (pulse_delay_microseconds <> 0 -> forall bits, ~ In (StepOutputs bits) pins) /\
  (pulse_delay_microseconds = 0 ->
   forall bits, ~ In (NextStepOutbits bits) pins).
Proof.
  intros Hb. unfold synchronized_body.
  destruct (stepperPulseStartSynchronized _ _ _ _ _ _ _)
    as [[d1 st1] | |] eqn:Hr; [| discriminate ..].
  intros [= <- <- <-].
  destruct (synchronized_keeps_routines _ _ _ _ _ _ _ Hb Hr) as [H1 H2].
  split; [exact H1 |]. split; [exact H2 |].
  split; intros Hd bits Hin;
    destruct (Stepper.new_block (c_stepper c));
    destruct (Stepper.step_outbits (c_stepper c) =? 0);
    destruct (Z.eqb_spec pulse_delay_microseconds 0);
    try contradiction; pins_cases Hin.
Qed.

Lemma normal_routine_call delayed c d d' st' pins :
  stepper_pulse_start d <> PulseStartSynchronized ->
  normal_routine f_step_timer pid_enabled pulse_delay_microseconds delayed c d
  = Completed (d', st', pins) ->
  let st := c_stepper c in
  routine_kept (stepper_pulse_start d) d' /\
  stepper_pulse_start d'
  = (if Stepper.new_block st && Stepper.spindle_sync (Stepper.exec_segment st)
     then PulseStartSynchronized else stepper_pulse_start d) /\
  (delayed = true -> pulse_delay_microseconds <> 0 ->
   forall bits, ~ In (StepOutputs bits) pins) /\
  (delayed = false -> pulse_delay_microseconds = 0 ->
   forall bits, ~ In (NextStepOutbits bits) pins).
Proof.
  intros Hn. unfold normal_routine. cbv zeta.
  destruct (Stepper.new_block (c_stepper c)
            && Stepper.spindle_sync (Stepper.exec_segment (c_stepper c)))
    eqn:Hb.
  - intros Hr.
    apply synchronized_body_call in Hr;
      [| apply andb_true_iff in Hb; destruct Hb as [_ ->];
         apply andb_false_r].
    destruct Hr as (H1 & H2 & H3 & H4). cbn in H1, H2.
    split; [right; split; assumption |]. split; [exact H1 |].
    split; intros; auto.
  - intros [= <- <- <-]. split; [left; reflexivity |].
    split; [reflexivity |].
    split; intros -> Hd bits Hin;
      destruct (Stepper.new_block (c_stepper c));
      destruct (Stepper.step_outbits (c_stepper c) =? 0);
      pins_cases Hin.
Qed.

(** One call through [hal.stepper_pulse_start]. *)
Lemma hal_call orig c d :
  orig <> PulseStartSynchronized ->
  routine_kept orig d ->
  hal_stepper_pulse_start f_step_timer pid_enabled pulse_delay_microseconds c d
  <> Recurses /\
  forall d' st' pins,
    hal_stepper_pulse_start f_step_timer pid_enabled pulse_delay_microseconds
                            c d = Completed (d', st', pins) ->
    let st := c_stepper c in
    routine_kept orig d' /\
    stepper_pulse_start d'
    = (if Stepper.new_block st
       then if Stepper.spindle_sync (Stepper.exec_segment st)
            then PulseStartSynchronized else orig
       else stepper_pulse_start d) /\
    (orig = PulseStartDelayed -> pulse_delay_microseconds <> 0 ->
     forall bits, ~ In (StepOutputs bits) pins) /\
    (orig = PulseStart -> pulse_delay_microseconds = 0 ->
     forall bits, ~ In (NextStepOutbits bits) pins).
Proof.
  intros Ho Hk.
  assert (Hnormal : forall (delayed : bool) (d0 : driver_t),
             stepper_pulse_start d0 = orig ->
             orig = (if delayed then PulseStartDelayed else PulseStart) ->
             normal_routine f_step_timer pid_enabled pulse_delay_microseconds
                            delayed c d0 <> Recurses /\
             forall d' st' pins,
               normal_routine f_step_timer pid_enabled
                              pulse_delay_microseconds delayed c d0
               = Completed (d', st', pins) ->
               routine_kept orig d' /\
               stepper_pulse_start d'
               = (if Stepper.new_block (c_stepper c)
                     && Stepper.spindle_sync
                          (Stepper.exec_segment (c_stepper c))
                  then PulseStartSynchronized else orig) /\
               (orig = PulseStartDelayed -> pulse_delay_microseconds <> 0 ->
                forall bits, ~ In (StepOutputs bits) pins) /\
               (orig = PulseStart -> pulse_delay_microseconds = 0 ->
                forall bits, ~ In (NextStepOutbits bits) pins)).
  { intros delayed d0 Hd0 Hdel. split.
    - unfold normal_routine.
      destruct (Stepper.new_block (c_stepper c)
                && Stepper.spindle_sync (Stepper.exec_segment (c_stepper c)))
        eqn:Hb; [| discriminate].
      apply synchronized_body_returns.
      apply andb_true_iff in Hb. destruct Hb as [_ ->].
      apply andb_false_r.
    - intros d' st' pins Hr.
      apply normal_routine_call in Hr; [| congruence].
      cbv zeta in Hr. rewrite Hd0 in Hr.
      destruct Hr as (H1 & H2 & H3 & H4).
      split; [exact H1 |]. split; [exact H2 |].
      split; intros Ho'; [apply H3 | apply H4];
        destruct delayed; congruence. }
  unfold hal_stepper_pulse_start, stepperPulseStart, stepperPulseStartDelayed.
  destruct Hk as [Hk | [Hs Hk]].
  - rewrite Hk.
    destruct orig; [| | congruence].
    + destruct (Hnormal false d Hk eq_refl) as [Hr Hc].
      split; [exact Hr |]. intros d' st' pins Hcall. cbv zeta.
      destruct (Hc d' st' pins Hcall) as (H1 & H2 & H3 & H4).
      repeat split; try assumption.
      rewrite H2, ?Hk. destruct (Stepper.new_block (c_stepper c));
        [destruct (Stepper.spindle_sync _) |]; reflexivity.
    + destruct (Hnormal true d Hk eq_refl) as [Hr Hc].
      split; [exact Hr |]. intros d' st' pins Hcall. cbv zeta.
      destruct (Hc d' st' pins Hcall) as (H1 & H2 & H3 & H4).
      repeat split; try assumption.
      rewrite H2, ?Hk. destruct (Stepper.new_block (c_stepper c));
        [destruct (Stepper.spindle_sync _) |]; reflexivity.
  - rewrite Hs. unfold synchronized_routine, stepperPulseStart,
      stepperPulseStartDelayed.
    destruct (Stepper.new_block (c_stepper c)
              && negb (Stepper.spindle_sync
                         (Stepper.exec_segment (c_stepper c)))) eqn:Hb.
    + apply andb_true_iff in Hb. destruct Hb as [Hnb Hsy].
      apply negb_true_iff in Hsy. rewrite Hk.
      destruct orig; [| | congruence].
      * destruct (Hnormal false (set_stepper_pulse_start PulseStart d)
                          eq_refl eq_refl) as [Hr Hc].
        split; [exact Hr |]. intros d' st' pins Hcall. cbv zeta.
        destruct (Hc d' st' pins Hcall) as (H1 & H2 & H3 & H4).
        repeat split; try assumption.
        rewrite H2, Hnb, Hsy. reflexivity.
      * destruct (Hnormal true (set_stepper_pulse_start PulseStartDelayed d)
                          eq_refl eq_refl) as [Hr Hc].
        split; [exact Hr |]. intros d' st' pins Hcall. cbv zeta.
        destruct (Hc d' st' pins Hcall) as (H1 & H2 & H3 & H4).
        repeat split; try assumption.
        rewrite H2, Hnb, Hsy. reflexivity.
    + split.
      { apply synchronized_body_returns. exact Hb. }
      intros d' st' pins Hcall. cbv zeta.
      apply synchronized_body_call in Hcall; [| exact Hb].
      destruct Hcall as (H1 & H2 & H3 & H4).
      split; [right; split; congruence |].
      split.
      { rewrite H1, Hs. destruct (Stepper.new_block (c_stepper c));
          [| reflexivity].
        destruct (Stepper.spindle_sync _); [reflexivity | discriminate]. }
      split; intros; auto.
Qed.

Lemma pulse_run_invariant orig calls : forall d,
  orig <> PulseStartSynchronized ->
  routine_kept orig d ->
  pulse_run f_step_timer pid_enabled pulse_delay_microseconds calls d
  <> Recurses /\
  forall d' pins,
    pulse_run f_step_timer pid_enabled pulse_delay_microseconds calls d
    = Completed (d', pins) ->
    stepper_pulse_start d'
    = match last_block_synchronized calls with
      | Some true => PulseStartSynchronized
      | Some false => orig
      | None => stepper_pulse_start d
      end /\
    (orig = PulseStartDelayed -> pulse_delay_microseconds <> 0 ->
     forall bits, ~ In (StepOutputs bits) pins) /\
    (orig = PulseStart -> pulse_delay_microseconds = 0 ->
     forall bits, ~ In (NextStepOutbits bits) pins).
Proof.
  induction calls as [| c calls IH]; intros d Ho Hk.
  - split; [discriminate |]. intros d' pins [= <- <-]. simpl.
    split; [reflexivity |]. split; intros _ _ bits [].
  - destruct (hal_call orig c d Ho Hk) as [Hr Hc].
    cbn [pulse_run last_block_synchronized].
    destruct (hal_stepper_pulse_start _ _ _ c d) as [[[d1 st1] pins1] | |];
      [| split; [discriminate | intros ? ? [=]] | congruence].
    destruct (Hc d1 st1 pins1 eq_refl) as (Hk1 & Hm1 & Hp1 & Hq1).
    destruct (IH d1 Ho Hk1) as [IHr IHc].
    destruct (pulse_run _ _ _ calls d1) as [[d2 pins2] | |];
      [| split; [discriminate | intros ? ? [=]] | congruence].
    split; [discriminate |]. intros d' pins [= <- <-].
    destruct (IHc d2 pins2 eq_refl) as (Hm2 & Hp2 & Hq2).
    split.
    + rewrite Hm2, Hm1.
      destruct (last_block_synchronized calls) as [[] |]; try reflexivity.
      destruct (Stepper.new_block (c_stepper c)); [| reflexivity].
      destruct (Stepper.spindle_sync _); reflexivity.
    + split; intros Ho' Hd bits Hin; apply in_app_or in Hin;
        destruct Hin as [Hin | Hin];
        [ exact (Hp1 Ho' Hd bits Hin) | exact (Hp2 Ho' Hd bits Hin)
        | exact (Hq1 Ho' Hd bits Hin) | exact (Hq2 Ho' Hd bits Hin) ].
Qed.

(** X16.  The pulse routine installed follows the kind of the block being
    run: over any run of calls through [hal.stepper_pulse_start] that starts
    with a normal routine installed, no call calls itself without end, and
    after the run the synchronized routine is installed when the last block
    started was a synchronized one; otherwise the routine installed is the
    one of the start, which the synchronized routine has put back. *)
Theorem pulse_routine_follows_block calls d :
  stepper_pulse_start d <> PulseStartSynchronized ->
  pulse_run f_step_timer pid_enabled pulse_delay_microseconds calls d
  <> Recurses /\
  forall d' pins,
    pulse_run f_step_timer pid_enabled pulse_delay_microseconds calls d
    = Completed (d', pins) ->
    stepper_pulse_start d'
    = match last_block_synchronized calls with
      | Some true => PulseStartSynchronized
      | _ => stepper_pulse_start d
      end.
Proof.
  intros Ho.
  destruct (pulse_run_invariant (stepper_pulse_start d) calls d Ho
                                (or_introl eq_refl)) as [Hr Hc].
  split; [exact Hr |]. intros d' pins Hrun.
  destruct (Hc d' pins Hrun) as [-> _].
  destruct (last_block_synchronized calls) as [[] |]; reflexivity.
Qed.

(** X17.  Synchronized motion keeps the way the step pins are driven: over
    any run of calls that starts with the delayed routine installed, with a
    pulse delay configured, no routine puts step bits on the pins itself
    (they are stored for the pulse timer interrupt); over any run that starts
    with the undelayed routine installed, with no pulse delay configured, no
    routine stores step bits for the interrupt. *)
Theorem pulse_delay_kept_in_synchronized_motion calls d d' pins :
  pulse_run f_step_timer pid_enabled pulse_delay_microseconds calls d
  = Completed (d', pins) ->
  (stepper_pulse_start d = PulseStartDelayed ->
   pulse_delay_microseconds <> 0 ->
   forall bits, ~ In (StepOutputs bits) pins) /\
  (stepper_pulse_start d = PulseStart ->
   pulse_delay_microseconds = 0 ->
   forall bits, ~ In (NextStepOutbits bits) pins).
Proof.
  intros Hrun. split; intros Ho Hd.
  - destruct (pulse_run_invariant PulseStartDelayed calls d
                                  ltac:(discriminate) (or_introl Ho))
      as [_ Hc].
    destruct (Hc d' pins Hrun) as (_ & H & _). now apply H.
  - destruct (pulse_run_invariant PulseStart calls d
                                  ltac:(discriminate) (or_introl Ho))
      as [_ Hc].
    destruct (Hc d' pins Hrun) as (_ & _ & H). now apply H.
Qed.

End PulseFacts.

Section RoutineAgreement.
Import Sync PulseStart.

Variable f_step_timer : Z.
Variable pid_enabled : bool.
Variable pulse_delay_microseconds : Z.

(** The synchronized routine with its pin writes and its way back through
    [hal.stepper_pulse_start] comes to the same as
    [Sync.stepperPulseStartSynchronized]: the same state when it returns,
    a division by zero or a call without end in the same cases. *)
Lemma synchronized_routine_state c d :
  match synchronized_routine f_step_timer pid_enabled pulse_delay_microseconds
                             c d,
        stepperPulseStartSynchronized f_step_timer (c_encoder c) pid_enabled
                                      (c_timer_value c) (c_counter c) d
                                      (c_stepper c) with
  | Completed (d', st', _), Ok (d'', st'') => d' = d'' /\ st' = st''
  | DividesByZero, DivisionByZero => True
  | Recurses, NoReturn => True
  | _, _ => False
  end.
Proof.
  unfold synchronized_routine, stepperPulseStart, stepperPulseStartDelayed,
    normal_routine.
  destruct (Stepper.new_block (c_stepper c)
            && negb (Stepper.spindle_sync (Stepper.exec_segment (c_stepper c))))
    eqn:Hb.
  - unfold stepperPulseStartSynchronized. rewrite Hb.
    apply andb_true_iff in Hb. destruct Hb as [Hn Hs].
    apply negb_true_iff in Hs. rewrite Hn, Hs. cbn [andb].
    destruct (stepper_pulse_start_normal (spindle_tracker d));
      [split; reflexivity | split; reflexivity | exact I].
  - unfold synchronized_body.
    destruct (stepperPulseStartSynchronized _ _ _ _ _ _ _) as [[d1 st1] | |];
      [split; reflexivity | exact I | exact I].
Qed.

End RoutineAgreement.

Section PulseExamples.
Import Sync PulseStart.

(** A synchronized block, then a block that is not: the undelayed routine
    is back. *)
Lemma pulse_routine_follows_block_witness :
  exists d' pins,
    pulse_run 48000000 false 0 Samples.calls_thread
              (Samples.driver_idle PulseStart) = Completed (d', pins) /\
    stepper_pulse_start d' = PulseStart.
Proof.
  pose (r := ltac:(let v := eval vm_compute in
                     (pulse_run 48000000 false 0 Samples.calls_thread
                                (Samples.driver_idle PulseStart)) in
                   match v with Completed ?r => exact r end)).
  assert (Hrun : pulse_run 48000000 false 0 Samples.calls_thread
                           (Samples.driver_idle PulseStart)
                 = Completed (fst r, snd r))
    by (vm_compute; reflexivity).
  exists (fst r), (snd r). split; [exact Hrun |].
  destruct (pulse_routine_follows_block
              48000000 false 0 Samples.calls_thread
              (Samples.driver_idle PulseStart) ltac:(discriminate))
    as [_ H].
  rewrite (H _ _ Hrun). reflexivity.
Defined.

(** The same blocks with a pulse delay of 2 microseconds: the step bits 1
    are never put on the pins by a routine. *)
Lemma pulse_delay_kept_in_synchronized_motion_witness :
  exists d' pins,
    pulse_run 48000000 false 2 Samples.calls_thread
              (Samples.driver_idle PulseStartDelayed) = Completed (d', pins) /\
    (In (StepOutputs 1) pins -> False).
Proof.
  pose (r := ltac:(let v := eval vm_compute in
                     (pulse_run 48000000 false 2 Samples.calls_thread
                                (Samples.driver_idle PulseStartDelayed)) in
                   match v with Completed ?r => exact r end)).
  assert (Hrun : pulse_run 48000000 false 2 Samples.calls_thread
                           (Samples.driver_idle PulseStartDelayed)
                 = Completed (fst r, snd r))
    by (vm_compute; reflexivity).
  exists (fst r), (snd r). split; [exact Hrun |].
  destruct (pulse_delay_kept_in_synchronized_motion
              48000000 false 2 Samples.calls_thread
              (Samples.driver_idle PulseStartDelayed) _ _ Hrun) as [H _].
  apply H; [reflexivity | discriminate].
Defined.

End PulseExamples.

(** ** Homing: the axes to home, the passes of a cycle and the cycles of a
       homing run *)

Section MaskFacts.
Import Limits.

Lemma u8_testbit x (i : nat) :
  Z.testbit (Int.u8 x) (Z.of_nat i) = (i <? 8)%nat && Z.testbit x (Z.of_nat i).
Proof.
  unfold Int.u8, Int.wrap.
  destruct (Nat.ltb_spec i 8).
  - rewrite Z.mod_pow2_bits_low by lia. reflexivity.
  - rewrite Z.mod_pow2_bits_high by lia. reflexivity.
Qed.

Lemma bit_testbit (idx i : nat) :
  Z.testbit (Int.bit idx) (Z.of_nat i) = (idx =? i)%nat.
Proof.
  unfold Int.bit. rewrite Z.shiftl_1_l, Z.pow2_bits_eqb by lia.
  destruct (Nat.eqb_spec idx i); [apply Z.eqb_eq; lia | apply Z.eqb_neq; lia].
Qed.

(** Clearing the axes of [ganged] in a mask clears each of them. *)
Lemma in_mask_cleared homed ganged idx :
  in_mask ganged idx = true ->
  in_mask (Int.u8 (Z.land homed (Z.lnot ganged))) idx = false.
Proof.
  rewrite !in_mask_testbit. intros Hg.
  rewrite u8_testbit, Z.land_spec, Z.lnot_spec, Hg by lia.
  cbn. now rewrite !andb_false_r.
Qed.

Lemma in_mask_small mask (i : nat) :
  0 <= mask < 8 -> (3 <= i)%nat -> in_mask mask i = false.
Proof.
  intros Hm Hi. rewrite in_mask_testbit.
  destruct (Z.eq_dec mask 0) as [-> | Hz]; [apply Z.bits_0 |].
  apply Z.bits_above_log2; [lia |].
  assert (Z.log2 mask < 3) by (apply Z.log2_lt_pow2; lia). lia.
Qed.

End MaskFacts.

Section HomingAxes.
Import Limits Homing.

(** X18.  [limits_set_homing_axes] makes the axes to home those of the
    configured cycles and keeps the homed flags inside them: an axis is in
    [sys.homing.mask] exactly when it is one of the eight axes of a mask and
    in the mask of one of the [N_AXIS] cycles; an axis is marked homed
    afterwards exactly when it was marked homed before and is an axis to
    home. *)
Theorem limits_set_homing_axes_masks cycles homed_ :
  let '(homing_, homed') := limits_set_homing_axes cycles homed_ in
  (forall idx,
      in_mask homing_ idx = true <->
      (idx < 8)%nat /\
      exists n, (n < N_AXIS)%nat /\ in_mask (default 0 (cycles !! n)) idx = true)
  /\
  (forall idx,
      in_mask homed' idx = true <->
      in_mask homed_ idx = true /\ in_mask homing_ idx = true).
Proof.
  unfold limits_set_homing_axes, N_AXIS. cbn [for_each_axis].
  set (c0 := default 0 (cycles !! 0%nat)).
  set (c1 := default 0 (cycles !! 1%nat)).
  set (c2 := default 0 (cycles !! 2%nat)).
  assert (Hh : forall idx,
             in_mask (Int.u8 (Z.lor (Int.u8 (Z.lor (Int.u8 (Z.lor 0 c2)) c1))
                                    c0)) idx
             = (idx <? 8)%nat
               && (in_mask c2 idx || in_mask c1 idx || in_mask c0 idx)).
  { intros idx. rewrite !in_mask_testbit.
    rewrite !u8_testbit, !Z.lor_spec, !u8_testbit, !Z.lor_spec, !u8_testbit,
      Z.lor_spec, Z.bits_0.
    destruct (idx <? 8)%nat; reflexivity. }
  split.
  - intros idx. rewrite Hh. split.
    + intros H. apply andb_true_iff in H. destruct H as [H8 H].
      split; [now apply Nat.ltb_lt |].
      apply orb_true_iff in H. destruct H as [H | H];
        [apply orb_true_iff in H; destruct H as [H | H] |].
      * exists 2%nat. split; [lia | exact H].
      * exists 1%nat. split; [lia | exact H].
      * exists 0%nat. split; [lia | exact H].
    + intros [H8 (n & Hn & H)]. apply Nat.ltb_lt in H8. rewrite H8.
      destruct n as [| [| [| n]]]; [| | | lia];
        fold c0 c1 c2 in H; rewrite H; cbn; rewrite ?orb_true_r; reflexivity.
  - intros idx. rewrite Hh.
    rewrite (in_mask_testbit (Int.u8 _)), u8_testbit, Z.land_spec.
    rewrite <- !in_mask_testbit, Hh.
    destruct (idx <? 8)%nat; destruct (in_mask homed_ idx);
      destruct (in_mask c2 idx || in_mask c1 idx || in_mask c0 idx);
      cbn; intuition congruence.
Qed.

(** Z homes in the first cycle, X and Y in the second, the third is empty;
    X and Z were homed and stay so. *)
Lemma limits_set_homing_axes_masks_witness :
  in_mask (fst (limits_set_homing_axes [4; 3; 0] 5)) 1 = true /\
  in_mask (snd (limits_set_homing_axes [4; 3; 0] 5)) 2 = true.
Proof.
  generalize (limits_set_homing_axes_masks [4; 3; 0] 5).
  destruct (limits_set_homing_axes [4; 3; 0] 5) as [homing_ homed'].
  intros [H1 H2]. cbn [fst snd].
  assert (Hy : in_mask homing_ 1 = true).
  { apply H1. split; [lia |]. exists 1%nat. split; [unfold N_AXIS; lia |].
    reflexivity. }
  split; [exact Hy |].
  apply H2. split; [reflexivity |].
  apply H1. split; [lia |]. exists 0%nat. split; [unfold N_AXIS; lia |].
  reflexivity.
Defined.

End HomingAxes.

Section PassFacts.
Import Limits Homing.

Variable core : core_t.
Variable settings : settings_t.
Variable cycle : Z.

(** The set-up loop of a pass leaves the axes outside the cycle alone. *)
Lemma setup_loop_outside approach_ travel (i : nat) n : forall s,
  in_mask cycle i = false ->
  target (for_each_axis (setup_axis settings cycle approach_ travel) n s) !! i
  = target s !! i /\
  position (for_each_axis (setup_axis settings cycle approach_ travel) n s)
    !! i
  = position s !! i.
Proof.
  induction n as [| n IH]; intros s Hc; [auto |].
  cbn [for_each_axis]. destruct (IH (setup_axis settings cycle approach_
                                                travel n s) Hc) as [-> ->].
  unfold setup_axis. destruct (in_mask cycle n) eqn:Hn; [| auto].
  cbn [target position].
  assert (n <> i) by congruence.
  rewrite !list_lookup_insert_ne by assumption. auto.
Qed.

(** The axes that the set-up loop of a pass unlocks are the axes of the
    cycle. *)
Lemma setup_loop_lock approach_ travel tgt pos (i : nat) :
  in_mask (lock (for_each_axis (setup_axis settings cycle approach_ travel)
                               N_AXIS
                               {| target := tgt; lock := 0;
                                  n_active_axis := 0; position := pos |})) i
  = (i <? N_AXIS)%nat && in_mask cycle i.
Proof.
  unfold N_AXIS. cbn [for_each_axis]. unfold setup_axis.
  destruct (in_mask cycle 2) eqn:H2; cbn [lock];
    destruct (in_mask cycle 1) eqn:H1; cbn [lock];
    destruct (in_mask cycle 0) eqn:H0; cbn [lock];
    (destruct i as [| [| [| i]]];
     [ rewrite H0; reflexivity | rewrite H1; reflexivity
     | rewrite H2; reflexivity
     | apply in_mask_small; [vm_compute; split; [discriminate | reflexivity]
                            | lia] ]).
Qed.

(** X19.  A pass of the homing cycle sets only the axes of the cycle
    moving: the axis lock handed to the stepper holds exactly the axes of the
    cycle among the [N_AXIS] axes; and for every axis outside the cycle the
    target of the move planned is the position the axis has and its step
    count is kept. *)
Theorem homing_pass_moves_cycle_axes n approach_ travel rate m :
  let c := enter_pass core settings cycle n approach_ travel rate m in
  homing_axis_lock (sys (machine c)) = axislock c /\
  (forall idx,
      in_mask (axislock c) idx = true <->
      (idx < N_AXIS)%nat /\ in_mask cycle idx = true) /\
  exists tgt rate',
    planned (machine c) = (tgt, rate') :: planned m /\
    forall idx,
      in_mask cycle idx = false ->
      tgt !! idx
      = system_convert_array_steps_to_mpos core (sys_position m) !! idx /\
      sys_position (machine c) !! idx = sys_position m !! idx.
Proof.
  cbv zeta. unfold enter_pass.
  cbn [machine sys homing_axis_lock axislock planned sys_position].
  split; [reflexivity |]. split.
  - intros idx. rewrite setup_loop_lock, andb_true_iff, Nat.ltb_lt.
    reflexivity.
  - eexists _, _. split; [reflexivity |]. intros idx Hc.
    now apply setup_loop_outside.
Qed.

(** The axes that the lock-out loop leaves moving. *)
Lemma lock_out_step limit_state idx mask (i : nat) :
  in_mask (lock_out limit_state idx mask) i = true ->
  in_mask mask i = true /\ (i = idx -> in_mask limit_state i = false).
Proof.
  unfold lock_out.
  change (negb (Z.land mask (Int.bit idx) =? 0)) with (in_mask mask idx).
  change (negb (Z.land limit_state (Int.bit idx) =? 0))
    with (in_mask limit_state idx).
  destruct (in_mask mask idx && in_mask limit_state idx) eqn:Hc.
  - rewrite in_mask_testbit, u8_testbit, Z.land_spec, Z.lnot_spec by lia.
    rewrite bit_testbit, <- in_mask_testbit. intros H.
    apply andb_true_iff in H. destruct H as [_ H].
    apply andb_true_iff in H. destruct H as [Hm Hn].
    split; [exact Hm |]. intros ->. rewrite Nat.eqb_refl in Hn. discriminate.
  - intros H. split; [exact H |]. intros ->. rewrite H in Hc. exact Hc.
Qed.

Lemma lock_out_loop limit_state (i : nat) n : forall mask,
  in_mask (for_each_axis (lock_out limit_state) n mask) i = true ->
  in_mask mask i = true /\ ((i < n)%nat -> in_mask limit_state i = false).
Proof.
  induction n as [| n IH]; intros mask H.
  - split; [exact H | lia].
  - cbn [for_each_axis] in H. apply IH in H. destruct H as [H Hlt].
    apply lock_out_step in H. destruct H as [H Heq].
    split; [exact H |]. intros Hi.
    destruct (Nat.eq_dec i n) as [E | E]; [now apply Heq | apply Hlt; lia].
Qed.

(** X20.  During an approach an axis whose limit switch is engaged at a
    poll is stopped at that poll and stays stopped for the rest of the pass:
    when the poll leaves the cycle in the same pass, the axis lock handed to
    the stepper is the set of the axes still moving, every axis still moving
    was moving before the poll, and none of the [N_AXIS] axes still moving
    has its switch engaged. *)
Theorem homing_limit_locks_axis c o c' :
  approach c = true ->
  homing_poll core settings cycle c o = Continue c' ->
  n_cycle c' = n_cycle c ->
  homing_axis_lock (sys (machine c')) = axislock c' /\
  forall idx,
    in_mask (axislock c') idx = true ->
    in_mask (axislock c) idx = true /\
    ((idx < N_AXIS)%nat -> in_mask (o_limits o) idx = false).
Proof.
  intros Ha. unfold homing_poll. cbv zeta. rewrite Ha.
  assert (Hleave : forall m,
             leave_pass core settings cycle c m = Continue c' ->
             n_cycle c' <> n_cycle c).
  { intros m. unfold leave_pass. destruct (n_cycle c); [discriminate |].
    intros [= <-]. cbn. lia. }
  destruct (exit_event core _).
  - destruct (sys_rt_exec_alarm _); [discriminate |].
    intros H Hn. now apply Hleave in H.
  - destruct (negb _).
    + intros [= <-] _. cbn [machine axislock sys homing_axis_lock
                            set_homing_axis_lock].
      split; [reflexivity |]. intros idx.
      exact (lock_out_loop (o_limits o) idx N_AXIS (axislock c)).
    + intros H Hn. now apply Hleave in H.
Qed.

Lemma raise_alarms_planned raised : forall m,
  planned (raise_alarms raised m) = planned m.
Proof.
  induction raised as [| code raised IH]; intros m; [reflexivity |].
  simpl. now rewrite IH.
Qed.

Lemma leave_pass_passes c m :
  passes_left m c (leave_pass core settings cycle c m).
Proof.
  unfold leave_pass, passes_left. destruct (n_cycle c); cbn; [auto | lia].
Qed.

Lemma homing_poll_passes c o :
  passes_left (machine c) c (homing_poll core settings cycle c o).
Proof.
  unfold homing_poll. cbv zeta.
  destruct (approach c);
    match goal with
    | |- context [exit_event core (sys_rt_exec_state ?m0)] => set (m := m0)
    end;
    (assert (Hm : planned m = planned (machine c)) by reflexivity);
    (destruct (exit_event core (sys_rt_exec_state m));
     [ destruct (sys_rt_exec_alarm _); [exact I |];
       match goal with
       | |- passes_left _ _ (leave_pass _ _ _ _ ?m1) =>
           pose proof (leave_pass_passes c m1) as H;
             assert (H1 : planned m1 = planned (machine c))
             by (cbn [planned system_clear_exec_state_flag debounce];
                 rewrite raise_alarms_planned; exact Hm)
       end;
       unfold passes_left in *;
       destruct (leave_pass _ _ _ _ _) as [[] ? ? | ?]; rewrite <- ?H1; exact H
     | destruct (negb _);
       [ cbn [passes_left machine n_cycle]; rewrite Hm; reflexivity
       | pose proof (leave_pass_passes c (debounce o m)) as H;
         unfold passes_left in *;
         destruct (leave_pass _ _ _ _ _) as [[] ? ? | ?];
         rewrite <- ?Hm; exact H ] ]).
Qed.

Lemma homing_run_passes trace : forall c m' raised,
  homing_run core settings cycle c trace = Returned true m' raised ->
  length (planned m') = (length (planned (machine c)) + n_cycle c)%nat.
Proof.
  induction trace as [| o trace IH]; intros c m' raised; [discriminate |].
  cbn [homing_run]. pose proof (homing_poll_passes c o) as H.
  destruct (homing_poll core settings cycle c o) as [ok m1 r1 | c1].
  - intros [= -> <- <-]. cbn in H. lia.
  - intros Hrun. apply IH in Hrun. cbn in H. lia.
Qed.

(** X21.  A homing cycle that succeeds has run all its passes: with
    [locate_cycles] in the range of its [uint8_t], it has handed
    [2 * locate_cycles + 2] moves to the planner, the search approach, then
    for every locate cycle a retract and an approach, then the pull-off. *)
Theorem homing_success_passes m trace m' raised :
  0 <= locate_cycles (homing settings) < 256 ->
  limits_homing_cycle core settings cycle m trace = Returned true m' raised ->
  length (planned m')
  = (length (planned m)
     + 2 * Z.to_nat (locate_cycles (homing settings)) + 2)%nat.
Proof.
  intros Hl. unfold limits_homing_cycle.
  destruct (ABORTED core m); [discriminate |].
  intros Hrun. apply homing_run_passes in Hrun. rewrite Hrun.
  cbn [enter_pass machine planned n_cycle length].
  rewrite u32_small by lia. lia.
Qed.

End PassFacts.

Section PassExamples.
Import Limits Homing.

(** The first approach of X and Y from the sample machine: Z is not
    unlocked and keeps its step count. *)
Lemma homing_pass_moves_cycle_axes_witness :
  let c := enter_pass Samples.core_sample (Samples.settings_sample false) 3 3
                      true (F32.of_Z 300) (F32.of_Z 500)
                      Samples.machine_sample in
  in_mask (axislock c) 2 = false /\
  sys_position (machine c) !! 2%nat = Some (-3000).
Proof.
  destruct (homing_pass_moves_cycle_axes
              Samples.core_sample (Samples.settings_sample false) 3 3 true
              (F32.of_Z 300) (F32.of_Z 500) Samples.machine_sample)
    as (_ & Hl & tgt & rate' & _ & Ho).
  split.
  - destruct (in_mask _ 2) eqn:E; [| reflexivity].
    apply Hl in E. destruct E as [_ E]. discriminate E.
  - destruct (Ho 2%nat eq_refl) as [_ H]. rewrite H. reflexivity.
Defined.

(** The second poll of the first approach of X and Y: the X switch is
    engaged; Y keeps moving. *)
Lemma homing_limit_locks_axis_witness :
  exists c c',
    limits_homing_cycle Samples.core_sample (Samples.settings_sample false) 3
                        Samples.machine_sample [Samples.poll 40 (-40) 0 0]
    = Polling c /\
    homing_poll Samples.core_sample (Samples.settings_sample false) 3 c
                (Samples.poll 40 (-40) 1 0) = Continue c' /\
    in_mask (axislock c') 1 = true /\
    in_mask (o_limits (Samples.poll 40 (-40) 1 0)) 1 = false.
Proof.
  pose (c := ltac:(let v := eval vm_compute in
                     (limits_homing_cycle
                        Samples.core_sample (Samples.settings_sample false) 3
                        Samples.machine_sample [Samples.poll 40 (-40) 0 0]) in
                   match v with Polling ?c => exact c end)).
  pose (c' := ltac:(let v := eval vm_compute in
                      (homing_poll
                         Samples.core_sample (Samples.settings_sample false) 3
                         c (Samples.poll 40 (-40) 1 0)) in
                    match v with Continue ?c => exact c end)).
  assert (Hc : limits_homing_cycle
                 Samples.core_sample (Samples.settings_sample false) 3
                 Samples.machine_sample [Samples.poll 40 (-40) 0 0]
               = Polling c) by (vm_compute; reflexivity).
  assert (Hp : homing_poll Samples.core_sample (Samples.settings_sample false)
                           3 c (Samples.poll 40 (-40) 1 0) = Continue c')
    by (vm_compute; reflexivity).
  exists c, c'. split; [exact Hc |]. split; [exact Hp |].
  destruct (homing_limit_locks_axis
              Samples.core_sample (Samples.settings_sample false) 3 c
              (Samples.poll 40 (-40) 1 0) c' eq_refl Hp eq_refl) as [_ H].
  split; [reflexivity |].
  destruct (H 1%nat eq_refl) as [_ Hl]. apply Hl. unfold N_AXIS. lia.
Defined.

(** One locate cycle: four moves. *)
Lemma homing_success_passes_witness :
  exists m' raised,
    limits_homing_cycle Samples.core_sample (Samples.settings_sample false) 3
                        Samples.machine_sample Samples.trace_success
    = Returned true m' raised /\
    length (planned m') = 4%nat.
Proof.
  pose (m' := ltac:(let v := eval vm_compute in
                      (limits_homing_cycle
                         Samples.core_sample (Samples.settings_sample false) 3
                         Samples.machine_sample Samples.trace_success) in
                    match v with Returned true ?m _ => exact m end)).
  assert (Hrun : limits_homing_cycle
                   Samples.core_sample (Samples.settings_sample false) 3
                   Samples.machine_sample Samples.trace_success
                 = Returned true m' [])
    by (vm_compute; reflexivity).
  exists m', []. split; [exact Hrun |].
  rewrite (homing_success_passes
             Samples.core_sample (Samples.settings_sample false) 3
             Samples.machine_sample Samples.trace_success m' []
             ltac:(simpl; lia) Hrun).
  reflexivity.
Defined.

End PassExamples.

Section GoHomeFacts.
Import Limits Homing.

Variable core : core_t.
Variable settings : settings_t.
Variable axis_ganged_x axis_ganged_y axis_ganged_z : bool.
Variable stepper_disable_motors : bool.

Lemma limits_homing_cycle_success cycle m trace m' raised :
  limits_homing_cycle core settings cycle m trace = Returned true m' raised ->
  exists m1, m' = commit settings cycle m1.
Proof.
  unfold limits_homing_cycle. destruct (ABORTED core m); [discriminate |].
  intros H. apply homing_run_success in H as (_ & m1 & -> & _).
  now exists m1.
Qed.

(** X22.  When [limits_go_home] returns true every axis of the cycle is
    marked homed; and when the cycle holds ganged axes and the driver can
    disable motors, it has run the three homing cycles: both motors, the
    first motors alone, the second motors alone, and has then enabled both
    again; else it has run one homing cycle and disabled no motor. *)
Theorem limits_go_home_success cycle m trace1 trace2 trace3 m' raised motors :
  limits_go_home core settings axis_ganged_x axis_ganged_y axis_ganged_z
                 stepper_disable_motors cycle m trace1 trace2 trace3
  = (Returned true m' raised, motors) ->
  let ganged :=
    Z.land (axes_signals axis_ganged_x axis_ganged_y axis_ganged_z) cycle in
  (forall idx, (idx < 8)%nat -> in_mask cycle idx = true ->
               in_mask (homed (sys m')) idx = true) /\
  motors =
  (if negb (ganged =? 0) && stepper_disable_motors
   then [(ganged, SquaringMode_A); (ganged, SquaringMode_B);
         (0, SquaringMode_Both)]
   else []).
Proof.
  cbv zeta. unfold limits_go_home.
  set (ganged := Z.land (axes_signals axis_ganged_x axis_ganged_y
                                      axis_ganged_z) cycle).
  assert (Hhomed : forall m0 t r,
             limits_homing_cycle core settings cycle m0 t
             = Returned true m' r ->
             forall idx, (idx < 8)%nat -> in_mask cycle idx = true ->
                         in_mask (homed (sys m')) idx = true).
  { intros m0 t r H idx Hi Hc.
    apply limits_homing_cycle_success in H as (m1 & ->).
    cbn [commit sys homed]. now apply in_mask_marked. }
  destruct (limits_homing_cycle core settings cycle m trace1)
    as [[] m1 r1 | c1] eqn:H1; try (intros [=]; fail).
  destruct (negb (ganged =? 0) && stepper_disable_motors).
  - destruct (limits_homing_cycle core settings cycle (clear_homed ganged m1)
                                  trace2)
      as [[] m2 r2 | c2] eqn:H2; try (intros [=]; fail).
    destruct (limits_homing_cycle core settings cycle (clear_homed ganged m2)
                                  trace3)
      as [ok m3 r3 | c3] eqn:H3; try (intros [=]; fail).
    intros [= -> <- <- <-]. split; [| reflexivity].
    exact (Hhomed _ _ _ H3).
  - intros [= <- <- <-]. split; [| reflexivity]. exact (Hhomed _ _ _ H1).
Qed.

Hypothesis mc_reset_homed :
  forall m, homed (sys (mc_reset core m)) = homed (sys m).
Hypothesis protocol_execute_realtime_homed :
  forall m, homed (sys (protocol_execute_realtime core m)) = homed (sys m).

(** X23.  A homing run that fails while it squares ganged axes leaves
    them not homed and the motors enabled: when [limits_go_home] returns
    false after it has disabled motors, no ganged axis of the cycle is marked
    homed, and its last call of [hal.stepper_disable_motors] is the one that
    enables both motors of every axis.  ([mc_reset] and
    [protocol_execute_realtime] are taken to leave the homed flags alone.) *)
Theorem limits_go_home_squaring_failure cycle m trace1 trace2 trace3 m' raised
        motors :
  limits_go_home core settings axis_ganged_x axis_ganged_y axis_ganged_z
                 stepper_disable_motors cycle m trace1 trace2 trace3
  = (Returned false m' raised, motors) ->
  motors <> [] ->
  let ganged :=
    Z.land (axes_signals axis_ganged_x axis_ganged_y axis_ganged_z) cycle in
  (forall idx, in_mask ganged idx = true ->
               in_mask (homed (sys m')) idx = false) /\
  last motors = Some (0, SquaringMode_Both).
Proof.
  cbv zeta. unfold limits_go_home.
  set (ganged := Z.land (axes_signals axis_ganged_x axis_ganged_y
                                      axis_ganged_z) cycle).
  assert (Hfail : forall m0 t r,
             limits_homing_cycle core settings cycle (clear_homed ganged m0) t
             = Returned false m' r ->
             forall idx, in_mask ganged idx = true ->
                         in_mask (homed (sys m')) idx = false).
  { intros m0 t r H idx Hg.
    apply (limits_homing_cycle_failed core settings cycle mc_reset_homed
                                      protocol_execute_realtime_homed) in H.
    rewrite H. cbn [clear_homed sys homed]. now apply in_mask_cleared. }
  destruct (limits_homing_cycle core settings cycle m trace1)
    as [[] m1 r1 | c1] eqn:H1;
    [| intros [= <- <- <-] Hm; congruence | intros [= <- <-]; congruence].
  destruct (negb (ganged =? 0) && stepper_disable_motors);
    [| intros [=]].
  destruct (limits_homing_cycle core settings cycle (clear_homed ganged m1)
                                trace2)
    as [[] m2 r2 | c2] eqn:H2; [| | intros [=]].
  - destruct (limits_homing_cycle core settings cycle (clear_homed ganged m2)
                                  trace3)
      as [ok m3 r3 | c3] eqn:H3; [| intros [=]].
    intros [= -> <- <- <-] _. split; [| reflexivity].
    exact (Hfail _ _ _ H3).
  - intros [= <- <- <-] _. split; [| reflexivity]. exact (Hfail _ _ _ H2).
Qed.

End GoHomeFacts.

Section GoHomeExamples.
Import Limits Homing.

(** Homing X and Y with the X axis ganged: three cycles, and both axes end
    homed. *)
Lemma limits_go_home_success_witness :
  exists m' raised motors,
    limits_go_home Samples.core_sample (Samples.settings_sample false)
                   true false false true 3 Samples.machine_sample
                   Samples.trace_success Samples.trace_success
                   Samples.trace_success
    = (Returned true m' raised, motors) /\
    in_mask (homed (sys m')) 0 = true /\
    in_mask (homed (sys m')) 1 = true /\
    motors = [(1, SquaringMode_A); (1, SquaringMode_B);
              (0, SquaringMode_Both)].
Proof.
  pose (m' := ltac:(let v := eval vm_compute in
                      (limits_go_home
                         Samples.core_sample (Samples.settings_sample false)
                         true false false true 3 Samples.machine_sample
                         Samples.trace_success Samples.trace_success
                         Samples.trace_success) in
                    match v with (Returned true ?m _, _) => exact m end)).
  assert (Hrun : limits_go_home
                   Samples.core_sample (Samples.settings_sample false)
                   true false false true 3 Samples.machine_sample
                   Samples.trace_success Samples.trace_success
                   Samples.trace_success
                 = (Returned true m' [],
                    [(1, SquaringMode_A); (1, SquaringMode_B);
                     (0, SquaringMode_Both)]))
    by (vm_compute; reflexivity).
  exists m', [], [(1, SquaringMode_A); (1, SquaringMode_B);
                  (0, SquaringMode_Both)].
  split; [exact Hrun |].
  destruct (limits_go_home_success
              Samples.core_sample (Samples.settings_sample false)
              true false false true 3 Samples.machine_sample
              Samples.trace_success Samples.trace_success
              Samples.trace_success m' [] _ Hrun) as [H _].
  split; [apply H; [lia | reflexivity] |].
  split; [apply H; [lia | reflexivity] | reflexivity].
Defined.

(** The same run with a reset during the cycle of the first motors: X is
    left not homed. *)
Lemma limits_go_home_squaring_failure_witness :
  exists m' raised motors,
    limits_go_home Samples.core_sample (Samples.settings_sample false)
                   true false false true 3 Samples.machine_sample
                   Samples.trace_success Samples.trace_reset
                   Samples.trace_success
    = (Returned false m' raised, motors) /\
    in_mask (homed (sys m')) 0 = false /\
    last motors = Some (0, SquaringMode_Both).
Proof.
  pose (m' := ltac:(let v := eval vm_compute in
                      (limits_go_home
                         Samples.core_sample (Samples.settings_sample false)
                         true false false true 3 Samples.machine_sample
                         Samples.trace_success Samples.trace_reset
                         Samples.trace_success) in
                    match v with (Returned false ?m _, _) => exact m end)).
  assert (Hrun : limits_go_home
                   Samples.core_sample (Samples.settings_sample false)
                   true false false true 3 Samples.machine_sample
                   Samples.trace_success Samples.trace_reset
                   Samples.trace_success
                 = (Returned false m' [Alarm_HomingFailReset],
                    [(1, SquaringMode_A); (0, SquaringMode_Both)]))
    by (vm_compute; reflexivity).
  exists m', [Alarm_HomingFailReset],
         [(1, SquaringMode_A); (0, SquaringMode_Both)].
  split; [exact Hrun |].
  destruct (limits_go_home_squaring_failure
              Samples.core_sample (Samples.settings_sample false)
              true false false true
              ltac:(intros m; reflexivity) ltac:(intros m; reflexivity)
              3 Samples.machine_sample
              Samples.trace_success Samples.trace_reset
              Samples.trace_success m' [Alarm_HomingFailReset] _ Hrun
              ltac:(discriminate)) as [H Hl].
  split; [apply H; reflexivity | exact Hl].
Defined.

End GoHomeExamples.

(** ** Settings and outputs: the pulse delay, the coolant and the spindle
       state read back *)

Section SettingsFacts.
Import Sync PulseStart.

Variable f_step_timer : Z.
Variable pid_enabled : bool.

(** X24.  [settings_changed] makes every pulse routine drive the step pins
    the way the pulse timer is set up: with the step pulse delay capability
    on, as [driver_init] sets it, the interrupt that puts the stored step
    bits on the pins is enabled exactly when a pulse delay is configured; and
    over any run of calls from then on, normal or spindle-synchronized, the
    routines store the step bits for that interrupt when a delay is
    configured, never putting them on the pins themselves, and put them on
    the pins themselves when none is, never storing them. *)
Theorem settings_changed_pulse_consistent pulse_microseconds
        pulse_delay_microseconds d calls d' pins :
  let configured :=
    settings_changed_pulse true pulse_microseconds pulse_delay_microseconds d in
  pulse_run f_step_timer pid_enabled pulse_delay_microseconds calls
            (fst configured) = Completed (d', pins) ->
  pulse_ccie1 (snd configured) = negb (pulse_delay_microseconds =? 0) /\
  (pulse_delay_microseconds <> 0 ->
   forall bits, ~ In (StepOutputs bits) pins) /\
  (pulse_delay_microseconds = 0 ->
   forall bits, ~ In (NextStepOutbits bits) pins).
Proof.
  cbv zeta. unfold settings_changed_pulse. cbn [fst snd pulse_ccie1 andb].
  intros Hrun. split; [reflexivity |].
  destruct (Z.eqb_spec pulse_delay_microseconds 0) as [E | E];
    cbn [negb] in Hrun.
  - destruct (pulse_run_invariant
                f_step_timer pid_enabled pulse_delay_microseconds PulseStart
                calls (set_stepper_pulse_start PulseStart d)
                ltac:(discriminate) (or_introl eq_refl)) as [_ Hc].
    destruct (Hc d' pins Hrun) as (_ & _ & H).
    split; [intros Hn; contradiction | intros _; now apply H].
  - destruct (pulse_run_invariant
                f_step_timer pid_enabled pulse_delay_microseconds
                PulseStartDelayed calls
                (set_stepper_pulse_start PulseStartDelayed d)
                ltac:(discriminate) (or_introl eq_refl)) as [_ Hc].
    destruct (Hc d' pins Hrun) as (_ & H & _).
    split; [intros _; now apply H | intros Hz; contradiction].
Qed.

End SettingsFacts.

Section SettingsExamples.
Import Sync PulseStart.

(** A pulse of 10 microseconds after a delay of 2: the thread-cutting calls
    store the step bits 1 and never put them on the pins. *)
Lemma settings_changed_pulse_consistent_witness :
  exists d' pins,
    pulse_run 48000000 false 2 Samples.calls_thread
              (fst (settings_changed_pulse true 10 2
                                           (Samples.driver_idle PulseStart)))
    = Completed (d', pins) /\
    In (NextStepOutbits 1) pins /\
    (In (StepOutputs 1) pins -> False).
Proof.
  pose (r := ltac:(let v := eval vm_compute in
                     (pulse_run 48000000 false 2 Samples.calls_thread
                                (fst (settings_changed_pulse
                                        true 10 2
                                        (Samples.driver_idle PulseStart)))) in
                   match v with Completed ?r => exact r end)).
  assert (Hrun : pulse_run 48000000 false 2 Samples.calls_thread
                           (fst (settings_changed_pulse
                                   true 10 2 (Samples.driver_idle PulseStart)))
                 = Completed (fst r, snd r))
    by (vm_compute; reflexivity).
  exists (fst r), (snd r). split; [exact Hrun |].
  split; [vm_compute; auto |].
  destruct (settings_changed_pulse_consistent
              48000000 false 10 2 (Samples.driver_idle PulseStart)
              Samples.calls_thread _ _ Hrun) as (_ & H & _).
  apply H. discriminate.
Defined.

End SettingsExamples.

Section ReadBackFacts.
Import Coolant SpindleControl.

(** X25.  The coolant state read back is the state set: when the input
    registers of the flood and mist pins read the levels that
    [coolantSetState] has put out, [coolantGetState] returns the flood and
    mist flags it was given, whatever the inversion mask. *)
Theorem coolant_state_read_back invert mode :
  coolantGetState invert (coolantSetState invert mode) = mode.
Proof.
  destruct mode as [[] []], invert as [[] []]; reflexivity.
Qed.

Variable config : config_t.

(** X26.  The spindle state read back is the state set: after
    [spindleSetState], with a direction output and the PWM not enabled, and
    the input registers of the enable and direction pins reading the levels
    put out, [spindleGetState] reports the spindle on exactly when it was
    switched on and counter-clockwise exactly when it was switched on
    counter-clockwise, whatever the inversion mask. *)
Theorem spindle_state_read_back timer_value on_ ccw_ tv counter s :
  spindle_dir_cap config = true ->
  pwmEnabled s = false ->
  let s' := spindleSetState config timer_value on_ ccw_ s in
  let state :=
    fst (spindleGetState config (enable_pin s') (direction_pin s') tv counter
                         s') in
  on state = on_ /\ ccw state = on_ && ccw_.
Proof.
  intros Hcap Hpwm. cbv zeta.
  unfold spindleSetState, spindleGetState, spindle_off, spindle_on,
    spindle_dir, spindleDataReset.
  destruct on_; cbn; rewrite Hcap, Hpwm;
    destruct (invert_on config); destruct (invert_ccw config);
    destruct ccw_; split; reflexivity.
Qed.

End ReadBackFacts.

Section ReadBackExamples.
Import SpindleControl.

(** The spindle at rest switched on counter-clockwise. *)
Lemma spindle_state_read_back_witness :
  let s' := spindleSetState Samples.spindle_config 4294967295 true true
                            Samples.spindle_stopped in
  let state :=
    fst (spindleGetState Samples.spindle_config (enable_pin s')
                         (direction_pin s') 4294960000 0 s') in
  on state = true /\ ccw state = true.
Proof.
  apply (spindle_state_read_back Samples.spindle_config 4294967295 true true
                                 4294960000 0 Samples.spindle_stopped);
    reflexivity.
Defined.

End ReadBackExamples.

(** ** The regulator while it settles and the homed flags of a homing cycle *)

Section SettlingFacts.
Import Regulator.

Variable SPINDLE_PID_SAMPLE_RATE : Z.
Variable spindle_compute_pwm_value : F32.float -> bool -> Z.

(** A tick of a pending regulator writes neither the PID nor the PWM
    compare register. *)
Lemma tick_pending_frame r enc data :
  pid_state (spindle_control r) = PIDState_Pending ->
  let t := SysTick_Handler SPINDLE_PID_SAMPLE_RATE spindle_compute_pwm_value
                           r enc data in
  pid (spindle_control (fst (fst t))) = pid (spindle_control r) /\
  pwm_ccr (fst (fst t)) = pwm_ccr r.
Proof.
  intros Hp. cbv zeta. unfold SysTick_Handler. rewrite Hp.
  repeat match goal with
         | |- context [if ?c =? 0 then _ else _] => destruct (c =? 0)
         | |- context [if ?c <? 500 then _ else _] => destruct (c <? 500)
         | |- context [if ?c >? 2 then _ else _] => destruct (c >? 2)
         end; split; reflexivity.
Qed.

(** X27.  While it is pending the regulator leaves the spindle to the
    programmed PWM value: over any run of ticks that starts and ends with the
    regulator pending, neither the PID nor the PWM compare register has been
    written. *)
Theorem regulator_pending_leaves_pwm captures : forall r enc data,
  pid_state (spindle_control r) = PIDState_Pending ->
  let r' := fst (SysTick_run SPINDLE_PID_SAMPLE_RATE spindle_compute_pwm_value
                             r enc data captures) in
  pid_state (spindle_control r') = PIDState_Pending ->
  pid (spindle_control r') = pid (spindle_control r) /\
  pwm_ccr r' = pwm_ccr r.
Proof.
  induction captures as [| [tpp_now index_now] captures IH];
    intros r enc data Hp; cbv zeta.
  - intros _. split; reflexivity.
  - rewrite SysTick_run_cons. cbv zeta.
    destruct (tick_pending_frame r (fst (capture tpp_now index_now enc data))
                                 (snd (capture tpp_now index_now enc data)) Hp)
      as [Hpid Hpwm].
    pose proof (tick_pending_state
                  SPINDLE_PID_SAMPLE_RATE spindle_compute_pwm_value r
                  (fst (capture tpp_now index_now enc data))
                  (snd (capture tpp_now index_now enc data)) Hp) as Hs.
    unfold state_after in Hs.
    set (t := SysTick_Handler SPINDLE_PID_SAMPLE_RATE spindle_compute_pwm_value
                r (fst (capture tpp_now index_now enc data))
                (snd (capture tpp_now index_now enc data))) in *.
    destruct (pid_state (spindle_control (fst (fst t)))) eqn:Hst.
    + exfalso.
      destruct (pid_count r <? 500); [discriminate |].
      destruct (Data.index_count _ >? 2); discriminate.
    + intros Hend.
      destruct (IH (fst (fst t)) (snd (fst t))
                   (snd (capture tpp_now index_now enc data)) Hst Hend)
        as [-> ->].
      split; assumption.
    + intros Hend.
      rewrite (active_run SPINDLE_PID_SAMPLE_RATE spindle_compute_pwm_value
                          captures _ _ _ Hst) in Hend.
      discriminate.
Qed.

End SettlingFacts.

Section SettlingExamples.
Import Regulator.

(** The first 12 ticks of the settling window. *)
Lemma regulator_pending_leaves_pwm_witness :
  pwm_ccr (fst (SysTick_run 5 Samples.pwm_of_rpm (Samples.regulator_pending 0)
                            (Samples.encoder_running F32.zero)
                            Samples.data_6000 (Samples.ticks_steady 12)))
  = 100.
Proof.
  destruct (regulator_pending_leaves_pwm
              5 Samples.pwm_of_rpm (Samples.ticks_steady 12)
              (Samples.regulator_pending 0) (Samples.encoder_running F32.zero)
              Samples.data_6000 eq_refl) as [_ H].
  - vm_compute. reflexivity.
  - rewrite H. reflexivity.
Defined.

End SettlingExamples.

Section HomedFacts.
Import Limits.

Variable core : core_t.
Variable settings : settings_t.
Variable cycle : Z.

(** X28.  A homing cycle that succeeds marks the axes of the cycle homed
    and changes no other homed flag: [sys.homed.mask] ends as the mask of the
    start with the mask of the cycle added, in 8 bits; an axis outside the
    cycle is homed afterwards exactly when it was before. *)
Theorem homing_success_homed_mask m trace m' raised :
  limits_homing_cycle core settings cycle m trace = Returned true m' raised ->
  homed (sys m') = Int.u8 (Z.lor (homed (sys m)) cycle) /\
  forall idx, (idx < 8)%nat -> in_mask cycle idx = false ->
              in_mask (homed (sys m')) idx = in_mask (homed (sys m)) idx.
Proof.
  unfold limits_homing_cycle. destruct (ABORTED core m); [discriminate |].
  intros H. apply homing_run_success in H as (_ & m1 & -> & [Hh _]).
  rewrite enter_pass_homed in Hh.
  assert (Heq : homed (sys (commit settings cycle m1))
                = Int.u8 (Z.lor (homed (sys m)) cycle))
    by (cbn [commit sys homed]; rewrite Hh; reflexivity).
  split; [exact Heq |]. intros idx Hi Hc. rewrite Heq.
  rewrite (in_mask_testbit (Int.u8 _)), u8_testbit, Z.lor_spec.
  rewrite <- !in_mask_testbit, Hc, orb_false_r.
  apply Nat.ltb_lt in Hi. rewrite Hi. reflexivity.
Qed.

End HomedFacts.

Section HomedExamples.
Import Limits.

(** Homing X and Y on the sample machine, whose Z axis is homed: all three
    are homed afterwards. *)
Lemma homing_success_homed_mask_witness :
  exists m' raised,
    limits_homing_cycle Samples.core_sample (Samples.settings_sample false) 3
                        Samples.machine_sample Samples.trace_success
    = Returned true m' raised /\
    homed (sys m') = 7.
Proof.
  pose (m' := ltac:(let v := eval vm_compute in
                      (limits_homing_cycle
                         Samples.core_sample (Samples.settings_sample false) 3
                         Samples.machine_sample Samples.trace_success) in
                    match v with Returned true ?m _ => exact m end)).
  assert (Hrun : limits_homing_cycle
                   Samples.core_sample (Samples.settings_sample false) 3
                   Samples.machine_sample Samples.trace_success
                 = Returned true m' [])
    by (vm_compute; reflexivity).
  exists m', []. split; [exact Hrun |].
  destruct (homing_success_homed_mask
              Samples.core_sample (Samples.settings_sample false) 3
              Samples.machine_sample Samples.trace_success m' [] Hrun)
    as [H _].
  rewrite H. reflexivity.
Defined.

End HomedExamples.
